(** * JSON_Server: a shallow embedding of [main.go]

    The server decodes [index.json] into a Go map, separates the reserved
    [flags] entry from the content blocks, optionally resolves a design
    prompt into a cached template layer, and renders every (tag, value)
    pair through a template, a builtin HTML element, or the client-side
    [customContent] script channel.

    Go strings are byte strings and are modelled by [string] (a list of
    8-bit [ascii]).  Go maps are modelled by their entries; [range] over a
    map enumerates them in an order the language leaves unspecified, so
    every loop over a map takes the enumeration as an explicit argument
    constrained to be a permutation of the entries.  The package variable
    [templates], the directory tree under [components/] and the process id
    form an explicit process state.  What the program calls in the Go
    libraries is either modelled ([encoding/json], [crypto/md5],
    [encoding/hex], the file operations) or kept abstract behind a class
    (floating-point printing, Unicode case mapping and trimming, the
    template engine).

    The repository holds a second Go file, a later revision of the same
    program; its [renderHTML] is embedded in [Revision]. *)

From Stdlib Require Import ZArith Ascii String List Lia.
From stdpp Require Import base option list sorting strings pretty gmap.

Local Open Scope string_scope.
Local Open Scope list_scope.

(** ** Byte strings *)

(** [strings.HasPrefix(s, prefix)]. *)
Fixpoint HasPrefix (s p : string) {struct p} : bool :=
  match p, s with
  | EmptyString, _ => true
  | String c p', String d s' => if Ascii.eqb c d then HasPrefix s' p' else false
  | String _ _, EmptyString => false
  end.

(** [strings.Contains(s, substr)]. *)
Fixpoint Contains (s sub : string) : bool :=
  HasPrefix s sub ||
  match s with
  | EmptyString => false
  | String _ s' => Contains s' sub
  end.

(** [strings.Join(parts, sep)]. *)
Fixpoint Join (parts : list string) (sep : string) : string :=
  match parts with
  | [] => EmptyString
  | [x] => x
  | x :: rest => x +:+ sep +:+ Join rest sep
  end.

(** Concatenation of a sequence of writes to the same writer. *)
Fixpoint concatS (parts : list string) : string :=
  match parts with
  | [] => EmptyString
  | x :: rest => x +:+ concatS rest
  end.

(** The one-byte string holding a double quote (byte 34). *)
Definition DQ : string := String (ascii_of_nat 34) EmptyString.

(** ASCII case folding, the restriction of [strings.ToLower] to ASCII
    input; bytes outside [A-Z] are kept. *)
Definition lowerByte (c : ascii) : ascii :=
  let n := nat_of_ascii c in
  if (65 <=? n)%nat && (n <=? 90)%nat then ascii_of_nat (n + 32) else c.

Fixpoint asciiToLower (s : string) : string :=
  match s with
  | EmptyString => EmptyString
  | String c s' => String (lowerByte c) (asciiToLower s')
  end.

(** ASCII white space as [unicode.IsSpace] sees it below U+0080:
    tab, line feed, vertical tab, form feed, carriage return, space. *)
Definition isSpaceByte (c : ascii) : bool :=
  let n := nat_of_ascii c in
  ((9 <=? n)%nat && (n <=? 13)%nat) || (n =? 32)%nat.

Fixpoint trimLeft (s : string) : string :=
  match s with
  | String c s' => if isSpaceByte c then trimLeft s' else s
  | EmptyString => EmptyString
  end.

Fixpoint trimRight (s : string) : string :=
  match s with
  | EmptyString => EmptyString
  | String c s' =>
      match trimRight s' with
      | EmptyString => if isSpaceByte c then EmptyString else String c EmptyString
      | t => String c t
      end
  end.

Definition asciiTrimSpace (s : string) : string := trimRight (trimLeft s).

(** ** The Go runtime pieces the program calls but does not define

    [float64] stands for the finite numbers [json.Unmarshal] produces;
    their two printers ([fmt]'s [%v] and [encoding/json]'s number encoder)
    are floating-point formatting and stay abstract.  [strings.ToLower] and
    [strings.TrimSpace] consult Unicode tables and stay abstract as well;
    [asciiToLower] and [asciiTrimSpace] give their behaviour on ASCII. *)
Class GoRuntime := {
  float64 : Type;
  formatFloat : float64 -> string;
  marshalFloat : float64 -> string;
  ToLower : string -> string;
  TrimSpace : string -> string;
}.

(** ** generateTemplates: keyword-driven style derivation *)

(** The four local variables of [generateTemplates]. *)
Record style := mkStyle {
  bgColor : string;
  textColor : string;
  accentColor : string;
  font : string;
}.

Definition defaultStyle : style :=
  mkStyle "#ffffff" "#333333" "#3498db" "sans-serif".

(** The four [if strings.Contains(promptLower, kw)] statements, in the
    order of the source; each one assigns over the current values. *)
Definition applyDark (promptLower : string) (s : style) : style :=
  if Contains promptLower "dark"
  then mkStyle "#2c3e50" "#ecf0f1" "#e74c3c" (font s) else s.

Definition applyMoody (promptLower : string) (s : style) : style :=
  if Contains promptLower "moody"
  then mkStyle "#1a1a1a" "#dcdcdc" "#8e44ad" (font s) else s.

Definition applyClean (promptLower : string) (s : style) : style :=
  if Contains promptLower "clean"
  then mkStyle (bgColor s) (textColor s) (accentColor s)
         "'Helvetica Neue', Helvetica, Arial, sans-serif"
  else s.

Definition applySerif (promptLower : string) (s : style) : style :=
  if Contains promptLower "serif"
  then mkStyle (bgColor s) (textColor s) (accentColor s) "Georgia, serif"
  else s.

Definition deriveStyle `{GoRuntime} (prompt : string) : style :=
  let promptLower := ToLower prompt in
  applySerif promptLower
    (applyClean promptLower
       (applyMoody promptLower
          (applyDark promptLower defaultStyle))).

(** [h1Content] and [divContent], the two [fmt.Sprintf] results. *)
Definition h1Content (s : style) : string :=
  "<h1 style=" +:+ DQ +:+ "color: " +:+ accentColor s +:+ "; font-family: "
  +:+ font s +:+ "; border-bottom: 2px solid " +:+ accentColor s +:+ ";"
  +:+ DQ +:+ ">{{.}}</h1>".

Definition divContent (s : style) : string :=
  "<div style=" +:+ DQ +:+ "background: " +:+ bgColor s +:+ "; color: "
  +:+ textColor s +:+ "; padding: 20px; border-radius: 8px; margin: 10px 0;"
  +:+ DQ +:+ ">{{.}}</div>".

(** A line feed (byte 10). *)
Definition NL : string := String (ascii_of_nat 10) EmptyString.

(** ** Decoded JSON values

    What [json.Unmarshal] stores in an [interface{}]: [nil], [bool],
    [float64], [string], [[]interface{}] and [map[string]interface{}].
    A map is given by its entries (distinct keys); every consumer either
    sorts them by key ([fmt], [encoding/json]) or ranges over them. *)
#[warnings="-register-all"]
Inductive value `{GoRuntime} : Type :=
  | VNil
  | VBool (b : bool)
  | VNum (f : float64)
  | VStr (s : string)
  | VList (l : list value)
  | VMap (m : list (string * value)).

(** Byte-wise order on map keys, as [fmt] and [encoding/json] sort them. *)
Definition keyLe {A} (x y : string * A) : Prop := String.leb x.1 y.1 = true.

#[global] Instance keyLe_dec {A} (x y : string * A) : Decision (keyLe x y).
Proof. unfold keyLe. apply _. Defined.

Definition sortByKey {A} (l : list (string * A)) : list (string * A) :=
  merge_sort keyLe l.

Section Values.
Context {G : GoRuntime}.

(** [fmt.Sprintf("%v", v)]. *)
Fixpoint fmtValue (v : value) : string :=
  match v with
  | VNil => "<nil>"
  | VBool true => "true"
  | VBool false => "false"
  | VNum f => formatFloat f
  | VStr s => s
  | VList l => "[" +:+ Join (map fmtValue l) " " +:+ "]"
  | VMap m =>
      "map["
      +:+ Join (map (fun kv : string * string => kv.1 +:+ ":" +:+ kv.2)
                  (sortByKey (map (fun '(k, x) => (k, fmtValue x)) m))) " "
      +:+ "]"
  end.

(** *** [encoding/json]: string encoding with HTML escaping on *)

Definition byteVal (c : ascii) : N := N_of_ascii c.

Definition inRange (c : ascii) (lo hi : N) : bool :=
  ((lo <=? byteVal c) && (byteVal c <=? hi))%N.

(** [htmlSafeSet]: printable ASCII and DEL, without the double quote,
    ampersand, less-than, greater-than and backslash. *)
Definition htmlSafe (c : ascii) : bool :=
  inRange c 32 127
  && negb (byteVal c =? 34)%N && negb (byteVal c =? 38)%N
  && negb (byteVal c =? 60)%N && negb (byteVal c =? 62)%N
  && negb (byteVal c =? 92)%N.

Definition hexDigit (n : N) : ascii :=
  match n with
  | 0 => "0" | 1 => "1" | 2 => "2" | 3 => "3" | 4 => "4" | 5 => "5"
  | 6 => "6" | 7 => "7" | 8 => "8" | 9 => "9" | 10 => "a" | 11 => "b"
  | 12 => "c" | 13 => "d" | 14 => "e" | _ => "f"
  end%N%char.

(** The escape written for an ASCII byte outside [htmlSafeSet]. *)
Definition escapeByte (c : ascii) : string :=
  match byteVal c with
  | 92 => "\\"
  | 34 => "\" +:+ DQ
  | 8 => "\b"
  | 12 => "\f"
  | 10 => "\n"
  | 13 => "\r"
  | 9 => "\t"
  | n => "\u00" +:+ String (hexDigit (n / 16)) (String (hexDigit (n mod 16)) EmptyString)
  end%N.

(** Length of the UTF-8 sequence at the head of [s] as
    [utf8.DecodeRuneInString] accepts it ([None]: [RuneError], width 1). *)
Definition isCont (c : ascii) : bool := inRange c 128 191.

Fixpoint allCont (n : nat) (s : string) : bool :=
  match n, s with
  | O, _ => true
  | S n', String c s' => isCont c && allCont n' s'
  | S _, EmptyString => false
  end.

(** The table [first] of [unicode/utf8] for a leading byte above 0x7F:
    the range accepted for the second byte and the number of continuation
    bytes after it. *)
Definition runeClass (b0 : ascii) : option (N * N * nat) :=
  (if inRange b0 194 223 then Some (128, 191, 0%nat)
   else if inRange b0 224 224 then Some (160, 191, 1%nat)
   else if inRange b0 225 236 then Some (128, 191, 1%nat)
   else if inRange b0 237 237 then Some (128, 159, 1%nat)
   else if inRange b0 238 239 then Some (128, 191, 1%nat)
   else if inRange b0 240 240 then Some (144, 191, 2%nat)
   else if inRange b0 241 243 then Some (128, 191, 2%nat)
   else if inRange b0 244 244 then Some (128, 143, 2%nat)
   else None)%N.

Definition runeSize (s : string) : option nat :=
  match s with
  | EmptyString => None
  | String b0 r0 =>
      if inRange b0 0 127 then Some 1%nat
      else
        match runeClass b0, r0 with
        | Some (lo, hi, more), String b1 r1 =>
            if inRange b1 lo hi && allCont more r1 then Some (2 + more)%nat
            else None
        | _, _ => None
        end
  end.

Fixpoint takeS (n : nat) (s : string) : string :=
  match n, s with
  | S n', String c s' => String c (takeS n' s')
  | _, _ => EmptyString
  end.

Fixpoint dropS (n : nat) (s : string) : string :=
  match n, s with
  | S n', String _ s' => dropS n' s'
  | _, _ => s
  end.

(** U+2028 and U+2029 are the sequences E2 80 A8 and E2 80 A9. *)
Definition lineSeparator (s : string) : option ascii :=
  match s with
  | String b0 (String b1 (String b2 _)) =>
      if (byteVal b0 =? 226)%N && (byteVal b1 =? 128)%N then
        if (byteVal b2 =? 168)%N then Some "8"%char
        else if (byteVal b2 =? 169)%N then Some "9"%char
        else None
      else None
  | _ => None
  end.

(** The loop of [appendString]; [fuel] bounds the number of runes and is
    the byte length of the source. *)
Fixpoint appendRunes (fuel : nat) (src : string) : string :=
  match fuel, src with
  | S fuel', String b rest =>
      if inRange b 0 127 then
        (if htmlSafe b then String b EmptyString else escapeByte b)
        +:+ appendRunes fuel' rest
      else
        match runeSize src with
        | None => "\ufffd" +:+ appendRunes fuel' rest
        | Some n =>
            match lineSeparator src with
            | Some d => "\u202" +:+ String d (appendRunes fuel' (dropS n src))
            | None => takeS n src +:+ appendRunes fuel' (dropS n src)
            end
        end
  | _, _ => EmptyString
  end.

Definition appendString (src : string) : string :=
  DQ +:+ appendRunes (String.length src) src +:+ DQ.

(** [json.Marshal(v)] for a decoded value: object keys sorted, no white
    space.  It cannot fail on such a value, so the error the program
    discards is always nil. *)
Fixpoint Marshal (v : value) : string :=
  match v with
  | VNil => "null"
  | VBool true => "true"
  | VBool false => "false"
  | VNum f => marshalFloat f
  | VStr s => appendString s
  | VList l => "[" +:+ Join (map Marshal l) "," +:+ "]"
  | VMap m =>
      "{"
      +:+ Join (map (fun kv : string * string => appendString kv.1 +:+ ":" +:+ kv.2)
                  (sortByKey (map (fun '(k, x) => (k, Marshal x)) m))) ","
      +:+ "}"
  end.

End Values.

(** ** The template engine

    [html/template] is used through three operations: parsing a file into
    the named templates it defines, [Lookup] by name, and [Execute], which
    writes some bytes and may stop with an error.  [emptyTree] is the
    test [parse.IsEmptyTree] the library applies to a parsed body before
    it lets the body replace one of the same name. *)
Class TemplateEngine `{GoRuntime} := {
  template : Type;
  parseFile : string -> string -> option (list (string * template));
  emptyTree : template -> bool;
  Execute : template -> value -> string * option string;
}.

(** A Go map [map[string]interface{}], by its entries. *)
Abbreviation gomap := (list (string * value)) (only parsing).

(** The package variable [templates]: [None] is the nil pointer. *)
Abbreviation registry := (option (gmap string template)) (only parsing).

Section Renderer.
Context {G : GoRuntime} {E : TemplateEngine}.

(** The literal [standardTags]; indexing a Go map with an absent key
    gives [false]. *)
Definition standardTagNames : list string :=
  [ "h1"; "h2"; "h3"; "h4"; "h5"; "h6";
    "p"; "div"; "span"; "ul"; "ol"; "li";
    "img"; "a"; "button"; "input"; "form";
    "table"; "tr"; "td"; "th"; "thead"; "tbody";
    "section"; "article"; "header"; "footer"; "nav";
    "main"; "aside"; "figure"; "figcaption" ].

Definition standardTags (tag : string) : bool :=
  existsb (String.eqb tag) standardTagNames.

Definition htmlStart : string :=
  "<!DOCTYPE html>" +:+ NL
  +:+ "<html lang=" +:+ DQ +:+ "en" +:+ DQ +:+ ">" +:+ NL
  +:+ "<head>" +:+ NL
  +:+ "    <meta charset=" +:+ DQ +:+ "UTF-8" +:+ DQ +:+ ">" +:+ NL
  +:+ "    <meta name=" +:+ DQ +:+ "viewport" +:+ DQ +:+ " content=" +:+ DQ
  +:+ "width=device-width, initial-scale=1.0" +:+ DQ +:+ ">" +:+ NL
  +:+ "    <title>JSON Server</title>" +:+ NL
  +:+ "    <style>" +:+ NL
  +:+ "        body { font-family: sans-serif; line-height: 1.6; padding: 20px; max-width: 800px; margin: 0 auto; }" +:+ NL
  +:+ "        img { max-width: 100%; height: auto; }" +:+ NL
  +:+ "    </style>" +:+ NL.

(** *** First pass: the non-standard side channel *)

Definition hasTemplate (templates : registry) (tag : string) : bool :=
  match templates with
  | Some t =>
      match t !! (tag +:+ ".html"), t !! tag with
      | None, None => false
      | _, _ => true
      end
  | None => false
  end.

(** Body of the inner loop: [nonStandardData[tag] = content] under the
    guard [!standardTags[tag] && !hasTemplate]. *)
Definition collectPair (templates : registry)
    (nonStandardData : gmap string value) (pair : string * value)
    : gmap string value :=
  let '(tag, content) := pair in
  if negb (standardTags tag) && negb (hasTemplate templates tag)
  then <[tag := content]> nonStandardData
  else nonStandardData.

(** The two nested loops; [ranges] holds, for each item of the slice in
    order, the enumeration [range item] produced. *)
Definition collectNonStandard (templates : registry) (ranges : list gomap)
    : gmap string value :=
  foldl (fun acc enum => foldl (collectPair templates) acc enum) ∅ ranges.

(** *** The injected script block *)

Definition scriptOpen : string :=
  "<script>" +:+ NL
  +:+ "        // Non-standard tag content accessible to client" +:+ NL
  +:+ "        var customContent = {};" +:+ NL.

Definition scriptLine (pair : string * value) : string :=
  let '(tag, content) := pair in
  "        customContent['" +:+ tag +:+ "'] = " +:+ Marshal content +:+ ";" +:+ NL.

Definition scriptClose : string := "    </script>" +:+ NL.

(** [rangeNSD] is the enumeration [range nonStandardData] produced. *)
Definition scriptBlock (nonStandardData : gmap string value)
    (rangeNSD : gomap) : string :=
  if (0 <? size nonStandardData)%nat
  then scriptOpen +:+ concatS (map scriptLine rangeNSD) +:+ scriptClose
  else EmptyString.

Definition aiStyleBlock : string :=
  NL
  +:+ "    <style>" +:+ NL
  +:+ "        /* AI Design Mode Base Styles */" +:+ NL
  +:+ "        body {" +:+ NL
  +:+ "            background: linear-gradient(135deg, #f5f7fa 0%, #c3cfe2 100%);" +:+ NL
  +:+ "            min-height: 100vh;" +:+ NL
  +:+ "        }" +:+ NL
  +:+ "        .container {" +:+ NL
  +:+ "            background: rgba(255,255,255,0.8);" +:+ NL
  +:+ "            padding: 40px;" +:+ NL
  +:+ "            border-radius: 12px;" +:+ NL
  +:+ "            margin-top: 40px;" +:+ NL
  +:+ "        }" +:+ NL
  +:+ "    </style>" +:+ NL.

Definition headClose : string :=
  "</head><body><div class=" +:+ DQ +:+ "container" +:+ DQ +:+ ">".

(** Everything written by [fmt.Fprint(w, htmlStart)]. *)
Definition renderHead (aiDesign : bool) (nonStandardData : gmap string value)
    (rangeNSD : gomap) : string :=
  htmlStart
  +:+ scriptBlock nonStandardData rangeNSD
  +:+ (if aiDesign then aiStyleBlock else EmptyString)
  +:+ headClose.

(** *** Second pass: the body *)

(** [tmpl.Execute(w, content)] followed by the diagnostic comment when it
    returns an error. *)
Definition executeTemplate (tmpl : template) (tag : string) (content : value)
    : string :=
  let '(written, err) := Execute tmpl content in
  match err with
  | Some e =>
      written +:+ "<!-- Error rendering template " +:+ tag +:+ ": " +:+ e +:+ " -->"
  | None => written
  end.

(** The [switch tag] of the builtin elements. *)
Definition renderBuiltin (tag : string) (content : value) : string :=
  if String.eqb tag "img" then
    "<img src=" +:+ DQ +:+ fmtValue content +:+ DQ
    +:+ " alt=" +:+ DQ +:+ "Image" +:+ DQ +:+ ">"
  else if String.eqb tag "ul" then
    "<ul>"
    +:+ match content with
        | VList list =>
            concatS (map (fun li => "<li>" +:+ fmtValue li +:+ "</li>") list)
        | _ => "<li>" +:+ fmtValue content +:+ "</li>"
        end
    +:+ "</ul>"
  else
    "<" +:+ tag +:+ ">" +:+ fmtValue content +:+ "</" +:+ tag +:+ ">".

(** The markup a builtin element puts around the display text of a value
    that is not a list. *)
Definition builtinOpen (tag : string) : string :=
  if String.eqb tag "img" then "<img src=" +:+ DQ
  else if String.eqb tag "ul" then "<ul><li>"
  else "<" +:+ tag +:+ ">".

Definition builtinClose (tag : string) : string :=
  if String.eqb tag "img" then DQ +:+ " alt=" +:+ DQ +:+ "Image" +:+ DQ +:+ ">"
  else if String.eqb tag "ul" then "</li></ul>"
  else "</" +:+ tag +:+ ">".

(** [templates.Lookup(name)], with the nil registry finding nothing. *)
Definition Lookup (templates : registry) (name : string) : option template :=
  match templates with
  | Some t => t !! name
  | None => None
  end.

(** Bytes written by one iteration of the inner body loop: the suffixed
    template, else the bare one, else nothing for a non-standard tag, else
    the builtin element. *)
Definition renderPair (templates : registry) (pair : string * value) : string :=
  let '(tag, content) := pair in
  match Lookup templates (tag +:+ ".html") with
  | Some tmpl => executeTemplate tmpl tag content
  | None =>
      match Lookup templates tag with
      | Some tmpl => executeTemplate tmpl tag content
      | None =>
          if negb (standardTags tag) then EmptyString
          else renderBuiltin tag content
      end
  end.

Definition renderItem (templates : registry) (enum : gomap) : string :=
  concatS (map (renderPair templates) enum).

Definition renderBody (templates : registry) (ranges : list gomap) : string :=
  concatS (map (renderItem templates) ranges).

Definition htmlEnd : string := "</div></body></html>".

(** The enumerations one call of [renderHTML] draws from the runtime:
    [range item] for every item in each of the two passes, and
    [range nonStandardData]. *)
Record ranges := mkRanges {
  firstPass : list gomap;
  scriptPass : gomap;
  secondPass : list gomap;
}.

(** [renderHTML(w, items, flags)]: the bytes written to [w].  [flags] is
    a parameter the function never reads. *)
Definition renderHTML (aiDesign : bool) (templates : registry)
    (items : list gomap) (flags : option gomap) (r : ranges) : string :=
  let nonStandardData := collectNonStandard templates (firstPass r) in
  renderHead aiDesign nonStandardData (scriptPass r)
  +:+ renderBody templates (secondPass r)
  +:+ htmlEnd.

(** The enumerations a run may draw: each [range] over a map visits every
    entry once, in some order. *)
Definition admissible (templates : registry) (items : list gomap) (r : ranges)
    : Prop :=
  Forall2 Permutation (firstPass r) items
  /\ Permutation (scriptPass r)
       (map_to_list (collectNonStandard templates (firstPass r)))
  /\ Forall2 Permutation (secondPass r) items.

End Renderer.

(** ** generateUUID: MD5 of the decimal process id, in hexadecimal *)

Module MD5.

Definition mask32 (x : N) : N := (x mod 4294967296)%N.

Definition add32 (x y : N) : N := mask32 (x + y).

Definition not32 (x : N) : N := (4294967295 - mask32 x)%N.

Definition rotl32 (x : N) (c : N) : N :=
  mask32 (N.lor (N.shiftl x c) (N.shiftr (mask32 x) (32 - c))).

Definition shifts : list N :=
  [ 7; 12; 17; 22; 7; 12; 17; 22; 7; 12; 17; 22; 7; 12; 17; 22;
    5; 9; 14; 20; 5; 9; 14; 20; 5; 9; 14; 20; 5; 9; 14; 20;
    4; 11; 16; 23; 4; 11; 16; 23; 4; 11; 16; 23; 4; 11; 16; 23;
    6; 10; 15; 21; 6; 10; 15; 21; 6; 10; 15; 21; 6; 10; 15; 21 ]%N.

Definition sines : list N :=
  [ 3614090360; 3905402710; 606105819; 3250441966;
    4118548399; 1200080426; 2821735955; 4249261313;
    1770035416; 2336552879; 4294925233; 2304563134;
    1804603682; 4254626195; 2792965006; 1236535329;
    4129170786; 3225465664; 643717713; 3921069994;
    3593408605; 38016083; 3634488961; 3889429448;
    568446438; 3275163606; 4107603335; 1163531501;
    2850285829; 4243563512; 1735328473; 2368359562;
    4294588738; 2272392833; 1839030562; 4259657740;
    2763975236; 1272893353; 4139469664; 3200236656;
    681279174; 3936430074; 3572445317; 76029189;
    3654602809; 3873151461; 530742520; 3299628645;
    4096336452; 1126891415; 2878612391; 4237533241;
    1700485571; 2399980690; 4293915773; 2240044497;
    1873313359; 4264355552; 2734768916; 1309151649;
    4149444226; 3174756917; 718787259; 3951481745 ]%N.

(** The chaining state (a, b, c, d). *)
Definition state : Type := N * N * N * N.

Definition init : state := (1732584193, 4023233417, 2562383102, 271733878)%N.

(** One of the 64 operations of a block; [m] holds its 16 words. *)
Definition step (m : list N) (st : state) (i : nat) : state :=
  let '(a, b, c, d) := st in
  let '(f, g) :=
    if (i <? 16)%nat then (N.lor (N.land b c) (N.land (not32 b) d), i)
    else if (i <? 32)%nat then
      (N.lor (N.land d b) (N.land (not32 d) c), ((5 * i + 1) mod 16)%nat)
    else if (i <? 48)%nat then (N.lxor b (N.lxor c d), ((3 * i + 5) mod 16)%nat)
    else (N.lxor c (N.lor b (not32 d)), ((7 * i) mod 16)%nat) in
  let f' := add32 (add32 (add32 f a) (nth i sines 0%N)) (nth g m 0%N) in
  (d, add32 b (rotl32 f' (nth i shifts 0%N)), b, c).

Definition block (st : state) (m : list N) : state :=
  let '(a0, b0, c0, d0) := st in
  let '(a, b, c, d) := foldl (step m) st (seq 0 64) in
  (add32 a0 a, add32 b0 b, add32 c0 c, add32 d0 d).

(** Little-endian bytes of a word and back. *)
Definition bytesOfWord (w : N) : list N :=
  [ (w mod 256); (w / 256 mod 256); (w / 65536 mod 256); (w / 16777216 mod 256) ]%N.

Fixpoint wordsOfBytes (fuel : nat) (bs : list N) : list N :=
  match fuel, bs with
  | S fuel', b0 :: b1 :: b2 :: b3 :: rest =>
      (b0 + 256 * b1 + 65536 * b2 + 16777216 * b3)%N :: wordsOfBytes fuel' rest
  | _, _ => []
  end.

Fixpoint chunks (fuel : nat) (ws : list N) : list (list N) :=
  match fuel, ws with
  | S fuel', _ :: _ => take 16 ws :: chunks fuel' (drop 16 ws)
  | _, _ => []
  end.

(** Message padding: a 1 bit, zeros up to 56 modulo 64, the bit length on
    64 bits. *)
Definition pad (msg : list N) : list N :=
  let n := length msg in
  let zeros := ((64 + 55 - n mod 64) mod 64)%nat in
  let bits := (8 * N.of_nat n)%N in
  msg ++ [128%N] ++ repeat 0%N zeros
  ++ bytesOfWord (bits mod 4294967296) ++ bytesOfWord (bits / 4294967296 mod 4294967296).

(** [md5.Sum]: the 16 bytes of the digest. *)
Definition sum (msg : string) : list N :=
  let bytes := pad (map N_of_ascii (list_ascii_of_string msg)) in
  let ws := wordsOfBytes (length bytes) bytes in
  let '(a, b, c, d) := foldl block init (chunks (length ws) ws) in
  bytesOfWord a ++ bytesOfWord b ++ bytesOfWord c ++ bytesOfWord d.

End MD5.

(** [hex.EncodeToString]. *)
Fixpoint EncodeToString (bytes : list N) : string :=
  match bytes with
  | [] => EmptyString
  | b :: rest =>
      String (hexDigit (b / 16)) (String (hexDigit (b mod 16)) (EncodeToString rest))
  end.

(** [generateUUID()]: the digest of [fmt.Sprintf("%d", os.Getpid())]. *)
Definition generateUUID (pid : Z) : string :=
  EncodeToString (MD5.sum (pretty pid)).

(** ** The directories the server reads and writes

    The working directory may hold [components/], with the default
    template files, and [components/] may hold [cached/], with one
    directory of regular files per design.  Every other place a path can
    name is left to the environment. *)
Inductive entry : Type :=
  | EFile (content : string)
  | EDir (files : gmap string string).

(** What a path names: a regular file, or a directory by its regular
    files and the names of its subdirectories. *)
Inductive node : Type :=
  | NFile (content : string)
  | NDir (files : gmap string string) (subdirs : list string).

(** [dirs]: [None] when there is no [components/]; otherwise its regular
    files and, when [components/cached/] exists, the entries of that
    directory.  [outside ups elems] is what the path made of [ups] times
    [..] followed by [elems] names, for the paths that lead out of
    [components/]. *)
Record filesystem := mkDisk {
  dirs : option (gmap string string * option (gmap string entry));
  outside : nat -> list string -> option node;
}.

(** The regular files of [components/]. *)
Definition components (fs : filesystem) : gmap string string :=
  match dirs fs with
  | Some (files, _) => files
  | None => ∅
  end.

(** The entries of [components/cached/]. *)
Definition cached (fs : filesystem) : gmap string entry :=
  match dirs fs with
  | Some (_, Some entries) => entries
  | _ => ∅
  end.

(** [components/cached/] is a directory. *)
Definition cacheDir (fs : filesystem) : bool :=
  match dirs fs with
  | Some (_, Some _) => true
  | _ => false
  end.

(** The tree with [components/cached/] holding [entries]. *)
Definition withCache (fs : filesystem) (entries : gmap string entry) : filesystem :=
  mkDisk (Some (components fs, Some entries)) (outside fs).

(** A tree with both directories and nothing to be seen outside them. *)
Definition mkFS (files : gmap string string) (entries : gmap string entry)
    : filesystem :=
  mkDisk (Some (files, Some entries)) (fun _ _ => None).

(** [ioutil.ReadDir(cachedDir)]: the entries sorted by file name, none
    when the directory cannot be read. *)
Definition ReadDir (fs : filesystem) : list (string * entry) :=
  sortByKey (map_to_list (cached fs)).

(** *** Paths *)

(** [strings.Split(s, "/")]. *)
Fixpoint splitPath (s : string) : list string :=
  match s with
  | EmptyString => [EmptyString]
  | String c rest =>
      if Ascii.eqb c "/" then EmptyString :: splitPath rest
      else
        match splitPath rest with
        | first :: others => String c first :: others
        | [] => [String c EmptyString]
        end
  end.

(** [filepath.Clean] on a relative path, element by element: [stack]
    holds the elements kept so far, the last one first, and [ups] counts
    the [..] elements that had nothing to remove. *)
Fixpoint cleanFrom (ups : nat) (stack elems : list string) : nat * list string :=
  match elems with
  | [] => (ups, rev stack)
  | e :: rest =>
      if String.eqb e EmptyString || String.eqb e "." then cleanFrom ups stack rest
      else if String.eqb e ".." then
        match stack with
        | [] => cleanFrom (S ups) [] rest
        | _ :: below => cleanFrom ups below rest
        end
      else cleanFrom ups (e :: stack) rest
  end.

(** [filepath.Join("components", "cached", name)]: the number of leading
    [..] elements of the cleaned path and the elements after them. *)
Definition cachedPath (name : string) : nat * list string :=
  cleanFrom 0 ["cached"; "components"] (splitPath name).

(** The zero byte, which no path may hold. *)
Definition NUL : string := String (ascii_of_nat 0) EmptyString.

Definition entryNode (e : entry) : node :=
  match e with
  | EFile content => NFile content
  | EDir files => NDir files []
  end.

Definition entryContent (e : entry) : option string :=
  match e with
  | EFile content => Some content
  | EDir _ => None
  end.

Definition isDir (f : string * entry) : bool :=
  match f.2 with
  | EDir _ => true
  | EFile _ => false
  end.

(** What is found under [components/], by the elements after it. *)
Definition lookupComponents (files : gmap string string)
    (cache : option (gmap string entry)) (elems : list string) : option node :=
  match elems, cache with
  | [], Some _ => Some (NDir files ["cached"])
  | [], None => Some (NDir files [])
  | [x], None => NFile <$> files !! x
  | x :: below, Some entries =>
      if String.eqb x "cached" then
        match below with
        | [] =>
            Some (NDir (omap entryContent entries)
                       (map fst (filter (fun f => isDir f = true)
                                   (sortByKey (map_to_list entries)))))
        | [name] => entryNode <$> entries !! name
        | [name; file] =>
            match entries !! name with
            | Some (EDir designFiles) => NFile <$> designFiles !! file
            | _ => None
            end
        | _ => None
        end
      else
        match below with
        | [] => NFile <$> files !! x
        | _ => None
        end
  | _, None => None
  end.

(** What a cleaned relative path names. *)
Definition lookupPath (fs : filesystem) (path : nat * list string) : option node :=
  match path with
  | (O, []) =>
      Some (match outside fs 0 [] with
            | Some (NDir files subdirs) => NDir files subdirs
            | _ => NDir ∅ []
            end)
  | (O, first :: elems) =>
      if String.eqb first "components" then
        match dirs fs with
        | Some (files, cache) => lookupComponents files cache elems
        | None => None
        end
      else outside fs 0 (first :: elems)
  | (S ups, elems) => outside fs (S ups) elems
  end.

(** What [components/cached/<name>] names once the path is joined and
    cleaned; a name holding a zero byte names nothing. *)
Definition lookupCached (fs : filesystem) (name : string) : option node :=
  if Contains name NUL then None else lookupPath fs (cachedPath name).

(** [os.Stat(filepath.Join("components", "cached", name))] succeeds. *)
Definition statCached (fs : filesystem) (name : string) : bool :=
  match lookupCached fs name with
  | Some _ => true
  | None => false
  end.

(** [os.MkdirAll] of [components/cached/<name>], [name] being one path
    element: an existing directory is kept, a file in the way (at the
    name, or at [components/cached] itself) is an error ([None]), and
    missing parents are made. *)
Definition MkdirAll (name : string) (fs : filesystem) : option filesystem :=
  match cached fs !! name with
  | Some (EFile _) => None
  | Some (EDir _) => Some fs
  | None =>
      if negb (cacheDir fs) && bool_decide (is_Some (components fs !! "cached"))
      then None
      else Some (withCache fs (<[name := EDir ∅]> (cached fs)))
  end.

(** [ioutil.WriteFile] of [components/cached/<dir>/<file>]; the program
    discards its error, so a missing directory leaves the tree as it is. *)
Definition WriteFile (dir file content : string) (fs : filesystem) : filesystem :=
  match cached fs !! dir with
  | Some (EDir files) =>
      withCache fs (<[dir := EDir (<[file := content]> files)]> (cached fs))
  | _ => fs
  end.

Section Design.
Context {G : GoRuntime}.

(** [generateTemplates(dir, prompt)]: writes [h1.html] and [div.html]. *)
Definition generateTemplates (dir prompt : string) (fs : filesystem) : filesystem :=
  let st := deriveStyle prompt in
  WriteFile dir "div.html" (divContent st)
    (WriteFile dir "h1.html" (h1Content st) fs).

(** The test of the scan loop of [getOrGenerateDesign] on one entry:
    a directory whose [prompt.txt] equals the prompt after trimming. *)
Definition promptMatches (prompt : string) (f : string * entry) : bool :=
  match f.2 with
  | EDir files =>
      match files !! "prompt.txt" with
      | Some content => String.eqb (TrimSpace content) (TrimSpace prompt)
      | None => false
      end
  | EFile _ => false
  end.

(** [getOrGenerateDesign(prompt)], with the directory tree threaded
    through; [pid] is what [os.Getpid] returns in this process. *)
Definition getOrGenerateDesign (pid : Z) (prompt : string) (fs : filesystem)
    : string * filesystem :=
  if (String.length prompt =? 32)%nat && statCached fs prompt then (prompt, fs)
  else
    match find (promptMatches prompt) (ReadDir fs) with
    | Some f => (f.1, fs)
    | None =>
        let newUUID := generateUUID pid in
        match MkdirAll newUUID fs with
        | None => (EmptyString, fs)
        | Some fs1 =>
            (newUUID,
             generateTemplates newUUID prompt
               (WriteFile newUUID "prompt.txt" prompt fs1))
        end
    end.

(** The directory tree after a fresh generation for [prompt] under the
    identifier [u]. *)
Definition generated (u prompt : string) (fs : filesystem) : filesystem :=
  generateTemplates u prompt (WriteFile u "prompt.txt" prompt fs).

(** The prompt triggers a fresh generation: neither the identifier fast
    path nor the scan of the cached designs finds it. *)
Definition freshPrompt (prompt : string) (fs : filesystem) : Prop :=
  (String.length prompt =? 32)%nat && statCached fs prompt = false
  /\ find (promptMatches prompt) (ReadDir fs) = None.

End Design.

Section Server.
Context {G : GoRuntime} {E : TemplateEngine}.

(** [strings.HasSuffix]. *)
Definition HasSuffix (s suffix : string) : bool :=
  let n := String.length s in
  let k := String.length suffix in
  (k <=? n)%nat && String.eqb (dropS (n - k) s) suffix.

(** The files a [*.html] glob matches in a directory, sorted by name. *)
Definition globHTML (files : gmap string string) : list (string * string) :=
  filter (fun f => HasSuffix f.1 ".html" = true) (sortByKey (map_to_list files)).

(** What a [*.html] glob finds in a directory and [ParseFiles] then
    reads: the matching regular files, sorted by name; none when a
    subdirectory matches too, since reading it fails and the whole call
    with it. *)
Definition globNode (n : node) : list (string * string) :=
  match n with
  | NDir files subdirs =>
      if forallb (fun d => negb (HasSuffix d ".html")) subdirs
      then globHTML files
      else []
  | NFile _ => []
  end.

(** The files of [components/cached/<customUUID>/*.html], the pattern
    being joined and cleaned like any path (an identifier holding a glob
    metacharacter is taken as it is written). *)
Definition customFilesOf (customUUID : string) (fs : filesystem)
    : list (string * string) :=
  match lookupCached fs customUUID with
  | Some n => globNode n
  | None => []
  end.

(** [associate]: a parsed body is installed under its name, unless it is
    empty and the name already has a body, which is then kept. *)
Definition associate (t : gmap string template) (d : string * template)
    : gmap string template :=
  if emptyTree d.2 && bool_decide (is_Some (t !! d.1)) then t
  else <[d.1 := d.2]> t.

(** Parsing files one after the other into a template set. *)
Fixpoint parseFiles (t : gmap string template) (files : list (string * string))
    : option (gmap string template) :=
  match files with
  | [] => Some t
  | (name, text) :: rest =>
      match parseFile name text with
      | Some defs => parseFiles (foldl associate t defs) rest
      | None => None
      end
  end.

(** [ParseGlob]: an error ([None]) when the pattern matches no file or a
    file does not parse. *)
Definition ParseGlob (t : gmap string template) (files : list (string * string))
    : option (gmap string template) :=
  match files with
  | [] => None
  | _ => parseFiles t files
  end.

(** [parseTemplates(customUUID)]: the value left in [templates]. *)
Definition parseTemplates (customUUID : string) (fs : filesystem) : registry :=
  let templates := ParseGlob ∅ (globHTML (components fs)) in
  if String.eqb customUUID EmptyString then templates
  else
    let customFiles := customFilesOf customUUID fs in
    match ParseGlob ∅ customFiles with
    | Some customTemplates =>
        match templates with
        | None => Some customTemplates
        | Some t =>
            match ParseGlob t customFiles with
            | Some merged => Some merged
            | None => Some t
            end
        end
    | None => templates
    end.

(** The process: the [-ai-design] switch, the package variable
    [templates], the directory tree and the process id. *)
Record server := mkServer {
  aiDesign : bool;
  templates : registry;
  tree : filesystem;
  pid : Z;
}.

(** Indexing a Go map. *)
Fixpoint mapIndex (m : gomap) (key : string) : option value :=
  match m with
  | [] => None
  | (k, v) :: rest => if String.eqb k key then Some v else mapIndex rest key
  end.

(** [flagsData.(map[string]interface{})] on [jsonData["flags"]]. *)
Definition extractFlags (jsonData : gomap) : option gomap :=
  match mapIndex jsonData "flags" with
  | Some (VMap flagsMap) => Some flagsMap
  | _ => None
  end.

(** The design step of [handler]: taken when [flags] carries a
    [designprompt] and the process runs in design mode. *)
Definition resolveDesign (s : server) (flags : option gomap) : server :=
  match flags with
  | Some flagsMap =>
      match mapIndex flagsMap "designprompt" with
      | Some prompt =>
          if aiDesign s then
            let '(designUUID, fs') :=
              getOrGenerateDesign (pid s) (fmtValue prompt) (tree s) in
            mkServer (aiDesign s) (parseTemplates designUUID fs') fs' (pid s)
          else s
      | None => s
      end
  | None => s
  end.

(** The display text of [flags.designprompt], when there is one. *)
Definition designPromptOf (jsonData : gomap) : option string :=
  match extractFlags jsonData with
  | Some flagsMap =>
      match mapIndex flagsMap "designprompt" with
      | Some prompt => Some (fmtValue prompt)
      | None => None
      end
  | None => None
  end.


(** The loop building [contentItems] from the enumeration [range
    jsonData] produced. *)
Definition contentItemsOf (rangeData : gomap) : list gomap :=
  omap (fun kv : string * value =>
          if String.eqb kv.1 "flags" then None
          else match kv.2 with
               | VMap contentMap => Some contentMap
               | _ => None
               end) rangeData.

(** [handler] from the point where [index.json] has been read and decoded
    into [jsonData] (the not-found, unreadable-file and malformed-document
    replies come before): the new process state and the response body. *)
Definition handler (s : server) (jsonData : gomap) (rangeData : gomap)
    (r : ranges) : server * string :=
  let flags := extractFlags jsonData in
  let s' := resolveDesign s flags in
  (s', renderHTML (aiDesign s') (templates s') (contentItemsOf rangeData) flags r).

(** The runs of [handler]: every enumeration is a permutation of the map
    it ranges over. *)
Definition handlerRun (s : server) (jsonData : gomap) (out : server * string)
    : Prop :=
  exists rangeData r,
    Permutation rangeData jsonData
    /\ admissible (templates (resolveDesign s (extractFlags jsonData)))
         (contentItemsOf rangeData) r
    /\ out = handler s jsonData rangeData r.

(** [main] before it starts serving: [parseTemplates("")]. *)
Definition startServer (design : bool) (fs : filesystem) (p : Z) : server :=
  mkServer design (parseTemplates EmptyString fs) fs p.

End Server.

(** ** The second Go file of the repository

    The repository holds a later revision of the same program (its
    listing follows the text of [TEST_RESULTS.md]).  Its [handler] decodes
    the document with [parseOrderedJSON] into a slice of [ContentItem]s
    whose [Content] is a slice of key/value pairs, and its [renderHTML]
    reads [flags.csslib].  Only that [renderHTML] is embedded here; what
    it shares with [main.go] is reused. *)
Module Revision.
Section Revision.
Context {G : GoRuntime} {E : TemplateEngine}.

Record ContentItem := mkItem {
  ID : string;
  Content : list (string * value);
}.

Definition headOpen : string :=
  "<!DOCTYPE html>" +:+ NL
  +:+ "<html lang=" +:+ DQ +:+ "en" +:+ DQ +:+ ">" +:+ NL
  +:+ "<head>" +:+ NL
  +:+ "    <meta charset=" +:+ DQ +:+ "UTF-8" +:+ DQ +:+ ">" +:+ NL
  +:+ "    <meta name=" +:+ DQ +:+ "viewport" +:+ DQ +:+ " content=" +:+ DQ
  +:+ "width=device-width, initial-scale=1.0" +:+ DQ +:+ ">" +:+ NL
  +:+ "    <title>JSON Server</title>" +:+ NL.

Definition bootstrapTags : string :=
  "    <link href=" +:+ DQ
  +:+ "https://cdn.jsdelivr.net/npm/bootstrap@5.3.2/dist/css/bootstrap.min.css"
  +:+ DQ +:+ " rel=" +:+ DQ +:+ "stylesheet" +:+ DQ +:+ ">" +:+ NL
  +:+ "    <script src=" +:+ DQ
  +:+ "https://cdn.jsdelivr.net/npm/bootstrap@5.3.2/dist/js/bootstrap.bundle.min.js"
  +:+ DQ +:+ "></script>" +:+ NL.

Definition tailwindTags : string :=
  "    <script src=" +:+ DQ +:+ "https://cdn.tailwindcss.com" +:+ DQ
  +:+ "></script>" +:+ NL.

Definition bulmaTags : string :=
  "    <link rel=" +:+ DQ +:+ "stylesheet" +:+ DQ +:+ " href=" +:+ DQ
  +:+ "https://cdn.jsdelivr.net/npm/bulma@0.9.4/css/bulma.min.css"
  +:+ DQ +:+ ">" +:+ NL.

Definition materializeTags : string :=
  "    <link rel=" +:+ DQ +:+ "stylesheet" +:+ DQ +:+ " href=" +:+ DQ
  +:+ "https://cdnjs.cloudflare.com/ajax/libs/materialize/1.0.0/css/materialize.min.css"
  +:+ DQ +:+ ">" +:+ NL
  +:+ "    <script src=" +:+ DQ
  +:+ "https://cdnjs.cloudflare.com/ajax/libs/materialize/1.0.0/js/materialize.min.js"
  +:+ DQ +:+ "></script>" +:+ NL.

(** The [switch strings.ToLower(cssLibStr)]. *)
Definition frameworkTags (cssLibLower : string) : string :=
  if String.eqb cssLibLower "bootstrap" then bootstrapTags
  else if String.eqb cssLibLower "tailwind" then tailwindTags
  else if String.eqb cssLibLower "bulma" then bulmaTags
  else if String.eqb cssLibLower "materialize" then materializeTags
  else EmptyString.

(** [if cssLib, ok := flags["csslib"]; ok && cssLib != nil]; indexing the
    nil map finds nothing. *)
Definition cssLibBlock (flags : option gomap) : string :=
  match flags with
  | Some flagsMap =>
      match mapIndex flagsMap "csslib" with
      | Some VNil => EmptyString
      | Some cssLib => frameworkTags (ToLower (fmtValue cssLib))
      | None => EmptyString
      end
  | None => EmptyString
  end.

Definition styleBlock : string :=
  "    <style>" +:+ NL
  +:+ "        body { font-family: sans-serif; line-height: 1.6; padding: 20px; max-width: 800px; margin: 0 auto; }" +:+ NL
  +:+ "        img { max-width: 100%; height: auto; }" +:+ NL
  +:+ "    </style>" +:+ NL.

(** First pass, over the pairs of every item in slice order. *)
Definition collectNonStandard (templates : registry) (items : list ContentItem)
    : gmap string value :=
  foldl (fun acc item => foldl (collectPair templates) acc (Content item)) ∅ items.

(** The head; in this revision design mode appends the empty string. *)
Definition renderHead (templates : registry) (items : list ContentItem)
    (flags : option gomap) (rangeNSD : gomap) : string :=
  headOpen +:+ cssLibBlock flags +:+ styleBlock
  +:+ scriptBlock (collectNonStandard templates items) rangeNSD
  +:+ headClose.

(** One item of the body: its pairs inside [<div id='ID'>]. *)
Definition renderItem (templates : registry) (item : ContentItem) : string :=
  "<div id='" +:+ ID item +:+ "'>"
  +:+ concatS (map (renderPair templates) (Content item))
  +:+ "</div>".

Definition renderBody (templates : registry) (items : list ContentItem) : string :=
  concatS (map (renderItem templates) items).

(** [renderHTML(w, items, flags)]; the one enumeration left to the
    runtime is [range nonStandardData]. *)
Definition renderHTML (templates : registry) (items : list ContentItem)
    (flags : option gomap) (rangeNSD : gomap) : string :=
  renderHead templates items flags rangeNSD
  +:+ renderBody templates items
  +:+ htmlEnd.

End Revision.

(** [strings.TrimPrefix]. *)
Definition TrimPrefix (s prefix : string) : string :=
  if HasPrefix s prefix then dropS (String.length prefix) s else s.

(** The file the revised [handler] reads for a request path; [None] is
    the 404 answer. *)
Definition jsonFileFor (path : string) : option string :=
  if negb (String.eqb path "/") then
    if HasPrefix path "/index." then
      let name := TrimPrefix path "/index." in
      if negb (String.eqb name EmptyString)
      then Some ("index." +:+ name +:+ ".json")
      else Some "index.json"
    else None
  else Some "index.json".

(** The names the [csslib] switch knows. *)
Definition frameworks : list string :=
  ["bootstrap"; "tailwind"; "bulma"; "materialize"].

End Revision.

(** ** Reference definitions and a runnable instance *)

(** "HTML-escaped" text, as [template.HTMLEscapeString] produces it: the
    five markup characters become character references (NUL, which it
    replaces by U+FFFD, is kept here). *)
Fixpoint HTMLEscapeString (s : string) : string :=
  match s with
  | EmptyString => EmptyString
  | String c rest =>
      (match byteVal c with
       | 60 => "&lt;"
       | 62 => "&gt;"
       | 38 => "&amp;"
       | 39 => "&#39;"
       | 34 => "&#34;"
       | _ => String c EmptyString
       end%N) +:+ HTMLEscapeString rest
  end.

(** A runtime for running the model on ASCII text and integers of small
    magnitude, where Go prints a [float64] as the integer's decimal digits
    and where [ToLower] and [TrimSpace] act on ASCII alone. *)
Definition asciiRuntime : GoRuntime :=
  {| float64 := Z;
     formatFloat := pretty;
     marshalFloat := pretty;
     ToLower := asciiToLower;
     TrimSpace := asciiTrimSpace |}.

(** Replacing every [{{.}}] action of a template text. *)
Fixpoint substituteDot (text repl : string) : string :=
  match text with
  | EmptyString => EmptyString
  | String c rest =>
      if HasPrefix text "{{.}}" then
        match rest with
        | String _ (String _ (String _ (String _ rest'))) =>
            repl +:+ substituteDot rest' repl
        | _ => repl
        end
      else String c (substituteDot rest repl)
  end.

(** An engine for templates made of static markup and [{{.}}] actions in
    element content: a file defines the template of its own name, and
    executing it inserts the escaped display text of the value. *)
Definition plainEngine : @TemplateEngine asciiRuntime :=
  {| template := string;
     parseFile := fun name text => Some [(name, text)];
     emptyTree := fun tmpl => String.eqb (asciiTrimSpace tmpl) EmptyString;
     Execute := fun tmpl v =>
       (substituteDot tmpl (HTMLEscapeString (@fmtValue asciiRuntime v)), None) |}.

(** ** JSON texts

    The grammar of RFC 8259 without insignificant white space, on bytes:
    a string holds UTF-8 encoded code points other than the quote, the
    backslash and the control characters, or escapes. *)

Definition isDigit (c : ascii) : bool := inRange c 48 57.

Definition isHex (c : ascii) : bool :=
  isDigit c || inRange c 97 102 || inRange c 65 70.

Fixpoint skipDigits (s : string) : string :=
  match s with
  | String c r => if isDigit c then skipDigits r else s
  | EmptyString => s
  end.

(** One digit or more, then the rest. *)
Definition digits1 (s : string) : option string :=
  match s with
  | String c r => if isDigit c then Some (skipDigits r) else None
  | EmptyString => None
  end.

Definition isByte (c : ascii) (n : N) : bool := (byteVal c =? n)%N.

(** [number = [ minus ] int [ frac ] [ exp ]]. *)
Definition jsonExponent (s : string) : bool :=
  match s with
  | EmptyString => true
  | String e r =>
      if isByte e 101 || isByte e 69 then
        let r' := match r with
                  | String sign r1 =>
                      if isByte sign 43 || isByte sign 45 then r1 else r
                  | EmptyString => r
                  end in
        match digits1 r' with
        | Some EmptyString => true
        | _ => false
        end
      else false
  end.

Definition jsonFraction (s : string) : bool :=
  match s with
  | String dot r =>
      if isByte dot 46 then
        match digits1 r with
        | Some rest => jsonExponent rest
        | None => false
        end
      else jsonExponent s
  | EmptyString => true
  end.

Definition jsonInt (s : string) : bool :=
  match s with
  | String c r =>
      if isByte c 48 then jsonFraction r
      else if inRange c 49 57 then jsonFraction (skipDigits r)
      else false
  | EmptyString => false
  end.

Definition jsonNumber (s : string) : bool :=
  match s with
  | String c r => if isByte c 45 then jsonInt r else jsonInt s
  | EmptyString => false
  end.

(** The characters after a backslash in a two-character escape:
    quote, backslash, slash, b, f, n, r, t. *)
Definition simpleEscape (c : ascii) : bool :=
  isByte c 34 || isByte c 92 || isByte c 47 || isByte c 98
  || isByte c 102 || isByte c 110 || isByte c 114 || isByte c 116.

(** The first byte of an unescaped code point. *)
Definition unescapedStart (r : string) : bool :=
  match r with
  | String c _ => (32 <=? byteVal c)%N && negb (isByte c 34) && negb (isByte c 92)
  | EmptyString => false
  end.

Inductive JsonChars : string -> Prop :=
  | chars_nil : JsonChars EmptyString
  | chars_unescaped (r s : string) :
      runeSize r = Some (String.length r) -> unescapedStart r = true ->
      JsonChars s -> JsonChars (r +:+ s)
  | chars_escape (c : ascii) (s : string) :
      simpleEscape c = true -> JsonChars s -> JsonChars ("\" +:+ String c s)
  | chars_unicode (h1 h2 h3 h4 : ascii) (s : string) :
      isHex h1 && isHex h2 && isHex h3 && isHex h4 = true ->
      JsonChars s ->
      JsonChars ("\u" +:+ String h1 (String h2 (String h3 (String h4 s)))).

Inductive JsonString : string -> Prop :=
  | json_string (s : string) : JsonChars s -> JsonString (DQ +:+ s +:+ DQ).

#[warnings="-register-all"]
Inductive JsonValue : string -> Prop :=
  | json_null : JsonValue "null"
  | json_true : JsonValue "true"
  | json_false : JsonValue "false"
  | json_number (s : string) : jsonNumber s = true -> JsonValue s
  | json_text (s : string) : JsonString s -> JsonValue s
  | json_array (elems : list string) :
      Forall JsonValue elems -> JsonValue ("[" +:+ Join elems "," +:+ "]")
  | json_object (members : list string) :
      Forall (fun m => exists k v,
                  m = k +:+ ":" +:+ v /\ JsonString k /\ JsonValue v) members ->
      JsonValue ("{" +:+ Join members "," +:+ "}").

(** No byte of the string is [c]. *)
Fixpoint lacksByte (c : ascii) (s : string) : bool :=
  match s with
  | EmptyString => true
  | String d r => negb (Ascii.eqb d c) && lacksByte c r
  end.

(** The less-than sign. *)
Definition LT : ascii := "<"%char.

Section NumbersOK.
Context {G : GoRuntime}.

(** Every number inside the value is printed by the runtime's JSON number
    encoder as a JSON number. *)
Fixpoint numbersOK (v : value) : bool :=
  match v with
  | VNum f => jsonNumber (marshalFloat f)
  | VList l => forallb numbersOK l
  | VMap m => forallb (fun '(_, x) => numbersOK x) m
  | _ => true
  end.

End NumbersOK.

(** The bytes a JSON number is made of. *)
Definition numberByte (c : ascii) : bool :=
  isDigit c || isByte c 45 || isByte c 43 || isByte c 46
  || isByte c 101 || isByte c 69.

Fixpoint allNumberBytes (s : string) : bool :=
  match s with
  | EmptyString => true
  | String c r => numberByte c && allNumberBytes r
  end.


(** The pieces [appendRunes] writes, one per loop iteration. *)
Inductive chunk : string -> Prop :=
  | chunk_safe (b : ascii) :
      inRange b 0 127 = true -> htmlSafe b = true -> chunk (String b EmptyString)
  | chunk_escape (b : ascii) :
      inRange b 0 127 = true -> htmlSafe b = false -> chunk (escapeByte b)
  | chunk_replacement : chunk "\ufffd"
  | chunk_separator (src : string) (d : ascii) :
      lineSeparator src = Some d -> chunk ("\u202" +:+ String d EmptyString)
  | chunk_rune (b : ascii) (rest : string) (n : nat) :
      inRange b 0 127 = false -> runeSize (String b rest) = Some n ->
      chunk (takeS n (String b rest)).


(** ** Example processes and documents *)

Section Examples.
#[local] Existing Instance asciiRuntime.
#[local] Existing Instance plainEngine.

(** A process without design mode and without template files. *)
Definition plainServer : server := startServer false (mkFS ∅ ∅) 1.

(** A process in design mode with empty directories. *)
Definition designServer : server := startServer true (mkFS ∅ ∅) 1.

(** The page around a body when nothing is injected in the head. *)
Definition plainPage (body : string) : string :=
  htmlStart +:+ headClose +:+ body +:+ htmlEnd.

(** Two documents with the same content and different design prompts. *)
Definition darkDoc : gomap :=
  [("flags", VMap [("designprompt", VStr "dark")]); ("1", VMap [("h1", VStr "T")])].




(** The enumerations of a document with one block holding one heading. *)
Definition headingRanges : ranges :=
  mkRanges [[("h1", VStr "T")]] [] [[("h1", VStr "T")]].

End Examples.

(** ** Notions the further properties are stated with *)

Section Classification.
Context {G : GoRuntime} {E : TemplateEngine}.

(** The entry becomes a content block: its key is not [flags] and its
    value is an object. *)
Definition isBlock (kv : string * value) : bool :=
  negb (String.eqb kv.1 "flags")
  && match kv.2 with VMap _ => true | _ => false end.


(** The guard of the first pass. *)
Definition injected (t : registry) (tag : string) : bool :=
  negb (standardTags tag) && negb (hasTemplate t tag).

(** What a name gets when [custom] is parsed over [base]: the custom
    body, unless it is empty and there is a base body, which then
    stays. *)
Definition layered (custom base : option template) : option template :=
  match custom with
  | Some tmpl =>
      if emptyTree tmpl then
        match base with
        | Some kept => Some kept
        | None => Some tmpl
        end
      else Some tmpl
  | None => base
  end.

End Classification.

(** The nine styles: the colours of no rule, of "dark" or of "moody",
    with the font of no rule, of "clean" or of "serif". *)
Definition allStyles : list style :=
  let colours := [ ("#ffffff", "#333333", "#3498db");
                   ("#2c3e50", "#ecf0f1", "#e74c3c");
                   ("#1a1a1a", "#dcdcdc", "#8e44ad") ] in
  let fonts := [ "sans-serif";
                 "'Helvetica Neue', Helvetica, Arial, sans-serif";
                 "Georgia, serif" ] in
  flat_map (fun c : string * string * string =>
              map (fun f => mkStyle c.1.1 c.1.2 c.2 f) fonts) colours.

(** A name that is one path element: not empty, not [.] or [..], and
    without a separator or a zero byte. *)
Definition plainName (s : string) : bool :=
  negb (String.eqb s EmptyString) && negb (String.eqb s ".")
  && negb (String.eqb s "..") && negb (Contains s "/") && negb (Contains s NUL).

(** A lower-case hexadecimal digit. *)
Definition isLowerHex (c : ascii) : bool := isDigit c || inRange c 97 102.

Fixpoint allLowerHex (s : string) : bool :=
  match s with
  | EmptyString => true
  | String c r => isLowerHex c && allLowerHex r
  end.

(** The ASCII bytes the encoder never writes as they are: the control
    characters, [<], [>] and [&]. *)
Definition neverRaw (c : ascii) : bool :=
  inRange c 0 127 && negb (htmlSafe c) && negb (isByte c 34) && negb (isByte c 92).

(** Every byte of the string passes the test. *)
Fixpoint allBytes (P : ascii -> bool) (s : string) : bool :=
  match s with
  | EmptyString => true
  | String c r => P c && allBytes P r
  end.

(** A byte the encoder may write: anything but a [neverRaw] one. *)
Definition writable (c : ascii) : bool := negb (neverRaw c).

(** ** Further instances and inputs *)

(** An engine that, like [html/template], refuses a text with an action
    left open, and otherwise behaves as [plainEngine]. *)
Definition strictEngine : @TemplateEngine asciiRuntime :=
  {| template := string;
     parseFile := fun name text =>
       if Contains text "{{" && negb (Contains text "}}") then None
       else Some [(name, text)];
     emptyTree := fun tmpl => String.eqb (asciiTrimSpace tmpl) EmptyString;
     Execute := fun tmpl v =>
       (substituteDot tmpl (HTMLEscapeString (@fmtValue asciiRuntime v)), None) |}.

(** The working directory of a fresh checkout: [components/] with one
    template and no [cached/] yet. *)
Definition uncachedTree : filesystem :=
  mkDisk (Some ({["card.html" := "<div class='card'>{{.}}</div>"]}, None))
         (fun _ _ => None).

(** A cache with a directory named by hand that holds the prompt
    "dark". *)
Definition namedTree : filesystem :=
  mkFS ∅ {["mine" := EDir {["prompt.txt" := "dark"]}]}.

(** Default templates for [h1] and [p], and a design [u] with a heading
    template, a blank [p.html] and a blank [note.html]. *)
Definition layeredTree : filesystem :=
  mkFS (<["h1.html" := "<h1>{{.}}</h1>"]> {["p.html" := "<p>{{.}}</p>"]})
       {["u" := EDir (<["p.html" := "  "]>
                        (<["note.html" := " "]>
                           {["h1.html" := "<h1 class='x'>{{.}}</h1>"]}))]}.

(** A design directory whose only template has an action left open. *)
Definition brokenDesignTree : filesystem :=
  mkFS {["p.html" := "<p>{{.}}</p>"]} {["u" := EDir {["h1.html" := "<h1>{{.</h1>"]}]}.

(** Default templates one of which has an action left open. *)
Definition brokenDefaultsTree : filesystem :=
  mkFS (<["h1.html" := "<h1>{{.</h1>"]> {["p.html" := "<p>{{.}}</p>"]}) ∅.

(** A cache where a file has the name of the design directory of
    process 1. *)
Definition blockedTree : filesystem :=
  mkFS {["h1.html" := "<h1>{{.}}</h1>"]}
       {["c4ca4238a0b923820dcc509a6f75849b" := EFile "notes"]}.

(** A process on that tree that holds a template set of its own. *)
Definition blockedServer : @server asciiRuntime plainEngine :=
  mkServer true (Some {["h1.html" := "<h1 class='old'>{{.}}</h1>"]}) blockedTree 1.

Definition emptyRanges : @ranges asciiRuntime := mkRanges [] [] [].

(** The enumerations of a document with one block holding the injected
    tags [x] and [y], the script lines being drawn in the other order. *)
Definition twoTagRanges : @ranges asciiRuntime :=
  mkRanges [[("x", VStr "1"); ("y", VStr "2")]]
           [("y", VStr "2"); ("x", VStr "1")]
           [[("x", VStr "1"); ("y", VStr "2")]].

(** * Properties *)

(** ** Style derivation (generateTemplates) *)

Section StyleFacts.
Context {G : GoRuntime}.


Lemma serif_sets_font (prompt : string) :
  Contains (ToLower prompt) "serif" = true ->
  font (deriveStyle prompt) = "Georgia, serif".
Proof.
  intros Hs. unfold deriveStyle, applySerif. rewrite Hs. reflexivity.
Qed.

Lemma cached_withCache (fs : filesystem) (entries : gmap string entry) :
  cached (withCache fs entries) = entries.
Proof. reflexivity. Qed.

Lemma components_withCache (fs : filesystem) (entries : gmap string entry) :
  components (withCache fs entries) = components fs.
Proof. reflexivity. Qed.



End StyleFacts.


(** ** Byte-string facts *)

Lemma append_cons (x : ascii) (a b : string) :
  String x a +:+ b = String x (a +:+ b).
Proof. reflexivity. Qed.

Lemma append_nil_l (a : string) : EmptyString +:+ a = a.
Proof. reflexivity. Qed.

Lemma append_assoc (a b c : string) : (a +:+ b) +:+ c = a +:+ (b +:+ c).
Proof.
  induction a as [|x a IH]; [reflexivity |].
  now rewrite !append_cons, IH.
Qed.

Lemma append_nil_r (a : string) : a +:+ EmptyString = a.
Proof.
  induction a as [|x a IH]; [reflexivity |].
  now rewrite append_cons, IH.
Qed.

Lemma HasPrefix_append (p rest : string) : HasPrefix (p +:+ rest) p = true.
Proof.
  induction p as [|c p IH]; [reflexivity |].
  rewrite append_cons. simpl. now rewrite Ascii.eqb_refl.
Qed.

Lemma Contains_nil_sub (s : string) : Contains s EmptyString = true.
Proof. destruct s; reflexivity. Qed.

Lemma Contains_middle (pre s post : string) :
  Contains (pre +:+ s +:+ post) s = true.
Proof.
  induction pre as [|c pre IH].
  - rewrite append_nil_l. destruct (s +:+ post) eqn:Hsp.
    + destruct s; [reflexivity | discriminate].
    + simpl. rewrite <- Hsp, HasPrefix_append. reflexivity.
  - rewrite append_cons. simpl. rewrite IH. apply orb_true_r.
Qed.

Lemma HasPrefix_spec (s p : string) :
  HasPrefix s p = true <-> exists rest, s = p +:+ rest.
Proof.
  revert s. induction p as [|c p IH]; intros s.
  - split; [intros _; now exists s | reflexivity].
  - destruct s as [|d s]; cbn [HasPrefix].
    + split; [discriminate | intros [rest H]; discriminate].
    + destruct (Ascii.eqb c d) eqn:Hcd.
      * apply Ascii.eqb_eq in Hcd. subst d. rewrite IH. split.
        -- intros [rest ->]. now exists rest.
        -- intros [rest H]. rewrite append_cons in H. injection H as ->.
           now exists rest.
      * apply Ascii.eqb_neq in Hcd. split; [discriminate |].
        intros [rest H]. rewrite append_cons in H. injection H as H _.
        congruence.
Qed.

Lemma Contains_spec (s sub : string) :
  Contains s sub = true <-> exists pre post, s = pre +:+ sub +:+ post.
Proof.
  split.
  - induction s as [|c s IH]; cbn [Contains]; intros H.
    + rewrite orb_false_r in H. apply HasPrefix_spec in H as [rest ->].
      now exists EmptyString, rest.
    + apply orb_prop in H as [H | H].
      * apply HasPrefix_spec in H as [rest ->]. now exists EmptyString, rest.
      * destruct (IH H) as (pre & post & ->). now exists (String c pre), post.
  - intros (pre & post & ->). apply Contains_middle.
Qed.

Lemma Contains_trans (s mid sub : string) :
  Contains s mid = true -> Contains mid sub = true -> Contains s sub = true.
Proof.
  intros H1 H2. apply Contains_spec in H1 as (a & b & ->).
  apply Contains_spec in H2 as (c & d & ->). apply Contains_spec.
  exists (a +:+ c), (d +:+ b). now rewrite !append_assoc.
Qed.

Lemma concatS_elem (parts : list string) (x : string) :
  x ∈ parts -> exists pre post, concatS parts = pre +:+ x +:+ post.
Proof.
  induction parts as [|y rest IH]; intros Hin; [now apply elem_of_nil in Hin |].
  cbn [concatS]. apply elem_of_cons in Hin as [-> | Hin].
  - exists EmptyString, (concatS rest). now rewrite append_nil_l.
  - destruct (IH Hin) as (pre & post & ->). exists (y +:+ pre), post.
    now rewrite append_assoc.
Qed.

Lemma Contains_append_l (a b x : string) :
  Contains a x = true -> Contains (a +:+ b) x = true.
Proof.
  intros H. apply Contains_spec in H as (pre & post & ->).
  apply Contains_spec. exists pre, (post +:+ b). now rewrite !append_assoc.
Qed.

Lemma Contains_append_r (a b x : string) :
  Contains b x = true -> Contains (a +:+ b) x = true.
Proof.
  intros H. apply Contains_spec in H as (pre & post & ->).
  apply Contains_spec. exists (a +:+ pre), post. now rewrite !append_assoc.
Qed.

Lemma Contains_concatS (parts : list string) (x : string) :
  x ∈ parts -> Contains (concatS parts) x = true.
Proof.
  intros H. destruct (concatS_elem parts x H) as (pre & post & ->).
  apply Contains_middle.
Qed.

(** ** The per-tag decision (renderHTML, both passes) *)

Section TagFacts.
Context {G : GoRuntime} {E : TemplateEngine}.

Lemma hasTemplate_Lookup (templates : registry) (tag : string) :
  hasTemplate templates tag = true
  <-> Lookup templates (tag +:+ ".html") <> None \/ Lookup templates tag <> None.
Proof.
  unfold hasTemplate, Lookup. destruct templates as [t|].
  - destruct (t !! (tag +:+ ".html")), (t !! tag); split; intros H;
      try reflexivity; try (left; discriminate); try (right; discriminate);
      try discriminate.
    destruct H as [H|H]; contradiction.
  - split; [discriminate | intros [H|H]; contradiction].
Qed.

Lemma hasTemplate_false (templates : registry) (tag : string) :
  hasTemplate templates tag = false
  <-> Lookup templates (tag +:+ ".html") = None /\ Lookup templates tag = None.
Proof.
  unfold hasTemplate, Lookup. destruct templates as [t|].
  - destruct (t !! (tag +:+ ".html")), (t !! tag); split; intros H;
      try discriminate; try (destruct H; discriminate); auto.
  - split; auto.
Qed.

(** C3: the decision for a pair follows a strict precedence.  A template
    named [tag.html] is executed; failing that, a template named [tag];
    failing both, a standard tag is rendered as a builtin element; and
    otherwise the body gets nothing and the first pass stores the value in
    the side channel.  In the first three cases the first pass leaves the
    side channel untouched. *)
Theorem tag_resolution_precedence (templates : registry) (tag : string)
    (content : value) (nonStandardData : gmap string value) :
  (forall tmpl,
      Lookup templates (tag +:+ ".html") = Some tmpl ->
      renderPair templates (tag, content) = executeTemplate tmpl tag content
      /\ collectPair templates nonStandardData (tag, content) = nonStandardData)
  /\ (forall tmpl,
        Lookup templates (tag +:+ ".html") = None ->
        Lookup templates tag = Some tmpl ->
        renderPair templates (tag, content) = executeTemplate tmpl tag content
        /\ collectPair templates nonStandardData (tag, content) = nonStandardData)
  /\ (Lookup templates (tag +:+ ".html") = None ->
      Lookup templates tag = None ->
      standardTags tag = true ->
      renderPair templates (tag, content) = renderBuiltin tag content
      /\ collectPair templates nonStandardData (tag, content) = nonStandardData)
  /\ (Lookup templates (tag +:+ ".html") = None ->
      Lookup templates tag = None ->
      standardTags tag = false ->
      renderPair templates (tag, content) = EmptyString
      /\ collectPair templates nonStandardData (tag, content)
         = <[tag := content]> nonStandardData).
Proof.
  repeat split.
  - simpl. now rewrite H.
  - simpl. replace (hasTemplate templates tag) with true.
    + now rewrite andb_false_r.
    + symmetry. apply hasTemplate_Lookup. left. congruence.
  - simpl. now rewrite H, H0.
  - simpl. replace (hasTemplate templates tag) with true.
    + now rewrite andb_false_r.
    + symmetry. apply hasTemplate_Lookup. right. congruence.
  - simpl. now rewrite H, H0, H1.
  - simpl. now rewrite H1.
  - simpl. now rewrite H, H0, H1.
  - simpl. rewrite H1. simpl.
    replace (hasTemplate templates tag) with false; [reflexivity |].
    symmetry. now apply hasTemplate_false.
Qed.

Lemma renderBuiltin_scalar (tag : string) (content : value) :
  (forall l, content <> VList l) ->
  renderBuiltin tag content
  = builtinOpen tag +:+ fmtValue content +:+ builtinClose tag.
Proof.
  intros Hl. unfold renderBuiltin, builtinOpen, builtinClose.
  destruct (String.eqb tag "img"); cbv iota; [now rewrite !append_assoc |].
  destruct (String.eqb tag "ul"); cbv iota.
  - destruct content as [| | | |items|];
      try (rewrite !append_assoc; reflexivity).
    now destruct (Hl items).
  - now rewrite !append_assoc.
Qed.

(** The list items of [ul]. *)
Lemma renderBuiltin_list (l : list value) :
  renderBuiltin "ul" (VList l)
  = "<ul>" +:+ concatS (map (fun li => "<li>" +:+ fmtValue li +:+ "</li>") l)
    +:+ "</ul>".
Proof. reflexivity. Qed.

Lemma renderBuiltin_text (tag : string) (content : value) :
  tag <> "ul" \/ (forall l, content <> VList l) ->
  renderBuiltin tag content
  = builtinOpen tag +:+ fmtValue content +:+ builtinClose tag.
Proof.
  intros [Htag | Hl]; [| now apply renderBuiltin_scalar].
  apply String.eqb_neq in Htag.
  unfold renderBuiltin, builtinOpen, builtinClose. rewrite Htag.
  destruct (String.eqb tag "img"); cbv iota; now rewrite !append_assoc.
Qed.

(** C4 as the code has it: a builtin element carries the display text of
    its value verbatim.  For a standard tag without a template the bytes
    written are fixed markup, the unchanged text of the value, and fixed
    markup; for [ul] with a list they are one [li] element around the
    unchanged text of every member.  No character of a text is
    escaped. *)
Theorem builtin_text_verbatim (templates : registry) (tag : string)
    (content : value) :
  Lookup templates (tag +:+ ".html") = None ->
  Lookup templates tag = None ->
  standardTags tag = true ->
  (tag <> "ul" \/ (forall l, content <> VList l) ->
   renderPair templates (tag, content)
   = builtinOpen tag +:+ fmtValue content +:+ builtinClose tag
   /\ Contains (renderPair templates (tag, content)) (fmtValue content) = true)
  /\ (forall l, tag = "ul" -> content = VList l ->
      renderPair templates (tag, content)
      = "<ul>" +:+ concatS (map (fun li => "<li>" +:+ fmtValue li +:+ "</li>") l)
        +:+ "</ul>"
      /\ forall li, li ∈ l ->
           Contains (renderPair templates (tag, content))
             ("<li>" +:+ fmtValue li +:+ "</li>") = true).
Proof.
  intros H1 H2 H3.
  assert (Hb : renderPair templates (tag, content) = renderBuiltin tag content).
  { simpl. rewrite H1, H2, H3. reflexivity. }
  rewrite Hb. split.
  - intros Hcase. rewrite (renderBuiltin_text tag content Hcase).
    split; [reflexivity | apply Contains_middle].
  - intros l -> ->. rewrite renderBuiltin_list. split; [reflexivity |].
    intros li Hli.
    destruct (concatS_elem (map (fun li => "<li>" +:+ fmtValue li +:+ "</li>") l)
                ("<li>" +:+ fmtValue li +:+ "</li>")) as (pre & post & ->).
    { apply list_elem_of_fmap. now exists li. }
    set (item := "<li>" +:+ fmtValue li +:+ "</li>").
    replace ("<ul>" +:+ (pre +:+ item +:+ post) +:+ "</ul>")
      with (("<ul>" +:+ pre) +:+ item +:+ (post +:+ "</ul>"))
      by (now rewrite !append_assoc).
    apply Contains_middle.
Qed.

End TagFacts.

(** With [card.html] and [card] both loaded, the tag [card] is rendered by
    [card.html] and stays out of the side channel. *)
Lemma tag_resolution_precedence_witness :
  let templates : option (gmap string (@template asciiRuntime plainEngine)) :=
    Some (<["card.html" := "<div>{{.}}</div>"]> {["card" := "<b>{{.}}</b>"]}) in
  @renderPair asciiRuntime plainEngine templates ("card", VStr "x") = "<div>x</div>"
  /\ @collectPair asciiRuntime plainEngine templates ∅ ("card", VStr "x") = ∅.
Proof.
  intros templates.
  destruct (@tag_resolution_precedence asciiRuntime plainEngine templates
              "card" (VStr "x") ∅) as (H1 & _).
  destruct (H1 "<div>{{.}}</div>") as [Hr Hc]; [reflexivity |].
  split; [rewrite Hr; reflexivity | exact Hc].
Defined.

(** The paragraph [<b>&] and the list items [<i>] and [a&b], without
    templates, keep their markup characters. *)
Lemma builtin_text_verbatim_witness :
  @renderPair asciiRuntime plainEngine None ("p", VStr "<b>&") = "<p><b>&</p>"
  /\ @renderPair asciiRuntime plainEngine None ("ul", VList [VStr "<i>"; VStr "a&b"])
     = "<ul><li><i></li><li>a&b</li></ul>".
Proof.
  split.
  - destruct (@builtin_text_verbatim asciiRuntime plainEngine None "p" (VStr "<b>&")
                eq_refl eq_refl eq_refl) as [[Hr _] _].
    + right. intros l. discriminate.
    + rewrite Hr. reflexivity.
  - destruct (@builtin_text_verbatim asciiRuntime plainEngine None "ul"
                (VList [VStr "<i>"; VStr "a&b"]) eq_refl eq_refl eq_refl) as [_ Hlist].
    destruct (Hlist [VStr "<i>"; VStr "a&b"] eq_refl eq_refl) as [Hr _].
    rewrite Hr. reflexivity.
Defined.

(** C4 as the specification words it fails: the builtin paragraph for the
    text [<script>] holds the text as it is and not its escaped form, and
    so does a list item. *)
Lemma builtin_text_not_escaped :
  let out := @renderPair asciiRuntime plainEngine None ("p", VStr "<script>") in
  let items := @renderPair asciiRuntime plainEngine None ("ul", VList [VStr "<script>"]) in
  out <> "<p>" +:+ HTMLEscapeString "<script>" +:+ "</p>"
  /\ Contains out "<script>" = true
  /\ Contains out (HTMLEscapeString "<script>") = false
  /\ Contains items "<script>" = true
  /\ Contains items (HTMLEscapeString "<script>") = false.
Proof. vm_compute. repeat split; discriminate. Qed.

(** ** The design cache (generateUUID, getOrGenerateDesign) *)

(** Test vectors: the digests of "1", of "4242" and of a two-block message. *)
Example generateUUID_pid1 : generateUUID 1 = "c4ca4238a0b923820dcc509a6f75849b".
Proof. vm_compute. reflexivity. Qed.

Example generateUUID_pid4242 : generateUUID 4242 = "fe7ecc4de28b2c83c016b5c6c2acd826".
Proof. vm_compute. reflexivity. Qed.

Example md5_two_blocks :
  EncodeToString (MD5.sum "aaaaaaaaaaaaaaaaaaaaaaaaaaaaaaaaaaaaaaaaaaaaaaaaaaaaaaaaaaaaaaaaaaaaaa")
  = "0f5c6c4e740bfcc08c3c26ccb2673d46".
Proof. vm_compute. reflexivity. Qed.

Lemma EncodeToString_length (bytes : list N) :
  String.length (EncodeToString bytes) = (2 * length bytes)%nat.
Proof.
  induction bytes as [|b rest IH]; simpl; [reflexivity | rewrite IH; lia].
Qed.

Lemma md5_sum_length (msg : string) : length (MD5.sum msg) = 16%nat.
Proof.
  unfold MD5.sum.
  destruct (foldl MD5.block MD5.init _) as [[[a b] c] d]. reflexivity.
Qed.

Lemma generateUUID_length (pid : Z) : String.length (generateUUID pid) = 32%nat.
Proof.
  unfold generateUUID. now rewrite EncodeToString_length, md5_sum_length.
Qed.

Lemma generateUUID_nonempty (pid : Z) : generateUUID pid <> EmptyString.
Proof.
  intros H. pose proof (generateUUID_length pid) as Hl.
  rewrite H in Hl. discriminate.
Qed.

Lemma ReadDir_elem (fs : filesystem) (f : string * entry) :
  In f (ReadDir fs) <-> cached fs !! f.1 = Some f.2.
Proof.
  unfold ReadDir, sortByKey. rewrite <- list_elem_of_In.
  rewrite merge_sort_Permutation. destruct f as [k e]. simpl.
  apply elem_of_map_to_list.
Qed.

Section CacheFacts.
Context {G : GoRuntime}.

Lemma promptMatches_same (prompt name : string) (files : gmap string string) :
  files !! "prompt.txt" = Some prompt ->
  promptMatches prompt (name, EDir files) = true.
Proof.
  intros H. unfold promptMatches. simpl. rewrite H. apply String.eqb_refl.
Qed.

Lemma generated_cached (u prompt : string) (fs : filesystem)
    (files : gmap string string) :
  cached fs !! u = Some (EDir files) ->
  cached (generated u prompt fs)
  = <[u := EDir (<["div.html" := divContent (deriveStyle prompt)]>
                   (<["h1.html" := h1Content (deriveStyle prompt)]>
                      (<["prompt.txt" := prompt]> files)))]> (cached fs).
Proof.
  intros Hu. unfold generated, generateTemplates, WriteFile.
  rewrite Hu. rewrite cached_withCache, lookup_insert_eq. cbv beta iota.
  rewrite !cached_withCache, lookup_insert_eq. cbv beta iota.
  rewrite !cached_withCache. now rewrite !insert_insert_eq.
Qed.

Lemma MkdirAll_cached (u : string) (fs fs1 : filesystem) :
  MkdirAll u fs = Some fs1 ->
  exists files,
    cached fs1 !! u = Some (EDir files)
    /\ (forall k, k <> u -> cached fs1 !! k = cached fs !! k).
Proof.
  unfold MkdirAll. destruct (cached fs !! u) as [[text|files]|] eqn:Hu; intros H;
    try discriminate.
  - injection H as <-. exists files. split; [exact Hu | reflexivity].
  - destruct (negb (cacheDir fs) && _); [discriminate |]. injection H as <-.
    exists ∅. rewrite cached_withCache. split; [apply lookup_insert_eq |].
    intros k Hk. now apply lookup_insert_ne.
Qed.

(** After a generation under [u], the tree holds [u] as a directory with
    the prompt and the two templates, and every other name is as before. *)
Lemma generation_result (u prompt : string) (fs fs1 : filesystem) :
  MkdirAll u fs = Some fs1 ->
  exists files,
    cached (generated u prompt fs1) !! u = Some (EDir files)
    /\ files !! "prompt.txt" = Some prompt
    /\ files !! "h1.html" = Some (h1Content (deriveStyle prompt))
    /\ files !! "div.html" = Some (divContent (deriveStyle prompt))
    /\ (forall k, k <> u -> cached (generated u prompt fs1) !! k = cached fs !! k).
Proof.
  intros Hm. destruct (MkdirAll_cached _ _ _ Hm) as (files0 & Hu & Hother).
  rewrite (generated_cached _ _ _ _ Hu).
  eexists. split; [apply lookup_insert_eq |]. repeat split.
  - rewrite !lookup_insert_ne by discriminate. apply lookup_insert_eq.
  - rewrite lookup_insert_ne by discriminate. apply lookup_insert_eq.
  - apply lookup_insert_eq.
  - intros k Hk. rewrite lookup_insert_ne by congruence. now apply Hother.
Qed.

(** X27: resolving a prompt again after a resolution that returned an
    identifier returns the same identifier and leaves the directory tree
    as the first resolution left it, whatever the process id of the second
    call, unless the second call stops at the identifier test on a prompt
    that is not the identifier returned. *)
Lemma resolution_repeats (pid pid' : Z) (prompt : string) (fs : filesystem) :
  (getOrGenerateDesign pid prompt fs).1 <> EmptyString ->
  ((String.length prompt =? 32)%nat
   && statCached (getOrGenerateDesign pid prompt fs).2 prompt = true ->
   (getOrGenerateDesign pid prompt fs).1 = prompt) ->
  getOrGenerateDesign pid' prompt (getOrGenerateDesign pid prompt fs).2
  = getOrGenerateDesign pid prompt fs.
Proof.
  unfold getOrGenerateDesign at 1 2 3 5 6.
  destruct ((String.length prompt =? 32)%nat && statCached fs prompt) eqn:Hfast.
  { intros _ _. simpl. unfold getOrGenerateDesign. now rewrite Hfast. }
  destruct (find (promptMatches prompt) (ReadDir fs)) as [f|] eqn:Hscan.
  { intros _ _. simpl. unfold getOrGenerateDesign. now rewrite Hfast, Hscan. }
  destruct (MkdirAll (generateUUID pid) fs) as [fs1|] eqn:Hmk.
  2:{ intros H. now destruct H. }
  intros _. simpl. fold (generated (generateUUID pid) prompt fs1).
  set (u := generateUUID pid) in *.
  destruct (generation_result u prompt fs fs1 Hmk)
    as (files & Hu & Hprompt & _ & _ & Hother).
  set (fs2 := generated u prompt fs1) in *. intros Hsame.
  unfold getOrGenerateDesign.
  destruct ((String.length prompt =? 32)%nat && statCached fs2 prompt) eqn:Hfast2.
  - now rewrite (Hsame eq_refl).
  - destruct (find (promptMatches prompt) (ReadDir fs2)) as [f|] eqn:Hscan2.
    + apply find_some in Hscan2 as [Hin Hmatch].
      apply ReadDir_elem in Hin.
      destruct (decide (f.1 = u)) as [->|Hne]; [reflexivity |].
      rewrite (Hother _ Hne) in Hin. apply ReadDir_elem in Hin.
      pose proof (find_none _ _ Hscan _ Hin) as Hno. congruence.
    + assert (Hin : In (u, EDir files) (ReadDir fs2)) by now apply ReadDir_elem.
      pose proof (find_none _ _ Hscan2 _ Hin) as Hno.
      rewrite (promptMatches_same _ _ _ Hprompt) in Hno. discriminate.
Qed.

End CacheFacts.

Section CollisionFacts.
Context {G : GoRuntime}.

Lemma fresh_generation (pid : Z) (prompt : string) (fs fs1 : filesystem) :
  freshPrompt prompt fs ->
  MkdirAll (generateUUID pid) fs = Some fs1 ->
  getOrGenerateDesign pid prompt fs
  = (generateUUID pid, generated (generateUUID pid) prompt fs1).
Proof.
  intros [Hfast Hscan] Hmk. unfold getOrGenerateDesign.
  now rewrite Hfast, Hscan, Hmk.
Qed.

(** C10: [generateUUID] is the MD5 digest of the decimal digits of the
    process id, written as hexadecimal digits, and nothing else enters
    it; it is 32 characters long.  Hence two prompts that each trigger a
    fresh generation in one process get the same directory: after the
    second generation its [prompt.txt], [h1.html] and [div.html] are those
    of the second prompt, the first prompt's files being overwritten, and
    no other name of the cache changes. *)
Theorem uuid_collision (pid : Z) (p1 p2 : string) (fs : filesystem) :
  let u := generateUUID pid in
  u = EncodeToString (MD5.sum (pretty pid))
  /\ String.length u = 32%nat
  /\ (freshPrompt p1 fs ->
      MkdirAll u fs <> None ->
      let r1 := getOrGenerateDesign pid p1 fs in
      freshPrompt p2 r1.2 ->
      let r2 := getOrGenerateDesign pid p2 r1.2 in
      r1.1 = u /\ r2.1 = u
      /\ (exists files1,
             cached r1.2 !! u = Some (EDir files1)
             /\ files1 !! "prompt.txt" = Some p1
             /\ files1 !! "h1.html" = Some (h1Content (deriveStyle p1))
             /\ files1 !! "div.html" = Some (divContent (deriveStyle p1)))
      /\ (exists files2,
             cached r2.2 !! u = Some (EDir files2)
             /\ files2 !! "prompt.txt" = Some p2
             /\ files2 !! "h1.html" = Some (h1Content (deriveStyle p2))
             /\ files2 !! "div.html" = Some (divContent (deriveStyle p2)))
      /\ (forall k, k <> u -> cached r2.2 !! k = cached fs !! k)).
Proof.
  intros u. split; [reflexivity |]. split; [apply generateUUID_length |].
  intros Hf1 Hmk r1 Hf2 r2.
  destruct (MkdirAll u fs) as [fs1|] eqn:Hmk1; [clear Hmk | now destruct Hmk].
  assert (Hr1 : r1 = (u, generated u p1 fs1)).
  { subst r1 u. apply fresh_generation; assumption. }
  destruct (generation_result u p1 fs fs1 Hmk1)
    as (files1 & Hu1 & Hp1 & Hh1 & Hd1 & Hother1).
  assert (Hmk2 : MkdirAll u (generated u p1 fs1) = Some (generated u p1 fs1)).
  { unfold MkdirAll. now rewrite Hu1. }
  assert (Hr2 : r2 = (u, generated u p2 (generated u p1 fs1))).
  { subst r2. rewrite Hr1. simpl. rewrite Hr1 in Hf2. simpl in Hf2.
    subst u. apply fresh_generation; assumption. }
  destruct (generation_result u p2 _ _ Hmk2)
    as (files2 & Hu2 & Hp2 & Hh2 & Hd2 & Hother2).
  rewrite Hr2, Hr1. simpl. repeat split; try reflexivity.
  - exists files1. auto.
  - exists files2. auto.
  - intros k Hk. rewrite (Hother2 _ Hk). now apply Hother1.
Qed.

End CollisionFacts.

(** In process 1 with an empty cache, "dark" and then "moody" both land in
    the directory named by the digest of "1", which ends up holding the
    prompt "moody"; process 4242 has the digest of "4242". *)
Lemma uuid_collision_witness :
  let fs := mkFS ∅ ∅ in
  let u := "c4ca4238a0b923820dcc509a6f75849b" in
  let r1 := @getOrGenerateDesign asciiRuntime 1 "dark" fs in
  let r2 := @getOrGenerateDesign asciiRuntime 1 "moody" r1.2 in
  r1.1 = u /\ r2.1 = u
  /\ (exists files2, cached r2.2 !! u = Some (EDir files2)
                     /\ files2 !! "prompt.txt" = Some "moody")
  /\ generateUUID 1 = u
  /\ generateUUID 4242 = "fe7ecc4de28b2c83c016b5c6c2acd826".
Proof.
  intros fs u r1 r2.
  destruct (@uuid_collision asciiRuntime 1 "dark" "moody" fs) as (Hmd5 & _ & H).
  destruct (@uuid_collision asciiRuntime 4242 "dark" "moody" fs) as (Hmd5' & _ & _).
  destruct H as (H1 & H2 & _ & (files2 & Hc & Hp & _) & _).
  - split; reflexivity.
  - discriminate.
  - split; vm_compute; reflexivity.
  - split; [exact H1 |]. split; [exact H2 |].
    split; [exists files2; split; [exact Hc | exact Hp] |].
    split; [rewrite Hmd5 | rewrite Hmd5']; vm_compute; reflexivity.
Defined.

(** C6 on the code: with [components/] in place and no [cached/] yet, the
    32-byte prompt [././././././././././././././././] is first resolved by
    a generation, to the digest of the process id; the generation creates
    [components/cached], which is the path the prompt names once joined
    and cleaned, so the second resolution stops at the identifier test and
    returns the prompt itself. *)
Lemma design_resolution_not_idempotent :
  let prompt := "././././././././././././././././" in
  let r1 := @getOrGenerateDesign asciiRuntime 1 prompt uncachedTree in
  let r2 := @getOrGenerateDesign asciiRuntime 1 prompt r1.2 in
  String.length prompt = 32%nat
  /\ statCached uncachedTree prompt = false
  /\ r1.1 = "c4ca4238a0b923820dcc509a6f75849b"
  /\ statCached r1.2 prompt = true
  /\ r2.1 = prompt
  /\ r2.1 <> r1.1.
Proof.
  intros prompt r1 r2.
  assert (H1 : r1.1 = "c4ca4238a0b923820dcc509a6f75849b") by (vm_compute; reflexivity).
  assert (H2 : r2.1 = prompt) by (vm_compute; reflexivity).
  split; [reflexivity |]. split; [vm_compute; reflexivity |].
  split; [exact H1 |]. split; [vm_compute; reflexivity |].
  split; [exact H2 |]. rewrite H1, H2. discriminate.
Qed.

(** ** The injected script values (json.Marshal) *)

(** The encoder and the two printers on small values. *)
Example jsonNumber_examples :
  map jsonNumber ["42"; "-0"; "1e+21"; "0.5"; "1.5E-7"; "01"; "1."; ".5"; "+1"; "-"]
  = [true; true; true; true; true; false; false; false; false; false].
Proof. vm_compute. reflexivity. Qed.

Example appendString_example :
  appendString ("a<b>&" +:+ DQ +:+ NL)
  = DQ +:+ "a\u003cb\u003e\u0026\" +:+ DQ +:+ "\n" +:+ DQ.
Proof. vm_compute. reflexivity. Qed.

Example fmtValue_example :
  @fmtValue asciiRuntime
    (VMap [("b", VList [@VNum asciiRuntime 3%Z; VNil]); ("a", VBool true)])
  = "map[a:true b:[3 <nil>]]".
Proof. vm_compute. reflexivity. Qed.

Lemma lacksByte_append (c : ascii) (a b : string) :
  lacksByte c (a +:+ b) = lacksByte c a && lacksByte c b.
Proof.
  induction a as [|x a IH]; [reflexivity |].
  rewrite append_cons. simpl. rewrite IH. now rewrite andb_assoc.
Qed.

Lemma lacksByte_Join (c : ascii) (parts : list string) (sep : string) :
  lacksByte c sep = true ->
  Forall (fun p => lacksByte c p = true) parts ->
  lacksByte c (Join parts sep) = true.
Proof.
  intros Hsep Hall. induction Hall as [|p rest Hp Hrest IH]; [reflexivity |].
  destruct rest as [|q rest]; [exact Hp |].
  change (Join (p :: q :: rest) sep) with (p +:+ sep +:+ Join (q :: rest) sep).
  now rewrite !lacksByte_append, Hp, Hsep, IH.
Qed.

Lemma lacksByte_concatS (c : ascii) (parts : list string) :
  Forall (fun p => lacksByte c p = true) parts ->
  lacksByte c (concatS parts) = true.
Proof.
  intros Hall. induction Hall as [|p rest Hp Hrest IH]; [reflexivity |].
  simpl. now rewrite lacksByte_append, Hp, IH.
Qed.

(** A string without the byte [c] has no substring that starts with [c]. *)
Lemma lacksByte_Contains (c : ascii) (s sub : string) :
  lacksByte c s = true -> Contains s (String c sub) = false.
Proof.
  induction s as [|d s IH]; [reflexivity |].
  simpl. intros H. apply andb_prop in H as [Hd Hs].
  rewrite (IH Hs), orb_false_r.
  rewrite Ascii.eqb_sym. apply negb_true_iff in Hd. now rewrite Hd.
Qed.

(** *** Numbers *)

Lemma skipDigits_bytes (s : string) :
  allNumberBytes (skipDigits s) = true -> allNumberBytes s = true.
Proof.
  induction s as [|c r IH]; [reflexivity |]. simpl.
  destruct (isDigit c) eqn:Hd; [| exact id].
  intros H. unfold numberByte. rewrite Hd. simpl. now apply IH.
Qed.

Lemma digits1_bytes (s rest : string) :
  digits1 s = Some rest -> allNumberBytes rest = true -> allNumberBytes s = true.
Proof.
  destruct s as [|c r]; [discriminate |]. simpl.
  destruct (isDigit c) eqn:Hd; [| discriminate].
  intros [= <-] H. unfold numberByte. rewrite Hd. simpl.
  now apply skipDigits_bytes.
Qed.

Lemma jsonExponent_bytes (s : string) :
  jsonExponent s = true -> allNumberBytes s = true.
Proof.
  destruct s as [|e r]; [reflexivity |]. simpl.
  destruct (isByte e 101 || isByte e 69) eqn:He; [| discriminate].
  assert (Hne : numberByte e = true).
  { unfold numberByte. apply orb_prop in He as [-> | ->];
      now rewrite ?orb_true_r. }
  rewrite Hne. simpl.
  destruct r as [|sign r1].
  - simpl. discriminate.
  - destruct (isByte sign 43 || isByte sign 45) eqn:Hs.
    + destruct (digits1 r1) as [[|]|] eqn:Hd; try discriminate.
      intros _. simpl.
      assert (Hns : numberByte sign = true).
      { unfold numberByte. apply orb_prop in Hs as [-> | ->];
          now rewrite ?orb_true_r. }
      rewrite Hns. simpl. now apply (digits1_bytes _ _ Hd).
    + destruct (digits1 (String sign r1)) as [[|]|] eqn:Hd; try discriminate.
      intros _. now apply (digits1_bytes _ _ Hd).
Qed.

Lemma jsonFraction_bytes (s : string) :
  jsonFraction s = true -> allNumberBytes s = true.
Proof.
  destruct s as [|dot r]; [reflexivity |]. unfold jsonFraction.
  destruct (isByte dot 46) eqn:Hdot; [| apply jsonExponent_bytes].
  destruct (digits1 r) as [rest|] eqn:Hd; [| discriminate].
  intros He. simpl. unfold numberByte. rewrite Hdot, !orb_true_r. simpl.
  apply (digits1_bytes _ _ Hd), jsonExponent_bytes, He.
Qed.

Lemma jsonInt_bytes (s : string) :
  jsonInt s = true -> allNumberBytes s = true.
Proof.
  destruct s as [|c r]; [discriminate |]. unfold jsonInt.
  destruct (isByte c 48) eqn:H0.
  - intros H. simpl.
    assert (Hc : numberByte c = true).
    { unfold numberByte, isDigit, inRange, isByte in *.
      apply N.eqb_eq in H0. rewrite H0. reflexivity. }
    rewrite Hc. simpl. now apply jsonFraction_bytes.
  - destruct (inRange c 49 57) eqn:H19; [| discriminate].
    intros H. simpl.
    assert (Hc : numberByte c = true).
    { unfold numberByte, isDigit, inRange in *.
      apply andb_prop in H19 as [Hlo Hhi].
      apply N.leb_le in Hlo. apply N.leb_le in Hhi.
      replace (48 <=? byteVal c)%N with true by (symmetry; apply N.leb_le; lia).
      replace (byteVal c <=? 57)%N with true by (symmetry; apply N.leb_le; lia).
      reflexivity. }
    rewrite Hc. simpl. now apply skipDigits_bytes, jsonFraction_bytes.
Qed.

Lemma jsonNumber_bytes (s : string) :
  jsonNumber s = true -> allNumberBytes s = true.
Proof.
  destruct s as [|c r]; [discriminate |]. unfold jsonNumber.
  destruct (isByte c 45) eqn:Hm; [| apply jsonInt_bytes].
  intros H. simpl. unfold numberByte. rewrite Hm, !orb_true_r. simpl.
  now apply jsonInt_bytes.
Qed.

Lemma numberByte_not_LT (c : ascii) : numberByte c = true -> Ascii.eqb c LT = false.
Proof.
  intros H. apply Ascii.eqb_neq. intros ->. vm_compute in H. discriminate.
Qed.

Lemma jsonNumber_lacks_LT (s : string) :
  jsonNumber s = true -> lacksByte LT s = true.
Proof.
  intros H. apply jsonNumber_bytes in H.
  induction s as [|c r IH]; [reflexivity |]. simpl in *.
  apply andb_prop in H as [Hc Hr].
  now rewrite (numberByte_not_LT c Hc), IH.
Qed.

(** *** Strings *)

Lemma appendRunes_chunks (fuel : nat) (src : string) :
  exists cs, Forall chunk cs /\ appendRunes fuel src = concatS cs.
Proof.
  revert src. induction fuel as [|fuel IH]; intros src.
  { exists []. split; [constructor | reflexivity]. }
  destruct src as [|b rest].
  { exists []. split; [constructor | reflexivity]. }
  cbn [appendRunes].
  destruct (inRange b 0 127) eqn:Hascii.
  - destruct (IH rest) as (cs & Hcs & ->).
    destruct (htmlSafe b) eqn:Hsafe.
    + exists (String b EmptyString :: cs). split; [| reflexivity].
      constructor; [now apply chunk_safe | exact Hcs].
    + exists (escapeByte b :: cs). split; [| reflexivity].
      constructor; [now apply chunk_escape | exact Hcs].
  - destruct (runeSize (String b rest)) as [n|] eqn:Hsize.
    + destruct (IH (dropS n (String b rest))) as (cs & Hcs & ->).
      destruct (lineSeparator (String b rest)) as [d|] eqn:Hsep.
      * exists (("\u202" +:+ String d EmptyString) :: cs). split; [| reflexivity].
        constructor; [now apply (chunk_separator (String b rest)) | exact Hcs].
      * exists (takeS n (String b rest) :: cs). split; [| reflexivity].
        constructor; [now apply chunk_rune | exact Hcs].
    + destruct (IH rest) as (cs & Hcs & ->).
      exists ("\ufffd" :: cs). split; [| reflexivity].
      constructor; [apply chunk_replacement | exact Hcs].
Qed.

Lemma allCont_take (n : nat) (s : string) :
  allCont n s = true ->
  allCont n (takeS n s) = true /\ String.length (takeS n s) = n.
Proof.
  revert s. induction n as [|n IH]; intros s; [now destruct s |].
  destruct s as [|c s]; [discriminate |]. simpl.
  intros H. apply andb_prop in H as [Hc Hs]. rewrite Hc. simpl.
  destruct (IH s Hs) as [-> ->]. auto.
Qed.

Lemma runeSize_take (s : string) (n : nat) :
  runeSize s = Some n ->
  runeSize (takeS n s) = Some n /\ String.length (takeS n s) = n.
Proof.
  destruct s as [|b0 r0]; [discriminate |]. unfold runeSize.
  destruct (inRange b0 0 127) eqn:Hascii.
  { intros [= <-]. cbn [takeS String.length]. now rewrite Hascii. }
  destruct (runeClass b0) as [[[lo hi] more]|] eqn:Hclass; [| discriminate].
  destruct r0 as [|b1 r1]; [discriminate |].
  destruct (inRange b1 lo hi && allCont more r1) eqn:Hok; [| discriminate].
  intros [= <-]. apply andb_prop in Hok as [Hb1 Hcont].
  destruct (allCont_take more r1 Hcont) as [Hc Hl].
  cbn [takeS String.length Nat.add]. rewrite Hascii, Hclass, Hb1, Hc, Hl. auto.
Qed.

Lemma byte_cases (P : ascii -> Prop) :
  (forall b0 b1 b2 b3 b4 b5 b6 b7 : bool, P (Ascii b0 b1 b2 b3 b4 b5 b6 b7)) ->
  forall c, P c.
Proof. intros H [b0 b1 b2 b3 b4 b5 b6 b7]. apply H. Qed.

Lemma escape_chars (b : ascii) (s : string) :
  inRange b 0 127 = true -> htmlSafe b = false -> JsonChars s ->
  JsonChars (escapeByte b +:+ s).
Proof.
  intros Hr Hs Hj. revert Hr Hs. pattern b. apply byte_cases.
  intros [] [] [] [] [] [] [] []; vm_compute; intros Hr Hs;
    try discriminate;
    first [ apply chars_escape; [reflexivity | exact Hj]
          | apply (chars_unicode _ _ _ _ s); [reflexivity | exact Hj] ].
Qed.

Lemma escape_lacks_LT (b : ascii) :
  inRange b 0 127 = true -> htmlSafe b = false -> lacksByte LT (escapeByte b) = true.
Proof.
  pattern b. apply byte_cases.
  intros [] [] [] [] [] [] [] []; vm_compute; intros Hr Hs;
    try discriminate; reflexivity.
Qed.

Lemma safe_byte (b : ascii) :
  htmlSafe b = true ->
  unescapedStart (String b EmptyString) = true /\ Ascii.eqb b LT = false.
Proof.
  pattern b. apply byte_cases.
  intros [] [] [] [] [] [] [] []; vm_compute; intros Hs;
    try discriminate; auto.
Qed.

Lemma high_byte (b : ascii) (rest : string) :
  (128 <=? byteVal b)%N = true ->
  unescapedStart (String b rest) = true /\ Ascii.eqb b LT = false.
Proof.
  revert rest. pattern b. apply byte_cases.
  intros [] [] [] [] [] [] [] [] rest; vm_compute; intros Hs;
    try discriminate; auto.
Qed.

Lemma not_ascii_high (b : ascii) :
  inRange b 0 127 = false -> (128 <=? byteVal b)%N = true.
Proof.
  unfold inRange. intros H. apply N.leb_le.
  apply andb_false_iff in H as [H|H].
  - apply N.leb_gt in H. lia.
  - apply N.leb_gt in H. lia.
Qed.

Lemma runeClass_high (b0 : ascii) (lo hi : N) (more : nat) :
  runeClass b0 = Some (lo, hi, more) -> (128 <= lo)%N.
Proof.
  unfold runeClass.
  repeat match goal with
         | |- context [if ?c then _ else _] => destruct c
         end; intros [= <- <- <-]; lia.
Qed.

Lemma allCont_lacks_LT (n : nat) (s : string) :
  allCont n s = true -> lacksByte LT (takeS n s) = true.
Proof.
  revert s. induction n as [|n IH]; intros s; [now destruct s |].
  destruct s as [|c s]; [discriminate |]. simpl.
  intros H. apply andb_prop in H as [Hc Hs].
  rewrite (IH s Hs), andb_true_r.
  assert (Hhigh : (128 <=? byteVal c)%N = true).
  { unfold isCont, inRange in Hc. now apply andb_prop in Hc as [-> _]. }
  destruct (high_byte c EmptyString Hhigh) as [_ ->]. reflexivity.
Qed.

Lemma rune_lacks_LT (b : ascii) (rest : string) (n : nat) :
  inRange b 0 127 = false -> runeSize (String b rest) = Some n ->
  lacksByte LT (takeS n (String b rest)) = true.
Proof.
  intros Hascii. unfold runeSize. rewrite Hascii.
  destruct (runeClass b) as [[[lo hi] more]|] eqn:Hclass; [| discriminate].
  destruct rest as [|b1 r1]; [discriminate |].
  destruct (inRange b1 lo hi && allCont more r1) eqn:Hok; [| discriminate].
  intros [= <-]. apply andb_prop in Hok as [Hb1 Hcont]. simpl.
  destruct (high_byte b EmptyString (not_ascii_high b Hascii)) as [_ ->].
  assert (H1 : (128 <=? byteVal b1)%N = true).
  { apply N.leb_le. pose proof (runeClass_high _ _ _ _ Hclass).
    unfold inRange in Hb1. apply andb_prop in Hb1 as [Hlo _].
    apply N.leb_le in Hlo. lia. }
  destruct (high_byte b1 EmptyString H1) as [_ ->]. simpl.
  now apply allCont_lacks_LT.
Qed.

Lemma lineSeparator_digit (src : string) (d : ascii) :
  lineSeparator src = Some d -> d = "8"%char \/ d = "9"%char.
Proof.
  unfold lineSeparator.
  destruct src as [|b0 [|b1 [|b2 r]]]; try discriminate.
  destruct ((byteVal b0 =? 226)%N && (byteVal b1 =? 128)%N); [| discriminate].
  destruct (byteVal b2 =? 168)%N; [intros [= <-]; auto |].
  destruct (byteVal b2 =? 169)%N; [intros [= <-]; auto | discriminate].
Qed.

Lemma chunk_chars (c s : string) : chunk c -> JsonChars s -> JsonChars (c +:+ s).
Proof.
  intros Hc Hs. destruct Hc as [b Hr Hsafe | b Hr Hsafe | | src d Hd | b rest n Hr Hn].
  - apply chars_unescaped; [| now apply safe_byte | exact Hs].
    simpl. now rewrite Hr.
  - now apply escape_chars.
  - exact (chars_unicode "f" "f" "f" "d" s eq_refl Hs).
  - apply lineSeparator_digit in Hd as [-> | ->].
    + exact (chars_unicode "2" "0" "2" "8" s eq_refl Hs).
    + exact (chars_unicode "2" "0" "2" "9" s eq_refl Hs).
  - destruct (runeSize_take _ _ Hn) as [Ht Hl].
    apply chars_unescaped; [now rewrite Hl | | exact Hs].
    destruct n as [|n].
    + unfold runeSize in Hn. rewrite Hr in Hn.
      destruct (runeClass b) as [[[lo hi] more]|]; [| discriminate].
      destruct rest; [discriminate |].
      destruct (_ && _); discriminate.
    + cbn [takeS].
      exact (proj1 (high_byte b (takeS n rest) (not_ascii_high b Hr))).
Qed.

Lemma chunk_lacks_LT (c : string) : chunk c -> lacksByte LT c = true.
Proof.
  intros Hc. destruct Hc as [b Hr Hsafe | b Hr Hsafe | | src d Hd | b rest n Hr Hn].
  - simpl. destruct (safe_byte b Hsafe) as [_ ->]. reflexivity.
  - now apply escape_lacks_LT.
  - reflexivity.
  - apply lineSeparator_digit in Hd as [-> | ->]; reflexivity.
  - now apply rune_lacks_LT.
Qed.

Lemma appendRunes_chars (fuel : nat) (src : string) :
  JsonChars (appendRunes fuel src) /\ lacksByte LT (appendRunes fuel src) = true.
Proof.
  destruct (appendRunes_chunks fuel src) as (cs & Hcs & ->).
  induction Hcs as [|c cs Hc Hcs [IH1 IH2]]; [split; [constructor | reflexivity] |].
  simpl. split.
  - now apply chunk_chars.
  - now rewrite lacksByte_append, (chunk_lacks_LT c Hc), IH2.
Qed.

Lemma appendString_string (src : string) :
  JsonString (appendString src) /\ lacksByte LT (appendString src) = true.
Proof.
  unfold appendString.
  destruct (appendRunes_chars (String.length src) src) as [Hc Hl].
  split; [now constructor |].
  now rewrite !lacksByte_append, Hl.
Qed.

Lemma dropS_length (n : nat) (s : string) :
  String.length (dropS n s) = (String.length s - n)%nat.
Proof.
  revert s. induction n as [|n IH]; intros s; [simpl; lia |].
  destruct s as [|c s]; [reflexivity |]. simpl. apply IH.
Qed.

Lemma runeSize_positive (s : string) (n : nat) : runeSize s = Some n -> (1 <= n)%nat.
Proof.
  destruct s as [|b0 r0]; [discriminate |]. unfold runeSize.
  destruct (inRange b0 0 127); [intros [= <-]; lia |].
  destruct (runeClass b0) as [[[lo hi] more]|]; [| discriminate].
  destruct r0 as [|b1 r1]; [discriminate |].
  destruct (_ && _); [intros [= <-]; lia | discriminate].
Qed.

(** The fuel given by [appendString] is enough: any larger amount gives
    the same bytes. *)
Lemma appendRunes_fuel (fuel1 fuel2 : nat) (src : string) :
  (String.length src <= fuel1)%nat -> (String.length src <= fuel2)%nat ->
  appendRunes fuel1 src = appendRunes fuel2 src.
Proof.
  revert fuel2 src. induction fuel1 as [|fuel1 IH]; intros fuel2 src H1 H2.
  { destruct src; [now destruct fuel2 | simpl in H1; lia]. }
  destruct src as [|b rest]; [now destruct fuel2 |].
  destruct fuel2 as [|fuel2]; [simpl in H2; lia |].
  simpl in H1, H2. cbn [appendRunes].
  destruct (inRange b 0 127).
  { f_equal. apply IH; lia. }
  destruct (runeSize (String b rest)) as [n|] eqn:Hn.
  - assert (Hlen : (String.length (dropS n (String b rest)) <= String.length rest)%nat).
    { rewrite dropS_length. pose proof (runeSize_positive _ _ Hn). simpl. lia. }
    rewrite (IH fuel2 (dropS n (String b rest))) by lia. reflexivity.
  - f_equal. apply IH; lia.
Qed.

Section MarshalFacts.
Context {G : GoRuntime}.

Lemma value_ind' (P : value -> Prop) :
  P VNil ->
  (forall b, P (VBool b)) ->
  (forall f, P (VNum f)) ->
  (forall s, P (VStr s)) ->
  (forall l, Forall P l -> P (VList l)) ->
  (forall m, Forall (fun kv => P kv.2) m -> P (VMap m)) ->
  forall v, P v.
Proof.
  intros Hnil Hbool Hnum Hstr Hlist Hmap.
  fix IH 1. intros [| b | f | s | l | m].
  - exact Hnil.
  - apply Hbool.
  - apply Hnum.
  - apply Hstr.
  - apply Hlist. induction l as [|x l IHl]; constructor; [apply IH | exact IHl].
  - apply Hmap. induction m as [|[k x] m IHm]; constructor; [apply IH | exact IHm].
Qed.

Lemma Marshal_list (l : list value) :
  Marshal (VList l) = "[" +:+ Join (map Marshal l) "," +:+ "]".
Proof. reflexivity. Qed.

Lemma Marshal_map (m : list (string * value)) :
  Marshal (VMap m)
  = "{" +:+ Join (map (fun kv : string * string => appendString kv.1 +:+ ":" +:+ kv.2)
                    (sortByKey (map (fun '(k, x) => (k, Marshal x)) m))) ","
    +:+ "}".
Proof. reflexivity. Qed.

Lemma Marshal_json (v : value) :
  numbersOK v = true ->
  JsonValue (Marshal v) /\ lacksByte LT (Marshal v) = true.
Proof.
  induction v as [| b | f | s | l IH | m IH] using value_ind'.
  - intros _. split; [constructor | reflexivity].
  - intros _. destruct b; (split; [constructor | reflexivity]).
  - simpl. intros Hn. split; [now apply json_number | now apply jsonNumber_lacks_LT].
  - intros _. destruct (appendString_string s) as [Hs Hl].
    split; [now apply json_text | exact Hl].
  - intros Hn. cbn [numbersOK] in Hn. rewrite forallb_forall in Hn.
    assert (Hall : Forall (fun t => JsonValue t /\ lacksByte LT t = true)
                     (map Marshal l)).
    { apply Forall_map. rewrite Forall_forall in IH |- *.
      intros x Hx. apply IH; [exact Hx |]. apply Hn. now apply list_elem_of_In. }
    rewrite Marshal_list. split.
    + apply json_array. eapply Forall_impl; [exact Hall |]. now intros t [].
    + rewrite !lacksByte_append. rewrite lacksByte_Join; [reflexivity | reflexivity |].
      eapply Forall_impl; [exact Hall |]. now intros t [].
  - intros Hn. cbn [numbersOK] in Hn. rewrite forallb_forall in Hn.
    assert (Hall : Forall (fun kv : string * string =>
                             JsonValue kv.2 /\ lacksByte LT kv.2 = true)
                     (sortByKey (map (fun '(k, x) => (k, Marshal x)) m))).
    { unfold sortByKey. rewrite merge_sort_Permutation.
      apply Forall_map. rewrite Forall_forall in IH |- *.
      intros [k x] Hx. simpl. apply (IH (k, x) Hx).
      apply (Hn (k, x)). now apply list_elem_of_In. }
    rewrite Marshal_map. split.
    + apply json_object. apply Forall_map.
      eapply Forall_impl; [exact Hall |]. intros [k t] [Ht _]. cbn [fst snd] in *.
      exists (appendString k), t. split; [reflexivity |].
      split; [apply appendString_string | exact Ht].
    + rewrite !lacksByte_append. rewrite lacksByte_Join; [reflexivity | reflexivity |].
      apply Forall_map. eapply Forall_impl; [exact Hall |].
      intros [k t] [_ Ht]. cbn [fst snd] in *.
      destruct (appendString_string k) as [_ Hk].
      rewrite lacksByte_append, Hk. rewrite lacksByte_append, Ht. reflexivity.
Qed.

(** C9: the value of a non-standard tag is written in the script block as
    a JSON text, and that text holds no less-than sign at all (the encoder
    writes it as a [u003c] escape), so the sequence [</script>] never
    occurs in it; with a tag free of that sign the whole assignment line
    is free of [</script>]. *)
Theorem script_value_is_safe_json (tag : string) (content : value) :
  numbersOK content = true ->
  scriptLine (tag, content)
  = "        customContent['" +:+ tag +:+ "'] = " +:+ Marshal content +:+ ";" +:+ NL
  /\ JsonValue (Marshal content)
  /\ lacksByte LT (Marshal content) = true
  /\ Contains (Marshal content) "</script>" = false
  /\ (lacksByte LT tag = true ->
      Contains (scriptLine (tag, content)) "</script>" = false).
Proof.
  intros Hn. destruct (Marshal_json content Hn) as [Hj Hl].
  split; [reflexivity |]. split; [exact Hj |]. split; [exact Hl |].
  split; [now apply (lacksByte_Contains LT) |].
  intros Ht. apply (lacksByte_Contains LT). unfold scriptLine. cbv beta iota.
  rewrite lacksByte_append. rewrite (lacksByte_append _ tag), Ht.
  rewrite lacksByte_append. rewrite (lacksByte_append _ (Marshal content)), Hl.
  reflexivity.
Qed.

End MarshalFacts.

(** The text [</script>] next to a number in a nested value. *)
Lemma script_value_is_safe_json_witness :
  @Marshal asciiRuntime (VMap [("b", VList [@VNum asciiRuntime 42%Z; VStr "</script>"]); ("a", VNil)])
  = "{" +:+ DQ +:+ "a" +:+ DQ +:+ ":null," +:+ DQ +:+ "b" +:+ DQ
    +:+ ":[42," +:+ DQ +:+ "\u003c/script\u003e" +:+ DQ +:+ "]}"
  /\ Contains
       (@scriptLine asciiRuntime
          ("x", VMap [("b", VList [@VNum asciiRuntime 42%Z; VStr "</script>"]); ("a", VNil)]))
       "</script>" = false.
Proof.
  split; [vm_compute; reflexivity |].
  destruct (@script_value_is_safe_json asciiRuntime "x"
              (VMap [("b", VList [@VNum asciiRuntime 42%Z; VStr "</script>"]); ("a", VNil)]))
    as (_ & _ & _ & _ & H).
  - vm_compute. reflexivity.
  - apply H. vm_compute. reflexivity.
Defined.

(** ** What renderHTML does with the enumerations it is given *)

Section OrderFacts.
Context {G : GoRuntime} {E : TemplateEngine}.

Lemma concatS_app (a b : list string) :
  concatS (a ++ b)%list = concatS a +:+ concatS b.
Proof.
  induction a as [|x a IH]; [reflexivity |].
  simpl. now rewrite IH, append_assoc.
Qed.

(** The body is written block after block, and pair after pair inside a
    block, in the order of the enumerations. *)
Lemma renderBody_app (t : registry) (before after : list gomap) :
  renderBody t (before ++ after)%list = renderBody t before +:+ renderBody t after.
Proof. unfold renderBody. now rewrite map_app, concatS_app. Qed.

Lemma renderItem_app (t : registry) (before after : gomap) :
  renderItem t (before ++ after)%list = renderItem t before +:+ renderItem t after.
Proof. unfold renderItem. now rewrite map_app, concatS_app. Qed.

Lemma collectNonStandard_snoc (t : registry) (ranges : list gomap) (enum : gomap) :
  collectNonStandard t (ranges ++ [enum])%list
  = foldl (collectPair t) (collectNonStandard t ranges) enum.
Proof. unfold collectNonStandard. now rewrite foldl_app. Qed.

Lemma collect_other (t : registry) (nsd : gmap string value) (enum : gomap)
    (tag : string) :
  tag ∉ enum.*1 ->
  foldl (collectPair t) nsd enum !! tag = nsd !! tag.
Proof.
  revert nsd. induction enum as [|[k v] enum IH]; intros nsd Hnot; [reflexivity |].
  cbn [foldl]. rewrite fmap_cons in Hnot. cbn [fst] in Hnot.
  apply not_elem_of_cons in Hnot as [Hk Hrest].
  rewrite IH by exact Hrest. unfold collectPair.
  destruct (negb (standardTags k) && negb (hasTemplate t k)); [| reflexivity].
  now rewrite lookup_insert_ne.
Qed.

(** Last write wins over the order of the items slice: the side channel
    holds, for a non-standard tag of the last block visited, the value of
    that block, whatever earlier blocks stored. *)
Lemma side_channel_last_block (t : registry) (ranges : list gomap)
    (before after : gomap) (tag : string) (v : value) :
  standardTags tag = false -> hasTemplate t tag = false ->
  tag ∉ after.*1 ->
  collectNonStandard t (ranges ++ [(before ++ (tag, v) :: after)%list])%list !! tag
  = Some v.
Proof.
  intros Hstd Htmpl Hafter. rewrite collectNonStandard_snoc, foldl_app.
  cbn [foldl]. rewrite collect_other by exact Hafter.
  unfold collectPair at 1. rewrite Hstd, Htmpl. simpl.
  apply lookup_insert_eq.
Qed.

(** A tag that is standard or has a template never enters the side
    channel. *)
Lemma side_channel_excludes (t : registry) (ranges : list gomap) (tag : string) :
  standardTags tag = true \/ hasTemplate t tag = true ->
  collectNonStandard t ranges !! tag = None.
Proof.
  intros Hskip.
  assert (Hpair : forall nsd p, nsd !! tag = None ->
                    collectPair t nsd p !! tag = None).
  { intros nsd [k v] Hnone. unfold collectPair.
    destruct (negb (standardTags k) && negb (hasTemplate t k)) eqn:Hguard;
      [| exact Hnone].
    rewrite lookup_insert_ne; [exact Hnone |]. intros ->.
    apply andb_prop in Hguard as [H1 H2].
    apply negb_true_iff in H1. apply negb_true_iff in H2.
    destruct Hskip; congruence. }
  assert (Hitem : forall enum nsd, nsd !! tag = None ->
                    foldl (collectPair t) nsd enum !! tag = None).
  { induction enum as [|p enum IH]; intros nsd Hnone; [exact Hnone |].
    cbn [foldl]. apply IH, Hpair, Hnone. }
  unfold collectNonStandard.
  assert (Hall : forall rs nsd, nsd !! tag = None ->
             foldl (fun acc enum => foldl (collectPair t) acc enum) nsd rs !! tag = None).
  { induction rs as [|enum rs IH]; intros nsd Hnone; [exact Hnone |].
    cbn [foldl]. apply IH, Hitem, Hnone. }
  apply Hall, lookup_empty.
Qed.

End OrderFacts.

(** ** The revised renderHTML (second Go file) *)

Section RevisionFacts.
Context {G : GoRuntime} {E : TemplateEngine}.

(** There the head carries the tags of the framework [flags.csslib]
    names, compared after lower-casing, and nothing for another value. *)
Lemma revision_emits_csslib (templates : registry)
    (items : list Revision.ContentItem) (flagsMap : gomap) (rangeNSD : gomap)
    (name : string) :
  mapIndex flagsMap "csslib" = Some (VStr name) ->
  Revision.renderHead templates items (Some flagsMap) rangeNSD
  = Revision.headOpen +:+ Revision.frameworkTags (ToLower name)
    +:+ Revision.styleBlock
    +:+ scriptBlock (Revision.collectNonStandard templates items) rangeNSD
    +:+ headClose.
Proof.
  intros H. unfold Revision.renderHead, Revision.cssLibBlock. now rewrite H.
Qed.

Lemma revision_without_csslib (templates : registry)
    (items : list Revision.ContentItem) (flags : option gomap) (rangeNSD : gomap) :
  (forall flagsMap, flags = Some flagsMap -> mapIndex flagsMap "csslib" = None) ->
  Revision.renderHead templates items flags rangeNSD
  = Revision.headOpen +:+ Revision.styleBlock
    +:+ scriptBlock (Revision.collectNonStandard templates items) rangeNSD
    +:+ headClose.
Proof.
  intros H. unfold Revision.renderHead, Revision.cssLibBlock.
  destruct flags as [flagsMap|]; [| reflexivity].
  now rewrite (H flagsMap eq_refl).
Qed.

(** There the body is written item after item in slice order, every item
    being its pairs in slice order between the two halves of its
    container. *)
Lemma revision_body_in_order (templates : registry)
    (before after : list Revision.ContentItem) :
  Revision.renderBody templates (before ++ after)%list
  = Revision.renderBody templates before +:+ Revision.renderBody templates after.
Proof. unfold Revision.renderBody. now rewrite map_app, concatS_app. Qed.

End RevisionFacts.

(** With [csslib] set to "Bootstrap" the revised head holds the Bootstrap
    style sheet link. *)
Example revision_bootstrap_head :
  Contains
    (@Revision.renderHead asciiRuntime plainEngine None []
       (Some [("csslib", VStr "Bootstrap")]) [])
    "bootstrap.min.css" = true.
Proof. vm_compute. reflexivity. Qed.

(** ** Sorted listings *)

#[local] Instance keyLe_trans {A} : Transitive (@keyLe A).
Proof.
  intros x y z Hxy Hyz. unfold keyLe in *.
  apply Is_true_true. apply Is_true_true in Hxy. apply Is_true_true in Hyz.
  exact (transitivity (R := String.le) Hxy Hyz).
Qed.

#[local] Instance keyLe_total {A} : Total (@keyLe A).
Proof.
  intros x y. unfold keyLe.
  destruct (total String.le x.1 y.1) as [H | H]; [left | right];
    now apply Is_true_true.
Qed.

Lemma same_key_same_entry {A} (l : list (string * A)) (x y : string * A) :
  NoDup l.*1 -> x ∈ l -> y ∈ l -> x.1 = y.1 -> x = y.
Proof.
  induction l as [|z l IH]; intros Hnd Hx Hy Hk.
  { now apply elem_of_nil in Hx. }
  rewrite fmap_cons in Hnd. apply NoDup_cons in Hnd as [Hz Hnd].
  apply elem_of_cons in Hx as [-> | Hx]; apply elem_of_cons in Hy as [-> | Hy].
  - reflexivity.
  - destruct Hz. rewrite Hk. apply list_elem_of_fmap. now exists y.
  - destruct Hz. rewrite <- Hk. apply list_elem_of_fmap. now exists x.
  - now apply IH.
Qed.

(** Sorting by key forgets the order of a list with distinct keys. *)
Lemma sortByKey_perm {A} (l1 l2 : list (string * A)) :
  NoDup l1.*1 -> Permutation l1 l2 -> sortByKey l1 = sortByKey l2.
Proof.
  intros Hnd Hp. unfold sortByKey.
  apply (StronglySorted_unique_strong keyLe).
  - intros x1 x2 H1 H2 H12 H21.
    rewrite merge_sort_Permutation in H1. rewrite merge_sort_Permutation, <- Hp in H2.
    apply (same_key_same_entry l1); try assumption.
    unfold keyLe in *. apply Is_true_true in H12. apply Is_true_true in H21.
    exact (anti_symm String.le _ _ H12 H21).
  - apply StronglySorted_merge_sort; apply _.
  - apply StronglySorted_merge_sort; apply _.
  - now rewrite !merge_sort_Permutation.
Qed.




(** ** Identifiers are made of hexadecimal digits *)

Lemma hexDigit_lower (n : N) : isLowerHex (hexDigit n) = true.
Proof.
  unfold hexDigit.
  repeat match goal with
         | |- context [match ?x with _ => _ end] => destruct x; try reflexivity
         end.
Qed.

Lemma EncodeToString_hex (bytes : list N) : allLowerHex (EncodeToString bytes) = true.
Proof.
  induction bytes as [|b rest IH]; [reflexivity |].
  cbn [EncodeToString allLowerHex]. now rewrite !hexDigit_lower, IH.
Qed.

(** ** Paths under the cache directory (os.Stat, filepath.Join) *)

Lemma Contains_byte_cons (c d : ascii) (s : string) :
  Contains (String d s) (String c EmptyString)
  = Ascii.eqb c d || Contains s (String c EmptyString).
Proof. cbn [Contains HasPrefix]. now destruct (Ascii.eqb c d). Qed.

Lemma splitPath_plain (s : string) :
  Contains s "/" = false -> splitPath s = [s].
Proof.
  induction s as [|c s IH]; [reflexivity |].
  rewrite Contains_byte_cons. intros H. apply orb_false_elim in H as [Hc Hs].
  cbn [splitPath]. rewrite Ascii.eqb_sym, Hc. now rewrite (IH Hs).
Qed.

Lemma cachedPath_plain (name : string) :
  plainName name = true -> cachedPath name = (0%nat, ["components"; "cached"; name]).
Proof.
  unfold plainName. intros H.
  repeat match type of H with _ && _ = true => apply andb_prop in H as [H ?] end.
  repeat match goal with Hn : negb _ = true |- _ => apply negb_true_iff in Hn end.
  unfold cachedPath. rewrite splitPath_plain by assumption.
  cbn [cleanFrom]. now repeat match goal with Hn : _ = false |- _ => rewrite Hn end.
Qed.

(** For a name that is one path element, the joined path names the entry
    of the cache directory under that name. *)
Lemma lookupCached_plain (fs : filesystem) (name : string) :
  plainName name = true ->
  lookupCached fs name = entryNode <$> cached fs !! name.
Proof.
  intros Hplain. unfold lookupCached. rewrite (cachedPath_plain name Hplain).
  unfold plainName in Hplain. apply andb_prop in Hplain as [_ Hnul].
  apply negb_true_iff in Hnul. rewrite Hnul.
  unfold lookupPath, cached. change (String.eqb "components" "components") with true.
  cbv iota. destruct (dirs fs) as [[files [entries|]]|]; try reflexivity.
Qed.

Lemma statCached_plain (fs : filesystem) (name : string) :
  plainName name = true ->
  statCached fs name = true <-> is_Some (cached fs !! name).
Proof.
  intros Hplain. unfold statCached. rewrite (lookupCached_plain fs name Hplain).
  destruct (cached fs !! name) as [e|]; simpl; split; intros H;
    try reflexivity; try discriminate; eauto.
  now destruct H.
Qed.

Lemma lowerHex_lacks (c : ascii) (s : string) :
  allLowerHex s = true -> isLowerHex c = false ->
  Contains s (String c EmptyString) = false.
Proof.
  intros Hs Hc. induction s as [|d s IH]; [reflexivity |].
  cbn [allLowerHex] in Hs. apply andb_prop in Hs as [Hd Hs].
  rewrite Contains_byte_cons, (IH Hs), orb_false_r.
  apply Ascii.eqb_neq. intros ->. congruence.
Qed.

Lemma generateUUID_plain (pid : Z) : plainName (generateUUID pid) = true.
Proof.
  pose proof (generateUUID_length pid) as Hlen.
  pose proof (EncodeToString_hex (MD5.sum (pretty pid))) as Hhex.
  fold (generateUUID pid) in Hhex. unfold plainName.
  rewrite (lowerHex_lacks "/"%char _ Hhex eq_refl).
  unfold NUL. rewrite (lowerHex_lacks (ascii_of_nat 0) _ Hhex eq_refl).
  assert (Hne : forall t, String.length t <> 32%nat ->
                  String.eqb (generateUUID pid) t = false).
  { intros t Ht. apply String.eqb_neq. intros Heq. now rewrite Heq in Hlen. }
  now rewrite !Hne by (simpl; lia).
Qed.

Section TreeFacts.
Context {G : GoRuntime}.

Lemma generated_components (u prompt : string) (fs : filesystem) :
  components (generated u prompt fs) = components fs.
Proof.
  assert (Hw : forall dir file content fs0,
             components (WriteFile dir file content fs0) = components fs0).
  { intros dir file content fs0. unfold WriteFile.
    destruct (cached fs0 !! dir) as [[text|files]|]; reflexivity. }
  unfold generated, generateTemplates. now rewrite !Hw.
Qed.

Lemma MkdirAll_components (u : string) (fs fs1 : filesystem) :
  MkdirAll u fs = Some fs1 -> components fs1 = components fs.
Proof.
  unfold MkdirAll. destruct (cached fs !! u) as [[text|files]|]; intros H;
    try discriminate.
  - now injection H as <-.
  - destruct (negb (cacheDir fs) && _); [discriminate |]. now injection H as <-.
Qed.

End TreeFacts.

(** ** The handler: what the response depends on *)

Section HandlerFacts.
Context {G : GoRuntime} {E : TemplateEngine}.

Lemma contentItemsOf_app (a b : gomap) :
  contentItemsOf (a ++ b) = contentItemsOf a ++ contentItemsOf b.
Proof. unfold contentItemsOf. apply omap_app. Qed.

Lemma contentItemsOf_flags (v : value) (l : gomap) (k : string) :
  String.eqb k "flags" = true ->
  contentItemsOf ((k, v) :: l) = contentItemsOf l.
Proof. intros Hk. unfold contentItemsOf. simpl. now rewrite Hk. Qed.

Lemma contentItemsOf_other (v : value) (l : gomap) (k : string) :
  String.eqb k "flags" = false ->
  contentItemsOf ((k, v) :: l)
  = match v with VMap m => [m] | _ => [] end ++ contentItemsOf l.
Proof.
  intros Hk. unfold contentItemsOf. simpl. rewrite Hk.
  now destruct v.
Qed.




Lemma resolveDesign_off (s : server) (flags : option gomap) :
  aiDesign s = false -> resolveDesign s flags = s.
Proof.
  intros Hoff. unfold resolveDesign.
  destruct flags as [f|]; [|reflexivity].
  destruct (mapIndex f "designprompt"); [|reflexivity]. now rewrite Hoff.
Qed.








Lemma collectPair_standard (t : registry) (nsd : gmap string value)
    (tag : string) (content : value) :
  standardTags tag = true -> collectPair t nsd (tag, content) = nsd.
Proof. intros H. simpl. now rewrite H. Qed.

Lemma collectPair_bare (nsd : gmap string value) (tag : string) (content : value) :
  standardTags tag = false ->
  collectPair None nsd (tag, content) = <[tag := content]> nsd.
Proof. intros H. simpl. now rewrite H. Qed.

Lemma handlerRun_intro (s : server) (d rangeData : gomap) (r : ranges) :
  Permutation rangeData d ->
  admissible (templates (resolveDesign s (extractFlags d)))
    (contentItemsOf rangeData) r ->
  handlerRun s d (handler s d rangeData r).
Proof. intros Hp Ha. exists rangeData, r. auto. Qed.

Lemma handler_off (s : server) (d rangeData : gomap) (r : ranges) :
  aiDesign s = false ->
  handler s d rangeData r
  = (s, renderHTML false (templates s) (contentItemsOf rangeData) (extractFlags d) r).
Proof.
  intros Hoff. unfold handler. rewrite (resolveDesign_off s _ Hoff).
  now rewrite Hoff.
Qed.

End HandlerFacts.

(** ** Runs of the handler on concrete documents *)

Section Runs.
#[local] Existing Instance asciiRuntime.
#[local] Existing Instance plainEngine.

(** A run of [plainServer]: the enumerations are admissible and the bytes
    written are [body]. *)
Lemma plainServer_run (d rangeData : gomap) (r : ranges) (body : string) :
  Permutation rangeData d ->
  admissible None (contentItemsOf rangeData) r ->
  renderHTML false None (contentItemsOf rangeData) (extractFlags d) r = body ->
  handlerRun plainServer d (plainServer, body).
Proof.
  intros Hp Ha <-.
  replace (plainServer, _) with (handler plainServer d rangeData r)
    by (now rewrite handler_off by reflexivity).
  apply handlerRun_intro; [exact Hp |].
  now rewrite resolveDesign_off by reflexivity.
Qed.

(** C1 on the code: the document
    [{"1": {"h1": "A"}, "2": {"h1": "B"}}] has a run whose body renders
    block 2 before block 1, and [{"1": {"h1": "A", "p": "B"}}] has a run
    that renders [p] before [h1]: [range] over the decoded maps does not
    follow the source order. *)
Lemma source_order_not_kept :
  handlerRun plainServer
    [("1", VMap [("h1", VStr "A")]); ("2", VMap [("h1", VStr "B")])]
    (plainServer, plainPage "<h1>B</h1><h1>A</h1>")
  /\ handlerRun plainServer
       [("1", VMap [("h1", VStr "A"); ("p", VStr "B")])]
       (plainServer, plainPage "<p>B</p><h1>A</h1>").
Proof.
  split.
  - apply (plainServer_run _
             [("2", VMap [("h1", VStr "B")]); ("1", VMap [("h1", VStr "A")])]
             (mkRanges [[("h1", VStr "B")]; [("h1", VStr "A")]] []
                       [[("h1", VStr "B")]; [("h1", VStr "A")]])).
    + apply perm_swap.
    + split; [repeat constructor |]. split; [| repeat constructor].
      cbn [firstPass scriptPass]. unfold collectNonStandard. cbn [foldl].
      rewrite !collectPair_standard by reflexivity.
      now rewrite map_to_list_empty.
    + vm_compute. reflexivity.
  - apply (plainServer_run _
             [("1", VMap [("h1", VStr "A"); ("p", VStr "B")])]
             (mkRanges [[("h1", VStr "A"); ("p", VStr "B")]] []
                       [[("p", VStr "B"); ("h1", VStr "A")]])).
    + reflexivity.
    + split; [repeat constructor |]. split.
      * cbn [firstPass scriptPass]. unfold collectNonStandard. cbn [foldl].
        rewrite !collectPair_standard by reflexivity.
        now rewrite map_to_list_empty.
      * repeat constructor.
    + vm_compute. reflexivity.
Qed.

(** C5 on the code: for [{"1": {"x": "V1"}, "3": {"x": "V2"}}] there is a
    run whose script block assigns the value of block 1, the last block
    the loop happened to visit. *)
Lemma side_channel_not_document_order :
  handlerRun plainServer
    [("1", VMap [("x", VStr "V1")]); ("3", VMap [("x", VStr "V2")])]
    (plainServer,
     htmlStart +:+ scriptOpen
     +:+ "        customContent['x'] = " +:+ DQ +:+ "V1" +:+ DQ +:+ ";" +:+ NL
     +:+ scriptClose +:+ headClose +:+ htmlEnd).
Proof.
  apply (plainServer_run _
           [("3", VMap [("x", VStr "V2")]); ("1", VMap [("x", VStr "V1")])]
           (mkRanges [[("x", VStr "V2")]; [("x", VStr "V1")]] [("x", VStr "V1")]
                     [[("x", VStr "V2")]; [("x", VStr "V1")]])).
  - apply perm_swap.
  - split; [repeat constructor |]. split; [| repeat constructor].
    cbn [firstPass scriptPass]. unfold collectNonStandard. cbn [foldl].
    rewrite !collectPair_bare by reflexivity.
    rewrite insert_insert_eq, insert_empty.
    now rewrite map_to_list_singleton.
  - vm_compute. reflexivity.
Qed.

(** C8 on the code: with [flags.csslib] set to "bootstrap" the head is the
    fixed head; no framework tag is written. *)
Lemma csslib_not_emitted :
  handlerRun plainServer
    [("flags", VMap [("csslib", VStr "bootstrap")]); ("1", VMap [("h1", VStr "T")])]
    (plainServer, plainPage "<h1>T</h1>")
  /\ Contains (plainPage "<h1>T</h1>") "bootstrap" = false
  /\ Contains (plainPage "<h1>T</h1>") "<link" = false.
Proof.
  split; [| split; vm_compute; reflexivity].
  apply (plainServer_run _
           [("flags", VMap [("csslib", VStr "bootstrap")]); ("1", VMap [("h1", VStr "T")])]
           (mkRanges [[("h1", VStr "T")]] [] [[("h1", VStr "T")]])).
  - reflexivity.
  - split; [repeat constructor |]. split; [| repeat constructor].
    cbn [firstPass scriptPass]. unfold collectNonStandard. cbn [foldl].
    rewrite !collectPair_standard by reflexivity.
    now rewrite map_to_list_empty.
  - vm_compute. reflexivity.
Qed.

Lemma headingRanges_admissible (t : registry) :
  admissible t [[("h1", VStr "T")]] headingRanges.
Proof.
  split; [repeat constructor |]. split; [| repeat constructor].
  cbn [firstPass scriptPass headingRanges]. unfold collectNonStandard. cbn [foldl].
  rewrite collectPair_standard by reflexivity.
  now rewrite map_to_list_empty.
Qed.




End Runs.


(** * Further properties of the code *)

(** ** Loading the template layers (parseTemplates) *)

Section LayerFacts.
Context {G : GoRuntime} {E : TemplateEngine}.

Lemma associate_layers (t0 t base : gmap string template) (d : string * template) :
  (forall name, t !! name = layered (t0 !! name) (base !! name)) ->
  forall name, associate t d !! name
               = layered (associate t0 d !! name) (base !! name).
Proof.
  intros Hrel name. destruct d as [k body]. unfold associate. cbn [fst snd].
  destruct (decide (name = k)) as [-> | Hne].
  - specialize (Hrel k). destruct (emptyTree body) eqn:Hempty; cbn [andb].
    + destruct (t0 !! k) as [old0|] eqn:H0.
      * assert (Hsome : is_Some (t !! k)).
        { rewrite Hrel. unfold layered.
          destruct (emptyTree old0); [destruct (base !! k) |]; eauto. }
        rewrite !bool_decide_eq_true_2 by eauto. now rewrite H0.
      * rewrite (bool_decide_eq_false_2 (is_Some (@None template)))
          by (intros [? ?]; discriminate).
        rewrite lookup_insert_eq. unfold layered at 1 in Hrel.
        unfold layered. rewrite Hempty.
        destruct (base !! k) as [b|] eqn:Hb.
        -- rewrite bool_decide_eq_true_2 by (rewrite Hrel; eauto). exact Hrel.
        -- rewrite bool_decide_eq_false_2
             by (rewrite Hrel; intros [? ?]; discriminate).
           apply lookup_insert_eq.
    + rewrite !lookup_insert_eq. unfold layered. now rewrite Hempty.
  - assert (Hkeep : forall m : gmap string template,
               (if emptyTree body && bool_decide (is_Some (m !! k))
                then m else <[k := body]> m) !! name = m !! name).
    { intros m. destruct (emptyTree body && _); [reflexivity |].
      now apply lookup_insert_ne. }
    rewrite !Hkeep. apply Hrel.
Qed.

Lemma foldl_associate_layers (defs : list (string * template))
    (t0 t base : gmap string template) :
  (forall name, t !! name = layered (t0 !! name) (base !! name)) ->
  forall name, foldl associate t defs !! name
               = layered (foldl associate t0 defs !! name) (base !! name).
Proof.
  revert t0 t. induction defs as [|d defs IH]; intros t0 t Hrel; [exact Hrel |].
  cbn [foldl]. apply IH. now apply associate_layers.
Qed.

(** Parsing files into a set keeps, name by name, the layering of what
    parsing them into the empty set gives over the set. *)
Lemma parseFiles_layers (files : list (string * string))
    (t0 t base : gmap string template) :
  (forall name, t !! name = layered (t0 !! name) (base !! name)) ->
  match parseFiles t0 files, parseFiles t files with
  | Some c, Some m => forall name, m !! name = layered (c !! name) (base !! name)
  | None, None => True
  | _, _ => False
  end.
Proof.
  revert t0 t. induction files as [|[name text] files IH]; intros t0 t Hrel;
    cbn [parseFiles]; [exact Hrel |].
  destruct (parseFile name text) as [defs|]; [| exact I].
  apply IH. now apply foldl_associate_layers.
Qed.

Lemma parseFiles_broken (t : gmap string template) (files : list (string * string))
    (f : string * string) :
  f ∈ files -> parseFile f.1 f.2 = None -> parseFiles t files = None.
Proof.
  revert t. induction files as [|[name text] files IH]; intros t Hin Hbad.
  - now apply elem_of_nil in Hin.
  - cbn [parseFiles]. apply elem_of_cons in Hin as [-> | Hin].
    + simpl in Hbad. now rewrite Hbad.
    + destruct (parseFile name text); [| reflexivity]. now apply IH.
Qed.

Lemma ParseGlob_broken (t : gmap string template) (files : list (string * string))
    (f : string * string) :
  f ∈ files -> parseFile f.1 f.2 = None -> ParseGlob t files = None.
Proof.
  intros Hin Hbad. unfold ParseGlob. destruct files; [reflexivity |].
  now apply (parseFiles_broken t _ f).
Qed.

(** X1: when both layers load, the registry holds for every name the
    layering of the design's template over the default one: the design's
    body where the design defines the name, except that an empty body
    does not replace a default one. *)
Theorem design_layer_overrides_by_name (customUUID : string) (fs : filesystem)
    (custom defaults : gmap string template) (name : string) :
  customUUID <> EmptyString ->
  ParseGlob ∅ (customFilesOf customUUID fs) = Some custom ->
  ParseGlob ∅ (globHTML (components fs)) = Some defaults ->
  Lookup (parseTemplates customUUID fs) name
  = layered (custom !! name) (defaults !! name).
Proof.
  intros Hid Hc Hd. unfold parseTemplates.
  apply String.eqb_neq in Hid. rewrite Hid, Hc, Hd.
  unfold ParseGlob in *. destruct (customFilesOf customUUID fs) as [|f files];
    [discriminate |].
  pose proof (parseFiles_layers (f :: files) ∅ defaults defaults) as Hl.
  rewrite Hc in Hl.
  destruct (parseFiles defaults (f :: files)) as [merged|].
  - unfold Lookup. apply Hl. intros k. now rewrite lookup_empty.
  - destruct Hl. intros k. now rewrite lookup_empty.
Qed.

(** X2: a design layer that does not load leaves the default registry: the
    directory is missing or is a file, holds no [.html] file, or holds one
    that does not parse. *)
Theorem unusable_design_layer_ignored (customUUID : string) (fs : filesystem) :
  customFilesOf customUUID fs = []
  \/ (exists f, f ∈ customFilesOf customUUID fs /\ parseFile f.1 f.2 = None) ->
  parseTemplates customUUID fs = parseTemplates EmptyString fs.
Proof.
  intros Hbad. unfold parseTemplates.
  destruct (String.eqb customUUID EmptyString); [reflexivity |].
  change (String.eqb EmptyString EmptyString) with true. cbv iota.
  assert (Hc : ParseGlob ∅ (customFilesOf customUUID fs) = None).
  { destruct Hbad as [-> | (f & Hin & Hf)]; [reflexivity |].
    now apply (ParseGlob_broken _ _ f). }
  now rewrite Hc.
Qed.

(** X3: one default template file that does not parse leaves the registry
    nil: no default template is available, the well-formed ones
    included. *)
Theorem broken_default_file_empties_registry (fs : filesystem) (f : string * string) :
  f ∈ globHTML (components fs) -> parseFile f.1 f.2 = None ->
  parseTemplates EmptyString fs = None
  /\ forall name, Lookup (parseTemplates EmptyString fs) name = None.
Proof.
  intros Hin Hbad.
  assert (H : parseTemplates EmptyString fs = None).
  { unfold parseTemplates. change (String.eqb EmptyString EmptyString) with true.
    cbv iota. now apply (ParseGlob_broken _ _ f). }
  split; [exact H |]. intros name. now rewrite H.
Qed.

End LayerFacts.

(** ** What a request makes of the document (handler) *)

Section DocumentFacts.
Context {G : GoRuntime} {E : TemplateEngine}.

Lemma contentItemsOf_cons (kv : string * value) (l : gomap) :
  contentItemsOf (kv :: l)
  = (if isBlock kv then match kv.2 with VMap m => [m] | _ => [] end else [])
    ++ contentItemsOf l.
Proof.
  destruct kv as [k v]. unfold isBlock. cbn [fst snd].
  destruct (String.eqb k "flags") eqn:Hk.
  - now rewrite (contentItemsOf_flags v l k Hk).
  - rewrite (contentItemsOf_other v l k Hk). now destruct v.
Qed.

Lemma contentItemsOf_blocks (l : gomap) :
  contentItemsOf (filter (fun kv => isBlock kv = true) l) = contentItemsOf l.
Proof.
  induction l as [|kv l IH]; [reflexivity |].
  rewrite filter_cons. destruct (isBlock kv) eqn:Hb.
  - rewrite decide_True by reflexivity.
    now rewrite !contentItemsOf_cons, Hb, IH.
  - rewrite decide_False by discriminate.
    now rewrite contentItemsOf_cons, Hb.
Qed.

Lemma contentItemsOf_no_blocks (l : gomap) :
  contentItemsOf (filter (fun kv => isBlock kv = false) l) = [].
Proof.
  induction l as [|kv l IH]; [reflexivity |].
  rewrite filter_cons. destruct (isBlock kv) eqn:Hb.
  - now rewrite decide_False by discriminate.
  - rewrite decide_True by reflexivity.
    now rewrite contentItemsOf_cons, Hb.
Qed.

Lemma split_blocks (l : gomap) :
  Permutation l
    (filter (fun kv => isBlock kv = false) l
     ++ filter (fun kv => isBlock kv = true) l).
Proof.
  induction l as [|kv l IH]; [reflexivity |].
  rewrite !filter_cons. destruct (isBlock kv) eqn:Hb.
  - rewrite decide_False by discriminate. rewrite decide_True by reflexivity.
    rewrite <- Permutation_middle. now constructor.
  - rewrite decide_True by reflexivity. rewrite decide_False by discriminate.
    simpl. now constructor.
Qed.

(** The runs of two documents are the same when they lead to the same
    design step and have the same content blocks. *)
Lemma handlerRun_same_blocks (s : server) (d1 d2 : gomap) (out : server * string) :
  resolveDesign s (extractFlags d1) = resolveDesign s (extractFlags d2) ->
  Permutation (filter (fun kv => isBlock kv = true) d1)
              (filter (fun kv => isBlock kv = true) d2) ->
  handlerRun s d1 out -> handlerRun s d2 out.
Proof.
  intros Hs Hblocks (rangeData & r & Hperm & Hadm & Hout).
  set (rangeData2 := filter (fun kv => isBlock kv = false) d2
                     ++ filter (fun kv => isBlock kv = true) rangeData).
  assert (Hitems : contentItemsOf rangeData2 = contentItemsOf rangeData).
  { unfold rangeData2.
    now rewrite contentItemsOf_app, contentItemsOf_no_blocks, contentItemsOf_blocks. }
  exists rangeData2, r. split; [| split].
  - unfold rangeData2. etransitivity; [| symmetry; apply split_blocks].
    apply Permutation_app_head. rewrite <- Hblocks. now rewrite Hperm.
  - rewrite Hitems, <- Hs. exact Hadm.
  - rewrite Hout. unfold handler. now rewrite Hitems, Hs.
Qed.

(** X4: a top-level entry whose value is not an object is dropped without a
    trace: the document with it and the document without it have the same
    runs.  This holds for a non-object [flags] too, which counts as no
    flags. *)
Theorem non_object_entry_ignored (s : server) (d : gomap) (key : string)
    (v : value) (out : server * string) :
  (forall m, v <> VMap m) ->
  mapIndex d key = None ->
  handlerRun s ((key, v) :: d) out <-> handlerRun s d out.
Proof.
  intros Hv Hfresh.
  assert (Hnb : isBlock (key, v) = false).
  { unfold isBlock. cbn [fst snd]. destruct v; try now rewrite andb_false_r.
    now destruct (Hv m). }
  assert (Hflags : extractFlags ((key, v) :: d) = extractFlags d).
  { unfold extractFlags. cbn [mapIndex].
    destruct (String.eqb key "flags") eqn:Hk; [| reflexivity].
    apply String.eqb_eq in Hk. subst key. rewrite Hfresh.
    destruct v; try reflexivity. now destruct (Hv m). }
  assert (Hblocks : filter (fun kv => isBlock kv = true) ((key, v) :: d)
                    = filter (fun kv => isBlock kv = true) d).
  { rewrite filter_cons. now rewrite decide_False by (rewrite Hnb; discriminate). }
  split; apply handlerRun_same_blocks;
    rewrite ?Hflags, ?Hblocks; reflexivity.
Qed.

(** X5: outside design mode, and for a document without [designprompt], no
    request changes the process: the template registry and the directory
    tree stay as they were. *)
Theorem request_keeps_state (s : server) (d : gomap) (out : server * string) :
  aiDesign s = false \/ designPromptOf d = None ->
  handlerRun s d out -> out.1 = s.
Proof.
  intros Hcase (rangeData & r & _ & _ & ->). unfold handler. cbn [fst].
  destruct Hcase as [Hoff | Hnone]; [now apply resolveDesign_off |].
  unfold designPromptOf in Hnone. unfold resolveDesign.
  destruct (extractFlags d) as [flagsMap|]; [| reflexivity].
  destruct (mapIndex flagsMap "designprompt"); [discriminate | reflexivity].
Qed.

(** X6: a document without content blocks (empty, or holding only [flags] and
    non-object entries) gets the page with an empty container: no script
    block and no body, in every run. *)
Theorem no_blocks_empty_page (s : server) (d : gomap) (out : server * string) :
  filter (fun kv => isBlock kv = true) d = [] ->
  handlerRun s d out ->
  out.2 = htmlStart
          +:+ (if aiDesign s then aiStyleBlock else EmptyString)
          +:+ headClose +:+ htmlEnd.
Proof.
  intros Hnone (rangeData & r & Hperm & Hadm & ->).
  assert (Hitems : contentItemsOf rangeData = []).
  { rewrite <- contentItemsOf_blocks.
    assert (Hf : filter (fun kv => isBlock kv = true) rangeData = []).
    { apply Permutation_nil_r. rewrite <- Hnone. now rewrite Hperm. }
    now rewrite Hf. }
  rewrite Hitems in Hadm. destruct r as [fp sp bp].
  destruct Hadm as (H1 & HS & H2). cbn [firstPass scriptPass secondPass] in *.
  apply Forall2_nil_inv_r in H1. apply Forall2_nil_inv_r in H2. subst fp bp.
  change (collectNonStandard _ []) with (∅ : gmap string value) in HS.
  rewrite map_to_list_empty in HS. apply Permutation_nil_r in HS. subst sp.
  unfold handler. cbn [snd]. rewrite Hitems.
  assert (Hai : aiDesign (resolveDesign s (extractFlags d)) = aiDesign s).
  { unfold resolveDesign. destruct (extractFlags d) as [f|]; [| reflexivity].
    destruct (mapIndex f "designprompt"); [| reflexivity].
    destruct (aiDesign s) eqn:Ha; [| now rewrite Ha].
    now destruct (getOrGenerateDesign _ _ _). }
  unfold renderHTML, renderHead, scriptBlock. cbn [firstPass scriptPass secondPass].
  change (collectNonStandard _ []) with (∅ : gmap string value).
  rewrite map_size_empty, Hai. cbn [Nat.ltb Nat.leb].
  change (renderBody _ []) with EmptyString.
  rewrite ?append_nil_l. now rewrite !append_assoc.
Qed.

End DocumentFacts.

(** ** What a design resolution does to the cache (getOrGenerateDesign) *)

Section ResolutionFacts.
Context {G : GoRuntime}.

(** The three ways out of [getOrGenerateDesign] that return an
    identifier. *)
Lemma resolution_cases (pid : Z) (prompt : string) (fs : filesystem) :
  ((String.length prompt =? 32)%nat && statCached fs prompt = true
   /\ getOrGenerateDesign pid prompt fs = (prompt, fs))
  \/ (exists f, (String.length prompt =? 32)%nat && statCached fs prompt = false
                /\ find (promptMatches prompt) (ReadDir fs) = Some f
                /\ getOrGenerateDesign pid prompt fs = (f.1, fs))
  \/ (freshPrompt prompt fs
      /\ ((MkdirAll (generateUUID pid) fs = None
           /\ getOrGenerateDesign pid prompt fs = (EmptyString, fs))
          \/ (exists fs1, MkdirAll (generateUUID pid) fs = Some fs1
                /\ getOrGenerateDesign pid prompt fs
                   = (generateUUID pid, generated (generateUUID pid) prompt fs1)))).
Proof.
  unfold getOrGenerateDesign, freshPrompt.
  destruct ((String.length prompt =? 32)%nat && statCached fs prompt) eqn:Hfast;
    [left; auto |].
  destruct (find (promptMatches prompt) (ReadDir fs)) as [f|] eqn:Hscan.
  { right. left. exists f. auto. }
  right. right. split; [auto |].
  destruct (MkdirAll (generateUUID pid) fs) as [fs1|]; [right; exists fs1 | left]; auto.
Qed.

(** X13: a resolution never touches the default templates, never removes a
    name from the cache and never changes an entry other than the one it
    returns; when the prompt is found, the whole tree is left as it is. *)
Theorem resolution_frame (pid : Z) (prompt : string) (fs : filesystem) :
  let r := getOrGenerateDesign pid prompt fs in
  components r.2 = components fs
  /\ (forall name, name <> r.1 -> cached r.2 !! name = cached fs !! name)
  /\ (forall name, is_Some (cached fs !! name) -> is_Some (cached r.2 !! name))
  /\ (~ freshPrompt prompt fs -> r.2 = fs).
Proof.
  intros r. subst r.
  destruct (resolution_cases pid prompt fs)
    as [[Hfast Hr] | [(f & Hfast & Hscan & Hr) | (Hfresh & [[_ Hr] | (fs1 & Hmk & Hr)])]];
    rewrite Hr; cbn [fst snd]; try (repeat split; auto; fail).
  destruct (generation_result (generateUUID pid) prompt fs fs1 Hmk) as (files & Hu & _ & _ & _ & Hother).
  repeat split.
  - rewrite generated_components. exact (MkdirAll_components _ _ _ Hmk).
  - exact Hother.
  - intros name Hsome. destruct (decide (name = generateUUID pid)) as [-> | Hne].
    + now rewrite Hu.
    + now rewrite Hother.
  - intros Hnot. now destruct Hnot.
Qed.

(** X14: prompts that differ only in surrounding white space share a design:
    once a prompt is resolved by the scan or by a generation, a prompt
    with the same trimmed text (and not itself 32 bytes long) resolves to
    the same identifier and writes nothing. *)
Theorem trimmed_prompt_hits (pid pid' : Z) (prompt prompt' : string)
    (fs : filesystem) :
  TrimSpace prompt' = TrimSpace prompt ->
  String.length prompt' <> 32%nat ->
  (String.length prompt =? 32)%nat && statCached fs prompt = false ->
  (getOrGenerateDesign pid prompt fs).1 <> EmptyString ->
  getOrGenerateDesign pid' prompt' (getOrGenerateDesign pid prompt fs).2
  = getOrGenerateDesign pid prompt fs.
Proof.
  intros Htrim Hlen Hfast Hid.
  assert (Hmatch : forall f, promptMatches prompt' f = promptMatches prompt f).
  { intros f. unfold promptMatches. now rewrite Htrim. }
  assert (Hscan' : forall l, find (promptMatches prompt') l = find (promptMatches prompt) l).
  { induction l as [|f l IH]; [reflexivity |]. cbn [find]. now rewrite Hmatch, IH. }
  assert (Hfast' : forall fs0, (String.length prompt' =? 32)%nat && statCached fs0 prompt' = false).
  { intros fs0. apply Nat.eqb_neq in Hlen. now rewrite Hlen. }
  destruct (resolution_cases pid prompt fs)
    as [[Hf Hr] | [(f & _ & Hscan & Hr) | (Hfresh & [[_ Hr] | (fs1 & Hmk & Hr)])]];
    rewrite Hr in *; cbn [fst snd] in *.
  - congruence.
  - unfold getOrGenerateDesign. now rewrite Hfast', Hscan', Hscan.
  - now destruct Hid.
  - set (u := generateUUID pid) in *.
    destruct (generation_result u prompt fs fs1 Hmk)
      as (files & Hu & Hprompt & _ & _ & Hother).
    set (fs2 := generated u prompt fs1) in *.
    unfold getOrGenerateDesign. rewrite Hfast', Hscan'.
    destruct Hfresh as [_ Hscan].
    destruct (find (promptMatches prompt) (ReadDir fs2)) as [f|] eqn:Hscan2.
    + apply find_some in Hscan2 as [Hin Hm]. apply ReadDir_elem in Hin.
      destruct (decide (f.1 = u)) as [-> | Hne]; [reflexivity |].
      rewrite (Hother _ Hne) in Hin. apply ReadDir_elem in Hin.
      pose proof (find_none _ _ Hscan _ Hin). congruence.
    + assert (Hin : In (u, EDir files) (ReadDir fs2)) by now apply ReadDir_elem.
      pose proof (find_none _ _ Hscan2 _ Hin) as Hno.
      rewrite (promptMatches_same _ _ _ Hprompt) in Hno. discriminate.
Qed.

(** X15: since every generation of a process lands in the same directory, a
    second generation evicts the first prompt: after it the first prompt
    (not 32 bytes long, so never tried as an identifier) is no longer
    found and would be generated again. *)
Theorem second_generation_evicts_first (pid : Z) (p1 p2 : string)
    (fs fs1 : filesystem) :
  freshPrompt p1 fs ->
  MkdirAll (generateUUID pid) fs = Some fs1 ->
  String.length p1 <> 32%nat ->
  freshPrompt p2 (getOrGenerateDesign pid p1 fs).2 ->
  freshPrompt p1
    (getOrGenerateDesign pid p2 (getOrGenerateDesign pid p1 fs).2).2.
Proof.
  intros Hf1 Hmk Hne Hf2. set (u := generateUUID pid) in *.
  rewrite (fresh_generation pid p1 fs fs1 Hf1 Hmk) in *. cbn [snd] in *.
  fold u in Hf2 |- *.
  destruct (generation_result u p1 fs fs1 Hmk)
    as (files1 & Hu1 & Hp1 & _ & _ & Hother1).
  assert (Hmk2 : MkdirAll u (generated u p1 fs1) = Some (generated u p1 fs1)).
  { unfold MkdirAll. now rewrite Hu1. }
  rewrite (fresh_generation pid p2 _ _ Hf2 Hmk2). cbn [snd]. fold u.
  destruct (generation_result u p2 _ _ Hmk2)
    as (files2 & Hu2 & Hp2 & _ & _ & Hother2).
  set (fs3 := generated u p2 (generated u p1 fs1)) in *.
  destruct Hf1 as [Hfast1 Hscan1]. split.
  - apply Nat.eqb_neq in Hne. now rewrite Hne.
  - destruct (find (promptMatches p1) (ReadDir fs3)) as [f|] eqn:Hscan3;
      [| reflexivity].
    apply find_some in Hscan3 as [Hin Hm]. apply ReadDir_elem in Hin.
    destruct (decide (f.1 = u)) as [Hfu | Hfu].
    + (* the shared directory now holds the second prompt *)
      rewrite Hfu, Hu2 in Hin. injection Hin as Hin.
      destruct Hf2 as [_ Hscan2].
      assert (Hin1 : In (u, EDir files1) (ReadDir (generated u p1 fs1)))
        by now apply ReadDir_elem.
      pose proof (find_none _ _ Hscan2 _ Hin1) as Hno.
      unfold promptMatches in Hno, Hm. cbn [snd] in Hno.
      rewrite <- Hin in Hm. rewrite Hp2 in Hm. rewrite Hp1 in Hno.
      rewrite String.eqb_sym in Hm. congruence.
    + rewrite (Hother2 _ Hfu), (Hother1 _ Hfu) in Hin. apply ReadDir_elem in Hin.
      pose proof (find_none _ _ Hscan1 _ Hin). congruence.
Qed.

End ResolutionFacts.

Section FailedResolution.
Context {G : GoRuntime} {E : TemplateEngine}.

(** X7: a failed resolution is silent: in design mode, when the prompt needs
    a generation and a file stands where the directory should go, the
    tree is left as it was, the templates of the process become the
    default ones, and the response is the page rendered with the default
    templates, whatever templates the process had before. *)
Theorem failed_resolution_serves_defaults (s : server) (d : gomap)
    (prompt text : string) (out : server * string) :
  aiDesign s = true ->
  designPromptOf d = Some prompt ->
  freshPrompt prompt (tree s) ->
  cached (tree s) !! generateUUID (pid s) = Some (EFile text) ->
  handlerRun s d out ->
  out.1 = mkServer true (parseTemplates EmptyString (tree s)) (tree s) (pid s)
  /\ exists rangeData r,
       Permutation rangeData d
       /\ admissible (parseTemplates EmptyString (tree s))
            (contentItemsOf rangeData) r
       /\ out.2 = renderHTML true (parseTemplates EmptyString (tree s))
                    (contentItemsOf rangeData) (extractFlags d) r.
Proof.
  intros Hai Hprompt [Hfast Hscan] Hfile (rangeData & r & Hperm & Hadm & ->).
  assert (Hs : resolveDesign s (extractFlags d)
               = mkServer true (parseTemplates EmptyString (tree s)) (tree s) (pid s)).
  { unfold designPromptOf in Hprompt. unfold resolveDesign.
    destruct (extractFlags d) as [flagsMap|]; [| discriminate].
    destruct (mapIndex flagsMap "designprompt") as [p|]; [| discriminate].
    injection Hprompt as Hp. rewrite Hai, Hp.
    unfold getOrGenerateDesign, MkdirAll. now rewrite Hfast, Hscan, Hfile. }
  unfold handler. cbn [fst snd]. rewrite Hs in *. cbn [aiDesign templates] in *.
  split; [reflexivity |]. exists rangeData, r. auto.
Qed.

End FailedResolution.

(** ** The side channel and the script block (renderHTML) *)

Section ScriptFacts.
Context {G : GoRuntime} {E : TemplateEngine}.

Lemma collect_lookup (t : registry) (acc : gmap string value) (enum : gomap)
    (tag : string) :
  NoDup enum.*1 ->
  foldl (collectPair t) acc enum !! tag
  = if injected t tag
    then match mapIndex enum tag with
         | Some v => Some v
         | None => acc !! tag
         end
    else acc !! tag.
Proof.
  revert acc. induction enum as [|[k v] enum IH]; intros acc Hnd.
  { cbn [foldl mapIndex]. now destruct (injected t tag). }
  rewrite fmap_cons in Hnd. cbn [fst] in Hnd. apply NoDup_cons in Hnd as [Hk Hnd].
  cbn [foldl mapIndex]. rewrite (IH _ Hnd).
  destruct (String.eqb k tag) eqn:Hkt.
  - apply String.eqb_eq in Hkt. subst k.
    assert (Hnone : mapIndex enum tag = None).
    { clear -Hk. induction enum as [|[k' v'] enum IH]; [reflexivity |].
      rewrite fmap_cons in Hk. cbn [fst] in Hk.
      apply not_elem_of_cons in Hk as [Hne Hk]. cbn [mapIndex].
      destruct (String.eqb k' tag) eqn:He; [| now apply IH].
      apply String.eqb_eq in He. congruence. }
    rewrite Hnone. unfold collectPair. fold (injected t tag).
    destruct (injected t tag); [apply lookup_insert_eq | reflexivity].
  - apply String.eqb_neq in Hkt.
    assert (Hacc : collectPair t acc (k, v) !! tag = acc !! tag).
    { unfold collectPair. destruct (negb _ && negb _); [| reflexivity].
      now apply lookup_insert_ne. }
    now rewrite Hacc.
Qed.

Lemma mapIndex_perm (a b : gomap) (tag : string) :
  NoDup a.*1 -> Permutation a b -> mapIndex a tag = mapIndex b tag.
Proof.
  intros Hnd Hp.
  assert (Hspec : forall l, NoDup l.*1 -> forall v,
             mapIndex l tag = Some v <-> (tag, v) ∈ l).
  { clear. induction l as [|[k x] l IH]; intros Hnd v.
    - cbn. split; [discriminate | intros H; now apply elem_of_nil in H].
    - rewrite fmap_cons in Hnd. cbn [fst] in Hnd.
      apply NoDup_cons in Hnd as [Hk Hnd]. cbn [mapIndex].
      destruct (String.eqb k tag) eqn:He.
      + apply String.eqb_eq in He. subst k. split.
        * intros [= ->]. apply elem_of_cons. now left.
        * intros Hin. apply elem_of_cons in Hin as [[= ->] | Hin]; [reflexivity |].
          destruct Hk. apply list_elem_of_fmap. now exists (tag, v).
      + apply String.eqb_neq in He. rewrite (IH Hnd v). split.
        * intros Hin. apply elem_of_cons. now right.
        * intros Hin. apply elem_of_cons in Hin as [[= -> ->] | Hin];
            [congruence | exact Hin]. }
  assert (Hndb : NoDup b.*1) by now rewrite <- Hp.
  destruct (mapIndex a tag) as [v|] eqn:Ha.
  - symmetry. apply (Hspec b Hndb). rewrite <- Hp. now apply (Hspec a Hnd).
  - destruct (mapIndex b tag) as [v|] eqn:Hb; [| reflexivity].
    apply (Hspec b Hndb) in Hb. rewrite <- Hp in Hb.
    apply (Hspec a Hnd) in Hb. congruence.
Qed.

(** X8: the first pass does not depend on the order in which [range] visits
    the keys of a block: whatever the enumerations, the side channel is
    the one obtained by visiting every block in the order of its
    entries. *)
Theorem side_channel_order_inside_blocks (t : registry) (items enums : list gomap) :
  Forall (fun item => NoDup item.*1) items ->
  Forall2 Permutation enums items ->
  collectNonStandard t enums = collectNonStandard t items.
Proof.
  intros Hnd Hperm. unfold collectNonStandard.
  generalize (∅ : gmap string value) as acc.
  induction Hperm as [|enum item enums items Hp Hrest IH]; intros acc;
    [reflexivity |].
  apply Forall_cons in Hnd as [Hitem Hnd]. cbn [foldl].
  assert (Hsame : foldl (collectPair t) acc enum = foldl (collectPair t) acc item).
  { apply map_eq. intros tag.
    rewrite !collect_lookup; [| exact Hitem | now rewrite Hp].
    now rewrite (mapIndex_perm enum item tag) by (now rewrite ?Hp). }
  rewrite Hsame. now apply IH.
Qed.

(** X9: in every run the response holds the assignment line of every
    entry of the side channel the first pass built, and when there is an
    entry the head is the fixed head, the script opening, these lines and
    no other, in some order, and the script closing. *)
Theorem script_lines_match_side_channel (ai : bool) (t : registry)
    (items : list gomap) (flags : option gomap) (r : ranges) :
  admissible t items r ->
  (forall tag v,
     collectNonStandard t (firstPass r) !! tag = Some v ->
     Contains (renderHTML ai t items flags r) (scriptLine (tag, v)) = true)
  /\ (collectNonStandard t (firstPass r) <> ∅ ->
      exists lines,
        Permutation lines
          (map scriptLine (map_to_list (collectNonStandard t (firstPass r))))
        /\ renderHead ai (collectNonStandard t (firstPass r)) (scriptPass r)
           = htmlStart +:+ (scriptOpen +:+ concatS lines +:+ scriptClose)
             +:+ (if ai then aiStyleBlock else EmptyString) +:+ headClose).
Proof.
  intros (_ & HS & _).
  set (nsd := collectNonStandard t (firstPass r)) in *.
  assert (Hblock : nsd <> ∅ ->
            scriptBlock nsd (scriptPass r)
            = scriptOpen +:+ concatS (map scriptLine (scriptPass r)) +:+ scriptClose).
  { intros Hne. unfold scriptBlock.
    destruct (size nsd) as [|n] eqn:Hsize; [| reflexivity].
    now apply map_size_empty_iff in Hsize. }
  split.
  - intros tag v Hv.
    assert (Hne : nsd <> ∅) by (intros Hempty; rewrite Hempty, lookup_empty in Hv; discriminate).
    unfold renderHTML. fold nsd. unfold renderHead. rewrite (Hblock Hne).
    apply Contains_append_l, Contains_append_r, Contains_append_l,
          Contains_append_r, Contains_append_l, Contains_concatS.
    apply list_elem_of_fmap. exists (tag, v). split; [reflexivity |].
    rewrite HS. now apply elem_of_map_to_list.
  - intros Hne. exists (map scriptLine (scriptPass r)). split.
    + now rewrite HS.
    + unfold renderHead. now rewrite (Hblock Hne).
Qed.

(** X10: when every tag of the document is a standard tag or has a template,
    the head holds no script block at all. *)
Theorem no_script_block_without_custom_tags (ai : bool) (t : registry)
    (items : list gomap) (flags : option gomap) (r : ranges) :
  Forall (Forall (fun kv : string * value => injected t kv.1 = false)) items ->
  admissible t items r ->
  renderHTML ai t items flags r
  = htmlStart +:+ (if ai then aiStyleBlock else EmptyString) +:+ headClose
    +:+ renderBody t (secondPass r) +:+ htmlEnd.
Proof.
  intros Hknown (H1 & HS & _).
  assert (Hempty : collectNonStandard t (firstPass r) = ∅).
  { apply map_eq. intros tag. rewrite lookup_empty.
    destruct (injected t tag) eqn:Hinj.
    - (* the tag does not occur *)
      unfold collectNonStandard.
      assert (Hgen : forall enums acc,
                 Forall (Forall (fun kv : string * value => injected t kv.1 = false)) enums ->
                 acc !! tag = None ->
                 foldl (fun a e => foldl (collectPair t) a e) acc enums !! tag = None).
      { induction enums as [|e enums IH]; intros acc He Hacc; [exact Hacc |].
        apply Forall_cons in He as [He Hes]. cbn [foldl]. apply IH; [exact Hes |].
        clear -He Hacc Hinj. revert acc Hacc.
        induction e as [|[k v] e IHe]; intros acc Hacc; [exact Hacc |].
        apply Forall_cons in He as [Hk He]. cbn [foldl]. apply IHe; [exact He |].
        unfold collectPair. cbn [fst] in Hk. unfold injected in Hk. rewrite Hk.
        exact Hacc. }
      apply Hgen; [| apply lookup_empty].
      clear -H1 Hknown. revert Hknown.
      induction H1 as [|e item es its Hp Hrest IH]; intros Hknown; [constructor |].
      apply Forall_cons in Hknown as [Hi His]. constructor; [| now apply IH].
      now rewrite Hp.
    - apply side_channel_excludes. unfold injected in Hinj.
      apply andb_false_iff in Hinj as [Hs | Ht].
      + left. now apply negb_false_iff.
      + right. now apply negb_false_iff. }
  unfold renderHTML, renderHead, scriptBlock. rewrite Hempty, map_size_empty.
  cbn [Nat.ltb Nat.leb]. rewrite append_nil_l. now rewrite !append_assoc.
Qed.

End ScriptFacts.

(** ** Substrings *)

(** ** More on the style derivation (generateTemplates) *)

Section MoreStyleFacts.
Context {G : GoRuntime}.

(** X16: the prompt reaches the generated templates through the four keyword
    tests alone: prompts that pass the same tests give the same
    [h1.html] and [div.html]. *)
Theorem same_keywords_same_templates (p1 p2 : string) :
  Forall (fun kw => Contains (ToLower p1) kw = Contains (ToLower p2) kw)
         ["dark"; "moody"; "clean"; "serif"] ->
  h1Content (deriveStyle p1) = h1Content (deriveStyle p2)
  /\ divContent (deriveStyle p1) = divContent (deriveStyle p2).
Proof.
  intros H. apply Forall_cons in H as [Hd H]. apply Forall_cons in H as [Hm H].
  apply Forall_cons in H as [Hc H]. apply Forall_cons in H as [Hs _].
  assert (He : deriveStyle p1 = deriveStyle p2).
  { unfold deriveStyle, applySerif, applyClean, applyMoody, applyDark.
    now rewrite Hd, Hm, Hc, Hs. }
  now rewrite He.
Qed.

(** X17: no byte of the prompt is copied into a template: whatever the
    prompt, the style is one of nine fixed ones. *)
Theorem style_is_one_of_nine (prompt : string) :
  deriveStyle prompt ∈ allStyles.
Proof.
  unfold deriveStyle, applySerif, applyClean, applyMoody, applyDark.
  destruct (Contains (ToLower prompt) "dark"),
           (Contains (ToLower prompt) "moody"),
           (Contains (ToLower prompt) "clean"),
           (Contains (ToLower prompt) "serif");
    cbn; repeat (first [ apply list_elem_of_here | apply list_elem_of_further ]).
Qed.

(** X18: keywords are looked for as substrings, not as words: a prompt whose
    lower-cased text holds any text containing "serif" -- "sans-serif"
    for one -- gets the serif font. *)
Theorem keyword_inside_a_word (prompt word : string) :
  Contains (ToLower prompt) word = true ->
  Contains word "serif" = true ->
  font (deriveStyle prompt) = "Georgia, serif".
Proof.
  intros Hw Hs. apply serif_sets_font. now apply (Contains_trans _ word).
Qed.

End MoreStyleFacts.

(** ** The shape of an identifier (generateUUID) *)

(** X19: an identifier is made of the digits and the letters a to f only, so
    it holds no path separator, dot or glob character and is not one of
    the file names written into a design directory. *)
Theorem uuid_is_lower_hex (pid : Z) :
  allLowerHex (generateUUID pid) = true
  /\ lacksByte "/" (generateUUID pid) = true
  /\ lacksByte "." (generateUUID pid) = true
  /\ lacksByte "*" (generateUUID pid) = true.
Proof.
  assert (H : allLowerHex (generateUUID pid) = true) by apply EncodeToString_hex.
  split; [exact H |].
  assert (Hl : forall c, isLowerHex c = false ->
                 lacksByte c (generateUUID pid) = true).
  { intros c Hc. revert H. generalize (generateUUID pid) as s.
    induction s as [|d s IH]; [reflexivity |]. cbn [allLowerHex lacksByte].
    intros Hd. apply andb_prop in Hd as [Hd Hs]. rewrite (IH Hs), andb_true_r.
    apply negb_true_iff, Ascii.eqb_neq. intros ->. congruence. }
  repeat split; apply Hl; reflexivity.
Qed.

Section ExistenceFacts.
Context {G : GoRuntime}.

(** X12: when every entry of the cache directory has a name that is one
    path element, an identifier that is returned passes the [os.Stat]
    of the identifier test afterwards: it names something under the
    joined and cleaned path. *)
Theorem resolved_design_exists (pid : Z) (prompt : string) (fs : filesystem) :
  (forall name, is_Some (cached fs !! name) -> plainName name = true) ->
  (getOrGenerateDesign pid prompt fs).1 <> EmptyString ->
  statCached (getOrGenerateDesign pid prompt fs).2
    (getOrGenerateDesign pid prompt fs).1 = true.
Proof.
  intros Hnames Hid.
  destruct (resolution_cases pid prompt fs)
    as [[Hfast Hr] | [(f & _ & Hscan & Hr) | (_ & [[_ Hr] | (fs1 & Hmk & Hr)])]];
    rewrite Hr in *; cbn [fst snd] in *.
  - now apply andb_prop in Hfast as [_ ?].
  - apply find_some in Hscan as [Hin _]. apply ReadDir_elem in Hin.
    apply statCached_plain; [apply Hnames |]; rewrite Hin; eauto.
  - now destruct Hid.
  - destruct (generation_result (generateUUID pid) prompt fs fs1 Hmk) as (files & Hu & _).
    apply statCached_plain; [apply generateUUID_plain |]. rewrite Hu. eauto.
Qed.

End ExistenceFacts.

Section TagFacts.
Context {G : GoRuntime}.

(** X11: the tag of a script line is written as it is, between the two
    apostrophes: whatever text the tag holds -- an apostrophe, a line
    break, [</script>] -- is in the line. *)
Theorem script_tag_written_verbatim (tag text : string) (content : value) :
  Contains tag text = true ->
  Contains (scriptLine (tag, content)) text = true.
Proof.
  intros Htag. unfold scriptLine. cbv beta iota.
  apply (Contains_trans _ tag); [| exact Htag].
  apply Contains_spec. eexists _, _. reflexivity.
Qed.

End TagFacts.


(** ** Maps are printed in key order (fmt, json.Marshal) *)

Section PrintFacts.
Context {G : GoRuntime}.

(** X20: the display text and the JSON text of a map do not depend on the
    order of its entries, the one thing Go leaves open about a map. *)
Theorem map_printing_ignores_order (m1 m2 : list (string * value)) :
  NoDup m1.*1 -> Permutation m1 m2 ->
  fmtValue (VMap m1) = fmtValue (VMap m2)
  /\ Marshal (VMap m1) = Marshal (VMap m2).
Proof.
  intros Hnd Hp.
  assert (Hkeys : forall (f : value -> string),
             (map (fun '(k, x) => (k, f x)) m1).*1 = m1.*1).
  { intros f. clear. induction m1 as [|[k x] m IH]; [reflexivity |].
    cbn. now rewrite <- IH. }
  assert (Hs : forall (f : value -> string),
             sortByKey (map (fun '(k, x) => (k, f x)) m1)
             = sortByKey (map (fun '(k, x) => (k, f x)) m2)).
  { intros f. apply sortByKey_perm.
    - now rewrite (Hkeys f).
    - now apply Permutation_map. }
  split.
  - cbn [fmtValue]. now rewrite (Hs fmtValue).
  - rewrite !Marshal_map. now rewrite (Hs Marshal).
Qed.

End PrintFacts.

(** ** Bytes that never occur in a script value (json.Marshal) *)

Lemma allBytes_append (P : ascii -> bool) (a b : string) :
  allBytes P (a +:+ b) = allBytes P a && allBytes P b.
Proof.
  induction a as [|x a IH]; [reflexivity |].
  rewrite append_cons. cbn [allBytes]. now rewrite IH, andb_assoc.
Qed.

Lemma allBytes_Join (P : ascii -> bool) (parts : list string) (sep : string) :
  allBytes P sep = true -> Forall (fun p => allBytes P p = true) parts ->
  allBytes P (Join parts sep) = true.
Proof.
  intros Hsep Hall. induction Hall as [|p rest Hp Hrest IH]; [reflexivity |].
  destruct rest as [|q rest]; [exact Hp |].
  change (Join (p :: q :: rest) sep) with (p +:+ sep +:+ Join (q :: rest) sep).
  now rewrite !allBytes_append, Hp, Hsep, IH.
Qed.

Lemma allBytes_impl (P Q : ascii -> bool) (s : string) :
  (forall c, P c = true -> Q c = true) -> allBytes P s = true -> allBytes Q s = true.
Proof.
  intros Himpl. induction s as [|c s IH]; [reflexivity |]. cbn [allBytes].
  intros H. apply andb_prop in H as [Hc Hs]. now rewrite (Himpl c Hc), IH.
Qed.

Lemma allBytes_lacks (P : ascii -> bool) (c : ascii) (s : string) :
  P c = false -> allBytes P s = true -> lacksByte c s = true.
Proof.
  intros Hc. induction s as [|d s IH]; [reflexivity |]. cbn [allBytes lacksByte].
  intros H. apply andb_prop in H as [Hd Hs]. rewrite (IH Hs), andb_true_r.
  apply negb_true_iff, Ascii.eqb_neq. intros ->. congruence.
Qed.

Lemma escapeByte_writable (b : ascii) : allBytes writable (escapeByte b) = true.
Proof.
  pattern b. apply byte_cases.
  intros [] [] [] [] [] [] [] []; vm_compute; reflexivity.
Qed.

Lemma safe_writable (b : ascii) : htmlSafe b = true -> writable b = true.
Proof.
  unfold writable, neverRaw. intros ->. now rewrite andb_false_r.
Qed.

Lemma high_writable (b : ascii) : inRange b 0 127 = false -> writable b = true.
Proof. unfold writable, neverRaw. now intros ->. Qed.

Lemma allCont_writable (n : nat) (s : string) :
  allCont n s = true -> allBytes writable (takeS n s) = true.
Proof.
  revert s. induction n as [|n IH]; intros s; [now destruct s |].
  destruct s as [|c s]; [discriminate |]. cbn [allCont takeS allBytes].
  intros H. apply andb_prop in H as [Hc Hs]. rewrite (IH s Hs), andb_true_r.
  apply high_writable. unfold isCont, inRange in *.
  apply andb_prop in Hc as [Hlo _]. apply N.leb_le in Hlo.
  apply andb_false_iff. right. apply N.leb_gt. lia.
Qed.

Lemma chunk_writable (c : string) : chunk c -> allBytes writable c = true.
Proof.
  intros Hc. destruct Hc as [b Hr Hsafe | b Hr Hsafe | | src d Hd | b rest n Hr Hn].
  - cbn [allBytes]. now rewrite (safe_writable b Hsafe).
  - apply escapeByte_writable.
  - reflexivity.
  - apply lineSeparator_digit in Hd as [-> | ->]; reflexivity.
  - unfold runeSize in Hn. rewrite Hr in Hn.
    destruct (runeClass b) as [[[lo hi] more]|] eqn:Hclass; [| discriminate].
    destruct rest as [|b1 r1]; [discriminate |].
    destruct (inRange b1 lo hi && allCont more r1) eqn:Hok; [| discriminate].
    injection Hn as <-. apply andb_prop in Hok as [Hb1 Hcont].
    cbn [Nat.add takeS allBytes].
    rewrite (high_writable b Hr), (allCont_writable _ _ Hcont), andb_true_r.
    cbn [andb]. apply high_writable.
    pose proof (runeClass_high _ _ _ _ Hclass) as Hlo.
    unfold inRange in *. apply andb_prop in Hb1 as [H1 _]. apply N.leb_le in H1.
    apply andb_false_iff. right. apply N.leb_gt. lia.
Qed.

Lemma appendString_writable (src : string) :
  allBytes writable (appendString src) = true.
Proof.
  unfold appendString.
  destruct (appendRunes_chunks (String.length src) src) as (cs & Hcs & ->).
  rewrite !allBytes_append.
  assert (H : allBytes writable (concatS cs) = true).
  { induction Hcs as [|c cs Hc Hcs IH]; [reflexivity |].
    cbn [concatS]. now rewrite allBytes_append, (chunk_writable c Hc), IH. }
  now rewrite H.
Qed.

Lemma numberByte_writable (c : ascii) : numberByte c = true -> writable c = true.
Proof.
  pattern c. apply byte_cases.
  intros [] [] [] [] [] [] [] []; vm_compute; intros H;
    first [reflexivity | discriminate].
Qed.

Section SafeBytes.
Context {G : GoRuntime}.

Lemma Marshal_writable (v : value) :
  numbersOK v = true -> allBytes writable (Marshal v) = true.
Proof.
  induction v as [| b | f | s | l IH | m IH] using value_ind'.
  - reflexivity.
  - now destruct b.
  - cbn [numbersOK Marshal]. intros Hn. apply jsonNumber_bytes in Hn.
    revert Hn. generalize (marshalFloat f) as s. clear.
    induction s as [|c s IHs]; [reflexivity |]. cbn [allNumberBytes allBytes].
    intros H. apply andb_prop in H as [Hc Hs].
    now rewrite (numberByte_writable c Hc), IHs.
  - intros _. apply appendString_writable.
  - intros Hn. cbn [numbersOK] in Hn. rewrite forallb_forall in Hn.
    rewrite Marshal_list, !allBytes_append.
    rewrite allBytes_Join; [reflexivity | reflexivity |].
    apply Forall_map. rewrite Forall_forall in IH |- *.
    intros x Hx. apply IH; [exact Hx |]. apply Hn. now apply list_elem_of_In.
  - intros Hn. cbn [numbersOK] in Hn. rewrite forallb_forall in Hn.
    rewrite Marshal_map, !allBytes_append.
    rewrite allBytes_Join; [reflexivity | reflexivity |].
    apply Forall_map. unfold sortByKey.
    assert (Hall : Forall (fun kv : string * string => allBytes writable kv.2 = true)
                     (merge_sort keyLe (map (fun '(k, x) => (k, Marshal x)) m))).
    { rewrite merge_sort_Permutation. apply Forall_map.
      rewrite Forall_forall in IH |- *. intros [k x] Hx. cbn [snd].
      apply (IH (k, x) Hx). apply (Hn (k, x)). now apply list_elem_of_In. }
    eapply Forall_impl; [exact Hall |]. intros [k t] Ht. cbn [fst snd] in *.
    rewrite allBytes_append, appendString_writable.
    now rewrite allBytes_append, Ht.
Qed.

Lemma neverRaw_bytes (c : ascii) :
  (byteVal c < 32)%N \/ c = "<"%char \/ c = ">"%char \/ c = "&"%char ->
  neverRaw c = true.
Proof.
  pattern c. apply byte_cases.
  intros [] [] [] [] [] [] [] []; vm_compute; intros H;
    first [ reflexivity
          | exfalso; destruct H as [H | [H | [H | H]]]; discriminate H ].
Qed.

(** X21: the JSON text of a value holds no byte below 32 (so no line
    break) and none of [<], [>] and [&] as a raw byte: the encoder writes
    each of them as an escape.  The byte 127 is not among them: it is
    written as it is. *)
Theorem script_value_has_no_raw_markup (v : value) (c : ascii) :
  numbersOK v = true ->
  ((byteVal c < 32)%N \/ c = "<"%char \/ c = ">"%char \/ c = "&"%char ->
   lacksByte c (Marshal v) = true)
  /\ Marshal (VStr (String (ascii_of_nat 127) EmptyString))
     = DQ +:+ String (ascii_of_nat 127) EmptyString +:+ DQ.
Proof.
  intros Hn. split; [| reflexivity].
  intros Hc. apply (allBytes_lacks writable).
  - unfold writable. now rewrite (neverRaw_bytes c Hc).
  - now apply Marshal_writable.
Qed.

End SafeBytes.

Lemma length_append (a b : string) :
  String.length (a +:+ b) = (String.length a + String.length b)%nat.
Proof.
  induction a as [|c a IH]; [reflexivity |].
  rewrite append_cons. cbn [String.length]. now rewrite IH.
Qed.

Lemma dropS_append (a b : string) : dropS (String.length a) (a +:+ b) = b.
Proof.
  induction a as [|c a IH]; [now destruct b |].
  rewrite append_cons. exact IH.
Qed.

Lemma HasSuffix_append (a suffix : string) : HasSuffix (a +:+ suffix) suffix = true.
Proof.
  unfold HasSuffix. rewrite length_append.
  replace (String.length a + String.length suffix - String.length suffix)%nat
    with (String.length a) by lia.
  rewrite dropS_append, String.eqb_refl, andb_true_r.
  apply Nat.leb_le. lia.
Qed.

Lemma append_inj_r (a b suffix : string) :
  a +:+ suffix = b +:+ suffix -> a = b.
Proof.
  revert b. induction a as [|c a IH]; intros b H.
  - destruct b as [|d b]; [reflexivity |]. exfalso.
    apply (f_equal String.length) in H.
    rewrite append_nil_l, append_cons in H. cbn [String.length] in H.
    rewrite length_append in H. lia.
  - destruct b as [|d b].
    + exfalso. apply (f_equal String.length) in H.
      rewrite append_nil_l, append_cons in H. cbn [String.length] in H.
      rewrite length_append in H. lia.
    + rewrite !append_cons in H. injection H as -> H. f_equal. now apply IH.
Qed.

Lemma jsonFileFor_cases (path : string) :
  (path = "/" /\ Revision.jsonFileFor path = Some "index.json")
  \/ (path = "/index." /\ Revision.jsonFileFor path = Some "index.json")
  \/ (exists name, name <> EmptyString /\ path = "/index." +:+ name
        /\ Revision.jsonFileFor path = Some ("index." +:+ name +:+ ".json"))
  \/ (path <> "/" /\ HasPrefix path "/index." = false /\ Revision.jsonFileFor path = None).
Proof.
  unfold Revision.jsonFileFor. destruct (String.eqb path "/") eqn:Hroot.
  { apply String.eqb_eq in Hroot. now left. }
  apply String.eqb_neq in Hroot. cbn [negb].
  destruct (HasPrefix path "/index.") eqn:Hp; [| now right; right; right].
  unfold Revision.TrimPrefix. rewrite Hp.
  apply HasPrefix_spec in Hp as [name ->].
  rewrite (dropS_append "/index." name).
  destruct (String.eqb name EmptyString) eqn:Hn.
  - apply String.eqb_eq in Hn. subst name. right; left. now split.
  - apply String.eqb_neq in Hn. right; right; left. now exists name.
Qed.

(** X22: every file the revised handler serves is named [index.<...>.json] or
    [index.json]; only [/] and the paths under [/index.] are served, and
    [index.json] is served for [/] and [/index.] alone. *)
Theorem revised_route_names (path : string) :
  (forall f, Revision.jsonFileFor path = Some f ->
     HasPrefix f "index." = true /\ HasSuffix f ".json" = true)
  /\ (Revision.jsonFileFor path = None <-> path <> "/" /\ HasPrefix path "/index." = false)
  /\ (Revision.jsonFileFor path = Some "index.json" <-> path = "/" \/ path = "/index.").
Proof.
  destruct (jsonFileFor_cases path)
    as [[-> H] | [[-> H] | [(name & Hn & -> & H) | (Hroot & Hp & H)]]];
    rewrite H; (split; [| split]).
  - intros f [= <-]. now split.
  - split; [discriminate | intros [? _]; congruence].
  - split; [now left | reflexivity].
  - intros f [= <-]. now split.
  - split; [discriminate | intros [_ ?]; discriminate].
  - split; [now right | reflexivity].
  - intros f [= <-]. split; [reflexivity |].
    rewrite <- append_assoc. apply HasSuffix_append.
  - split; [discriminate |]. intros [_ Hp]. exfalso.
    assert (Ht : HasPrefix ("/index." +:+ name) "/index." = true)
      by (apply HasPrefix_spec; now exists name).
    congruence.
  - split.
    + intros [= Heq]. exfalso. apply (f_equal String.length) in Heq.
      rewrite !length_append in Heq. cbn [String.length] in Heq. lia.
    + intros [Heq | Heq]; exfalso.
      * discriminate Heq.
      * apply (f_equal String.length) in Heq. rewrite length_append in Heq.
        cbn [String.length] in Heq. destruct name; [congruence |].
        cbn [String.length] in Heq. lia.
  - intros f [=].
  - split; [now intros _ | reflexivity].
  - split; [discriminate |]. intros [-> | ->]; [congruence | discriminate].
Qed.

(** X23: two request paths answered from the same file are the same path, but
    for [/] and [/index.], which both read [index.json]. *)
Theorem revised_route_injective (p1 p2 f : string) :
  Revision.jsonFileFor p1 = Some f -> Revision.jsonFileFor p2 = Some f ->
  p1 = p2 \/ f = "index.json".
Proof.
  intros H1 H2.
  destruct (jsonFileFor_cases p1)
    as [[-> E1] | [[-> E1] | [(n1 & Hn1 & -> & E1) | (_ & _ & E1)]]];
    rewrite E1 in H1; try discriminate; try (right; now injection H1 as <-).
  destruct (jsonFileFor_cases p2)
    as [[-> E2] | [[-> E2] | [(n2 & Hn2 & -> & E2) | (_ & _ & E2)]]];
    rewrite E2 in H2; try discriminate; try (right; now injection H2 as <-).
  left.
  assert (Heq : "index." +:+ n1 +:+ ".json" = "index." +:+ n2 +:+ ".json")
    by congruence.
  assert (Hdrop : forall x, dropS 6 ("index." +:+ x) = x)
    by (intros x; exact (dropS_append "index." x)).
  apply (f_equal (dropS 6)) in Heq. rewrite !Hdrop in Heq.
  f_equal. exact (append_inj_r _ _ ".json" Heq).
Qed.

Section RevisedPageFacts.
Context {G : GoRuntime} {E : TemplateEngine}.

(** X24: in the revision [flags] reach the page through [csslib] alone: two
    flag maps with the same [csslib] give the same page; and a [csslib]
    that is null or names none of the four frameworks (after
    lower-casing) gives the page there is without [flags]. *)
Theorem revised_unknown_csslib_ignored (t : registry)
    (items : list Revision.ContentItem) (flagsMap : gomap) (rangeNSD : gomap) :
  (forall other,
     mapIndex other "csslib" = mapIndex flagsMap "csslib" ->
     Revision.renderHTML t items (Some other) rangeNSD
     = Revision.renderHTML t items (Some flagsMap) rangeNSD)
  /\ ((forall cssLib, mapIndex flagsMap "csslib" = Some cssLib ->
         cssLib = VNil \/ ToLower (fmtValue cssLib) ∉ Revision.frameworks) ->
      Revision.renderHTML t items (Some flagsMap) rangeNSD
      = Revision.renderHTML t items None rangeNSD).
Proof.
  split.
  - intros other Hsame. unfold Revision.renderHTML, Revision.renderHead,
      Revision.cssLibBlock. now rewrite Hsame.
  - intros H. unfold Revision.renderHTML, Revision.renderHead.
    assert (Hb : Revision.cssLibBlock (Some flagsMap) = EmptyString).
    { unfold Revision.cssLibBlock.
      destruct (mapIndex flagsMap "csslib") as [cssLib|] eqn:Hc; [| reflexivity].
      destruct (H cssLib eq_refl) as [-> | Hnot]; [reflexivity |].
      assert (Hf : Revision.frameworkTags (ToLower (fmtValue cssLib)) = EmptyString).
      { unfold Revision.frameworkTags, Revision.frameworks in *.
        repeat match goal with
        | |- context [String.eqb ?a ?b] =>
            let Hq := fresh "Hq" in
            destruct (String.eqb a b) eqn:Hq;
              [apply String.eqb_eq in Hq; exfalso; apply Hnot; rewrite Hq;
               repeat first [apply list_elem_of_here | apply list_elem_of_further] |]
        end. reflexivity. }
      rewrite Hf. now destruct cssLib. }
    now rewrite Hb.
Qed.



(** X26: a block all of whose tags are injected still opens and closes its
    container: the body holds an empty [div] carrying the block's id. *)
Theorem revised_injected_block_leaves_empty_container (t : registry)
    (item : Revision.ContentItem) :
  Forall (fun kv => injected t kv.1 = true) (Revision.Content item) ->
  Revision.renderItem t item = "<div id='" +:+ Revision.ID item +:+ "'>" +:+ "</div>".
Proof.
  intros Hall. unfold Revision.renderItem.
  assert (Hnil : concatS (map (renderPair t) (Revision.Content item)) = EmptyString).
  { induction Hall as [|[tag v] l Hkv _ IH]; [reflexivity |].
    cbn [map concatS fst] in *. rewrite IH.
    unfold injected in Hkv. apply andb_prop in Hkv as [Hstd Htmpl].
    apply negb_true_iff in Hstd. apply negb_true_iff in Htmpl.
    apply hasTemplate_false in Htmpl as [Hl1 Hl2].
    unfold renderPair. now rewrite Hl1, Hl2, Hstd. }
  now rewrite Hnil.
Qed.

End RevisedPageFacts.

(** ** The further properties on concrete inputs *)

(** The design's heading replaces the default one, its blank [p.html]
    leaves the default paragraph, and its blank [note.html], which has no
    default, is installed. *)
Lemma design_layer_overrides_by_name_witness :
  let loaded := @parseTemplates asciiRuntime plainEngine "u" layeredTree in
  @Lookup asciiRuntime plainEngine loaded "h1.html" = Some "<h1 class='x'>{{.}}</h1>"
  /\ @Lookup asciiRuntime plainEngine loaded "p.html" = Some "<p>{{.}}</p>"
  /\ @Lookup asciiRuntime plainEngine loaded "note.html" = Some " ".
Proof.
  intros loaded.
  assert (H : forall name,
             @Lookup asciiRuntime plainEngine loaded name
             = @layered asciiRuntime plainEngine
                 ((<["p.html" := "  "]>
                     (<["note.html" := " "]>
                        {["h1.html" := "<h1 class='x'>{{.}}</h1>"]})
                   : gmap string string) !! name)
                 ((<["h1.html" := "<h1>{{.}}</h1>"]> {["p.html" := "<p>{{.}}</p>"]}
                   : gmap string string) !! name)).
  { intros name.
    apply (@design_layer_overrides_by_name asciiRuntime plainEngine "u" layeredTree);
      [discriminate | reflexivity | reflexivity]. }
  split; [| split]; rewrite H; reflexivity.
Defined.

Lemma unusable_design_layer_ignored_witness :
  @parseTemplates asciiRuntime strictEngine "u" brokenDesignTree
  = @parseTemplates asciiRuntime strictEngine EmptyString brokenDesignTree.
Proof.
  apply (@unusable_design_layer_ignored asciiRuntime strictEngine "u" brokenDesignTree).
  right. exists ("h1.html", "<h1>{{.</h1>"). split; [| reflexivity].
  replace (customFilesOf "u" brokenDesignTree) with [("h1.html", "<h1>{{.</h1>")]
    by reflexivity.
  apply list_elem_of_here.
Defined.

Lemma broken_default_file_empties_registry_witness :
  @Lookup asciiRuntime strictEngine
    (@parseTemplates asciiRuntime strictEngine EmptyString brokenDefaultsTree) "p.html"
  = None.
Proof.
  apply (@broken_default_file_empties_registry asciiRuntime strictEngine
           brokenDefaultsTree ("h1.html", "<h1>{{.</h1>")); [| reflexivity].
  replace (globHTML (components brokenDefaultsTree))
    with [("h1.html", "<h1>{{.</h1>"); ("p.html", "<p>{{.}}</p>")] by reflexivity.
  apply list_elem_of_here.
Defined.

Section RunWitnesses.
#[local] Existing Instance asciiRuntime.
#[local] Existing Instance plainEngine.

Lemma heading_run (d : gomap) :
  contentItemsOf d = [[("h1", VStr "T")]] -> extractFlags d = None ->
  handlerRun plainServer d (plainServer, plainPage "<h1>T</h1>").
Proof.
  intros Hitems Hflags.
  apply (plainServer_run d d headingRanges); [reflexivity | |].
  - rewrite Hitems. apply headingRanges_admissible.
  - rewrite Hitems, Hflags. vm_compute. reflexivity.
Qed.

Lemma non_object_entry_ignored_witness :
  handlerRun plainServer
    [("note", VStr "draft"); ("1", VMap [("h1", VStr "T")])]
    (plainServer, plainPage "<h1>T</h1>").
Proof.
  apply (non_object_entry_ignored plainServer [("1", VMap [("h1", VStr "T")])]
           "note" (VStr "draft")).
  - intros m. discriminate.
  - reflexivity.
  - apply heading_run; reflexivity.
Defined.

Lemma request_keeps_state_witness :
  (handler designServer [("1", VMap [("h1", VStr "T")])]
     [("1", VMap [("h1", VStr "T")])] headingRanges).1
  = designServer.
Proof.
  apply (request_keeps_state designServer [("1", VMap [("h1", VStr "T")])]).
  - right. reflexivity.
  - apply handlerRun_intro; [reflexivity | apply headingRanges_admissible].
Defined.

Lemma no_blocks_empty_page_witness :
  (handler plainServer
     [("flags", VMap [("designprompt", VStr "dark")]); ("title", VStr "x")]
     [("flags", VMap [("designprompt", VStr "dark")]); ("title", VStr "x")]
     emptyRanges).2
  = htmlStart +:+ EmptyString +:+ headClose +:+ htmlEnd.
Proof.
  apply (no_blocks_empty_page plainServer
           [("flags", VMap [("designprompt", VStr "dark")]); ("title", VStr "x")]).
  - reflexivity.
  - apply handlerRun_intro; [reflexivity |].
    split; [constructor |]. split; [| constructor].
    cbn [firstPass scriptPass emptyRanges]. unfold collectNonStandard. cbn [foldl].
    now rewrite map_to_list_empty.
Defined.

Lemma side_channel_order_inside_blocks_witness :
  collectNonStandard None [[("b", VStr "2"); ("a", VStr "1")]]
  = collectNonStandard None [[("a", VStr "1"); ("b", VStr "2")]].
Proof.
  apply (side_channel_order_inside_blocks None).
  - repeat constructor; try apply not_elem_of_nil;
      intros H; apply list_elem_of_singleton in H; discriminate.
  - repeat constructor.
Defined.

Lemma twoTagRanges_admissible :
  admissible None [[("x", VStr "1"); ("y", VStr "2")]] twoTagRanges.
Proof.
  split; [repeat constructor |]. split; [| repeat constructor].
  cbn [firstPass scriptPass twoTagRanges]. unfold collectNonStandard. cbn [foldl].
  rewrite !collectPair_bare by reflexivity.
  rewrite map_to_list_insert by (rewrite lookup_insert_ne by discriminate; apply lookup_empty).
  now rewrite insert_empty, map_to_list_singleton.
Qed.

Lemma script_lines_match_side_channel_witness :
  Contains (renderHTML false None [[("x", VStr "1"); ("y", VStr "2")]] None twoTagRanges)
    ("        customContent['x'] = " +:+ DQ +:+ "1" +:+ DQ +:+ ";" +:+ NL) = true
  /\ Contains (renderHTML false None [[("x", VStr "1"); ("y", VStr "2")]] None twoTagRanges)
       ("        customContent['y'] = " +:+ DQ +:+ "2" +:+ DQ +:+ ";" +:+ NL) = true.
Proof.
  destruct (script_lines_match_side_channel false None
              [[("x", VStr "1"); ("y", VStr "2")]] None twoTagRanges
              twoTagRanges_admissible) as [Hlines _].
  split.
  - apply (Hlines "x" (VStr "1")).
    cbn [firstPass twoTagRanges]. unfold collectNonStandard. cbn [foldl].
    rewrite !collectPair_bare by reflexivity.
    rewrite lookup_insert_ne by discriminate. apply lookup_insert_eq.
  - apply (Hlines "y" (VStr "2")).
    cbn [firstPass twoTagRanges]. unfold collectNonStandard. cbn [foldl].
    rewrite !collectPair_bare by reflexivity. apply lookup_insert_eq.
Defined.

Lemma no_script_block_without_custom_tags_witness :
  renderHTML false None [[("h1", VStr "T")]] None headingRanges
  = htmlStart +:+ EmptyString +:+ headClose
    +:+ renderBody None (secondPass headingRanges) +:+ htmlEnd.
Proof.
  apply (no_script_block_without_custom_tags false None [[("h1", VStr "T")]] None
           headingRanges).
  - repeat constructor.
  - apply headingRanges_admissible.
Defined.

(** The process held a heading template of its own; after the failed
    resolution the heading is rendered with the default one. *)
Lemma failed_resolution_serves_defaults_witness :
  (handler blockedServer darkDoc darkDoc headingRanges).1
  = mkServer true (parseTemplates EmptyString blockedTree) blockedTree 1
  /\ (exists rangeData r,
        Permutation rangeData darkDoc
        /\ admissible (parseTemplates EmptyString blockedTree)
             (contentItemsOf rangeData) r
        /\ (handler blockedServer darkDoc darkDoc headingRanges).2
           = renderHTML true (parseTemplates EmptyString blockedTree)
               (contentItemsOf rangeData) (extractFlags darkDoc) r)
  /\ Contains (handler blockedServer darkDoc darkDoc headingRanges).2
        "<h1>T</h1>" = true.
Proof.
  destruct (failed_resolution_serves_defaults blockedServer darkDoc "dark" "notes"
              (handler blockedServer darkDoc darkDoc headingRanges))
    as [Hstate Hpage].
  - reflexivity.
  - reflexivity.
  - split; vm_compute; reflexivity.
  - cbn [tree pid blockedServer]. rewrite generateUUID_pid1.
    apply lookup_singleton_eq.
  - apply handlerRun_intro; [reflexivity | apply headingRanges_admissible].
  - split; [exact Hstate |]. split; [exact Hpage |]. vm_compute. reflexivity.
Defined.

End RunWitnesses.

(** The scan finds the prompt in the hand-named directory [mine]. *)
Lemma resolved_design_exists_witness :
  (@getOrGenerateDesign asciiRuntime 1 "dark" namedTree).1 = "mine"
  /\ statCached (@getOrGenerateDesign asciiRuntime 1 "dark" namedTree).2
       (@getOrGenerateDesign asciiRuntime 1 "dark" namedTree).1 = true.
Proof.
  split; [vm_compute; reflexivity |].
  apply (@resolved_design_exists asciiRuntime 1 "dark" namedTree).
  - intros name [e He].
    change (cached namedTree)
      with ({["mine" := EDir {["prompt.txt" := "dark"]}]} : gmap string entry) in He.
    apply lookup_singleton_Some in He as [<- _]. reflexivity.
  - vm_compute. discriminate.
Defined.

Lemma trimmed_prompt_hits_witness :
  @getOrGenerateDesign asciiRuntime 2 "  dark "
    (@getOrGenerateDesign asciiRuntime 1 "dark" (mkFS ∅ ∅)).2
  = @getOrGenerateDesign asciiRuntime 1 "dark" (mkFS ∅ ∅).
Proof.
  apply (@trimmed_prompt_hits asciiRuntime 1 2 "dark" "  dark " (mkFS ∅ ∅)).
  - reflexivity.
  - discriminate.
  - reflexivity.
  - vm_compute. discriminate.
Defined.

Lemma second_generation_evicts_first_witness :
  @freshPrompt asciiRuntime "dark"
    (@getOrGenerateDesign asciiRuntime 1 "moody"
       (@getOrGenerateDesign asciiRuntime 1 "dark" (mkFS ∅ ∅)).2).2.
Proof.
  apply (@second_generation_evicts_first asciiRuntime 1 "dark" "moody" (mkFS ∅ ∅)
           (withCache (mkFS ∅ ∅) (<[generateUUID 1 := EDir ∅]> ∅))).
  - split; reflexivity.
  - unfold MkdirAll. change (cached (mkFS ∅ ∅)) with (∅ : gmap string entry).
    now rewrite lookup_empty.
  - discriminate.
  - split; vm_compute; reflexivity.
Defined.

Lemma same_keywords_same_templates_witness :
  h1Content (@deriveStyle asciiRuntime "A DARK, clean page")
  = h1Content (@deriveStyle asciiRuntime "clean/dark")
  /\ divContent (@deriveStyle asciiRuntime "A DARK, clean page")
     = divContent (@deriveStyle asciiRuntime "clean/dark").
Proof.
  apply (@same_keywords_same_templates asciiRuntime).
  repeat constructor.
Defined.

Lemma keyword_inside_a_word_witness :
  font (@deriveStyle asciiRuntime "Clean Sans-Serif look") = "Georgia, serif".
Proof.
  apply (@keyword_inside_a_word asciiRuntime "Clean Sans-Serif look" "sans-serif");
    reflexivity.
Defined.

Lemma map_printing_ignores_order_witness :
  @fmtValue asciiRuntime (VMap [("b", @VNum asciiRuntime 1%Z); ("a", VStr "x")])
  = @fmtValue asciiRuntime (VMap [("a", VStr "x"); ("b", @VNum asciiRuntime 1%Z)])
  /\ @Marshal asciiRuntime (VMap [("b", @VNum asciiRuntime 1%Z); ("a", VStr "x")])
     = @Marshal asciiRuntime (VMap [("a", VStr "x"); ("b", @VNum asciiRuntime 1%Z)]).
Proof.
  apply (@map_printing_ignores_order asciiRuntime).
  - repeat constructor; try apply not_elem_of_nil;
      intros H; apply list_elem_of_singleton in H; discriminate.
  - apply Permutation_swap.
Defined.

Lemma script_value_has_no_raw_markup_witness :
  lacksByte ">" (@Marshal asciiRuntime (VList [VStr ("</script>" +:+ NL); @VNum asciiRuntime 7%Z]))
  = true
  /\ lacksByte (ascii_of_nat 10)
       (@Marshal asciiRuntime (VList [VStr ("</script>" +:+ NL); @VNum asciiRuntime 7%Z]))
     = true.
Proof.
  destruct (@script_value_has_no_raw_markup asciiRuntime
              (VList [VStr ("</script>" +:+ NL); @VNum asciiRuntime 7%Z]) ">"%char eq_refl)
    as [Hgt _].
  destruct (@script_value_has_no_raw_markup asciiRuntime
              (VList [VStr ("</script>" +:+ NL); @VNum asciiRuntime 7%Z])
              (ascii_of_nat 10) eq_refl)
    as [Hnl _].
  split; [apply Hgt; right; right; left; reflexivity | apply Hnl; left; reflexivity].
Defined.

(** The two paths that share a file. *)
Lemma revised_route_injective_witness :
  "/" = "/index." \/ "index.json" = "index.json".
Proof.
  apply (revised_route_injective "/" "/index." "index.json"); reflexivity.
Defined.

Lemma revised_unknown_csslib_ignored_witness :
  @Revision.renderHTML asciiRuntime plainEngine None
    [Revision.mkItem "1" [("h1", VStr "T")]]
    (Some [("apiKey", VStr "k"); ("csslib", VStr "Bootstrap")]) []
  = @Revision.renderHTML asciiRuntime plainEngine None
      [Revision.mkItem "1" [("h1", VStr "T")]]
      (Some [("csslib", VStr "Bootstrap")]) []
  /\ @Revision.renderHTML asciiRuntime plainEngine None
       [Revision.mkItem "1" [("h1", VStr "T")]]
       (Some [("csslib", VStr "Foundation"); ("apiKey", VStr "k")]) []
     = @Revision.renderHTML asciiRuntime plainEngine None
         [Revision.mkItem "1" [("h1", VStr "T")]] None [].
Proof.
  split.
  - apply (@revised_unknown_csslib_ignored asciiRuntime plainEngine None
             [Revision.mkItem "1" [("h1", VStr "T")]]
             [("csslib", VStr "Bootstrap")] []).
    reflexivity.
  - apply (@revised_unknown_csslib_ignored asciiRuntime plainEngine).
    intros cssLib [= <-]. right. intros Hin.
    repeat (apply elem_of_cons in Hin as [Hin | Hin]; [discriminate |]).
    now apply elem_of_nil in Hin.
Defined.


Lemma revised_injected_block_leaves_empty_container_witness :
  @Revision.renderItem asciiRuntime plainEngine None
    (Revision.mkItem "7" [("x", VStr "1")])
  = "<div id='7'></div>".
Proof.
  apply (@revised_injected_block_leaves_empty_container asciiRuntime plainEngine None
           (Revision.mkItem "7" [("x", VStr "1")])).
  repeat constructor.
Defined.

Lemma script_tag_written_verbatim_witness :
  Contains (@scriptLine asciiRuntime ("a'];alert(1);//", VNil)) "'];alert(1);//" = true.
Proof.
  apply (@script_tag_written_verbatim asciiRuntime). reflexivity.
Defined.

(** Resolving "dark moody" twice, the second time in another process. *)
Lemma resolution_repeats_witness :
  @getOrGenerateDesign asciiRuntime 2 "dark moody"
    (@getOrGenerateDesign asciiRuntime 1 "dark moody" uncachedTree).2
  = @getOrGenerateDesign asciiRuntime 1 "dark moody" uncachedTree
  /\ (@getOrGenerateDesign asciiRuntime 1 "dark moody" uncachedTree).1
     = "c4ca4238a0b923820dcc509a6f75849b".
Proof.
  split.
  - apply (@resolution_repeats asciiRuntime 1 2 "dark moody" uncachedTree).
    + vm_compute. discriminate.
    + intros H. exfalso. revert H. vm_compute. discriminate.
  - vm_compute. reflexivity.
Defined.
